(** * joss-dataset: collection, normalization and per-year aggregation

    A shallow embedding of the three scripts of the repository

    - [src/ingest/github_issues.py]              (module [GithubIssues]),
    - [src/transform/normalize_joss_submissions.py] (module [Normalize]),
    - [src/analysis/issues_per_year.py]          (module [IssuesPerYear]),

    together with the Python values they manipulate (module [Py]). *)

From Stdlib Require Import ZArith Lia.
From stdpp Require Import base option list strings gmap sorting pretty.

Set Warnings "-register-all".
Local Open Scope Z_scope.

(** ** Python values, exceptions and the pieces of the standard library
       the scripts call *)
Module Py.

(** A decoded JSON document, as [json.loads] builds it: [None], [bool],
    [int], [float], [str], [list] and [dict].  A [dict] is kept as an
    association list read by first match. *)
Inductive json : Type :=
  | JNull
  | JBool (b : bool)
  | JInt (z : Z)
  | JFloat (repr : string)
  | JStr (s : string)
  | JList (l : list json)
  | JObj (kv : list (string * json)).

(** [dict[str, object]]. *)
Abbreviation JsonObject := (list (string * json)).

Fixpoint assoc (k : string) (kv : JsonObject) : option json :=
  match kv with
  | [] => None
  | (k', v) :: rest => if String.eqb k k' then Some v else assoc k rest
  end.

(** [d.get(k)]: the value, or [None] when the key is missing. *)
Definition get (k : string) (d : JsonObject) : json :=
  default JNull (assoc k d).

(** [isinstance(v, int)].  In Python [bool] is a subclass of [int], so
    [True] and [False] pass this test. *)
Definition isinstance_int (v : json) : bool :=
  match v with JInt _ | JBool _ => true | _ => false end.

Definition isinstance_str (v : json) : bool :=
  match v with JStr _ => true | _ => false end.

Definition isinstance_dict (v : json) : bool :=
  match v with JObj _ => true | _ => false end.

Definition isinstance_list (v : json) : bool :=
  match v with JList _ => true | _ => false end.

(** The text of a [str] instance. *)
Definition str_value (v : json) : string :=
  match v with JStr s => s | _ => "" end.

(** The numeric value of an [int] instance ([True == 1], [False == 0]). *)
Definition int_value (v : json) : Z :=
  match v with
  | JInt z => z
  | JBool b => Z.b2z b
  | _ => 0
  end.

(** [str(v)] for an [int] instance, as an f-string renders it. *)
Definition str_int (v : json) : string :=
  match v with
  | JInt z => pretty z
  | JBool true => "True"
  | JBool false => "False"
  | _ => ""
  end.

(** [needle in haystack] on strings. *)
Fixpoint contains (needle haystack : string) : bool :=
  String.prefix needle haystack ||
  match haystack with
  | EmptyString => false
  | String _ rest => contains needle rest
  end.

(** A [str] that a script slices is kept as the list of its code points,
    so that [s[:n]] is [take n s]; [utf8] writes such a text out the way
    the other strings of the model are written, in UTF-8. *)
Definition utf8_char (c : N) : string :=
  let byte := Ascii.ascii_of_N in
  (if c <? 128 then String (byte c) ""
   else if c <? 2048 then
     String (byte (192 + c / 64)) (String (byte (128 + c mod 64)) "")
   else if c <? 65536 then
     String (byte (224 + c / 4096))
       (String (byte (128 + (c / 64) mod 64))
          (String (byte (128 + c mod 64)) ""))
   else
     String (byte (240 + c / 262144))
       (String (byte (128 + (c / 4096) mod 64))
          (String (byte (128 + (c / 64) mod 64))
             (String (byte (128 + c mod 64)) ""))))%N.

Definition utf8 (cs : list N) : string :=
  foldr (fun c rest => utf8_char c +:+ rest) "" cs.

(** The code points of an ASCII string. *)
Definition code_points (s : string) : list N :=
  Ascii.N_of_ascii <$> String.list_ascii_of_string s.

(** The line feed of an f-string. *)
Definition NEWLINE : string := String (Ascii.ascii_of_nat 10) "".

(** Exceptions that reach the top of a script. *)
Inductive exn : Type :=
  | RuntimeError (msg : string)
  | ValueError
  | OverflowError
  | OSError
  | AttributeError
  | JSONDecodeError.

Inductive result (A : Type) : Type :=
  | Returned (a : A)
  | Raised (e : exn).
Arguments Returned {A} a.
Arguments Raised {A} e.

Definition bind {A B} (r : result A) (k : A -> result B) : result B :=
  match r with
  | Returned a => k a
  | Raised e => Raised e
  end.

Definition is_returned {A} (r : result A) : bool :=
  match r with Returned _ => true | Raised _ => false end.

(** *** [datetime.fromtimestamp(ts, tz=timezone.utc).year]

    [datetime] covers the years 1 to 9999.  Outside that range the call
    raises: [OverflowError] when the value does not fit the platform's
    [time_t], [OSError] when [gmtime] cannot represent the year, and
    [ValueError] otherwise (CPython on a 64-bit POSIX platform). *)

Definition SECONDS_PER_DAY : Z := 86400.
(** Ordinal of 1970-01-01, with 0001-01-01 as day 1. *)
Definition EPOCH_ORDINAL : Z := 719163.
(** 0001-01-01T00:00:00Z and 9999-12-31T23:59:59Z. *)
Definition MIN_TIMESTAMP : Z := -62135596800.
Definition MAX_TIMESTAMP : Z := 253402300799.
Definition TIME_T_MIN : Z := - 2 ^ 63.
Definition TIME_T_MAX : Z := 2 ^ 63 - 1.
(** The first and the last second [gmtime] can break down: its year,
    counted from 1900, is a signed 32-bit integer. *)
Definition GMTIME_MIN : Z := -67768040609740800.
Definition GMTIME_MAX : Z := 67768036191676799.

(** The year part of [_ord2ymd]: the year holding a proleptic Gregorian
    ordinal. *)
Definition ord2year (ordinal : Z) : Z :=
  let n := ordinal - 1 in
  let n400 := n / 146097 in
  let n := n mod 146097 in
  let year := n400 * 400 + 1 in
  let n100 := n / 36524 in
  let n := n mod 36524 in
  let n4 := n / 1461 in
  let n := n mod 1461 in
  let n1 := n / 365 in
  let year := year + n100 * 100 + n4 * 4 + n1 in
  if (n1 =? 4) || (n100 =? 4) then year - 1 else year.

Definition fromtimestamp_utc_year (ts : Z) : result Z :=
  if (ts <? TIME_T_MIN) || (TIME_T_MAX <? ts) then Raised OverflowError
  else if (ts <? GMTIME_MIN) || (GMTIME_MAX <? ts) then Raised OSError
  else if (ts <? MIN_TIMESTAMP) || (MAX_TIMESTAMP <? ts) then Raised ValueError
  else Returned (ord2year (ts / SECONDS_PER_DAY + EPOCH_ORDINAL)).



(** Number of days before January 1st of year [y] (year 1 starts at 0). *)
Definition days_before_year (y : Z) : Z :=
  let p := y - 1 in p * 365 + p / 4 - p / 100 + p / 400.

(** UNIX time of [y]-01-01T00:00:00Z. *)
Definition year_start (y : Z) : Z :=
  (days_before_year y + 1 - EPOCH_ORDINAL) * SECONDS_PER_DAY.

End Py.

(** ** [src/analysis/issues_per_year.py] *)
Module IssuesPerYear.
Import Py.

(** [Counter[int]]: a finite map from year to a positive count. *)
Definition counter_get (counts : gmap Z nat) (year : Z) : nat :=
  default 0%nat (counts !! year).

(** [counts[year] += 1]. *)
Definition counter_incr (year : Z) (counts : gmap Z nat) : gmap Z nat :=
  <[year := S (counter_get counts year)]> counts.

Definition _unix_to_year (ts : Z) : result Z := fromtimestamp_utc_year ts.

(** [_load_submissions], on the outcome of decoding the input file
    ([None] when [json.loads] raises). *)
Definition _load_submissions (decoded : option json) : result (list JsonObject) :=
  match decoded with
  | None => Raised JSONDecodeError
  | Some (JList items) =>
      Returned (omap (fun item => match item with JObj d => Some d | _ => None end) items)
  | Some _ => Raised (RuntimeError "Expected top-level JSON list of submissions")
  end.

(** The loop of [_count_years], from the counter built so far. *)
Fixpoint count_years_from (counts : gmap Z nat) (submissions : list JsonObject)
    (key : string) (skip_zero : bool) : result (gmap Z nat) :=
  match submissions with
  | [] => Returned counts
  | sub :: rest =>
      let ts := get key sub in
      if negb (isinstance_int ts) then count_years_from counts rest key skip_zero
      else if skip_zero && (int_value ts =? 0) then
        count_years_from counts rest key skip_zero
      else
        bind (_unix_to_year (int_value ts)) (fun year =>
          count_years_from (counter_incr year counts) rest key skip_zero)
  end.

Definition _count_years (submissions : list JsonObject) (key : string)
    (skip_zero : bool) : result (gmap Z nat) :=
  count_years_from ∅ submissions key skip_zero.

(** A chart saved by [fig.savefig]: where, under which title, and the
    bars drawn. *)
Record chart : Type := Chart {
  chart_path : string;
  chart_title : string;
  chart_years : list Z;
  chart_values : list nat
}.

(** [_plot_counts]; [saved] lists the charts written so far, oldest
    first. *)
Definition _plot_counts (counts : gmap Z nat) (title out_path : string)
    (saved : list chart) : result unit * list chart :=
  if decide (counts = ∅) then
    (Raised (RuntimeError ("No data to plot for: " +:+ title)), saved)
  else
    let years := merge_sort Z.le (elements (dom counts)) in
    let values := map (counter_get counts) years in
    (Returned tt, saved ++ [Chart out_path title years values]).

(** [min(xs)] and [max(xs)]: [ValueError] on an empty sequence. *)
Definition py_min (xs : list Z) : result Z :=
  match xs with
  | [] => Raised ValueError
  | x :: rest => Returned (foldr Z.min x rest)
  end.

Definition py_max (xs : list Z) : result Z :=
  match xs with
  | [] => Raised ValueError
  | x :: rest => Returned (foldr Z.max x rest)
  end.

(** The arguments of the "years: min-max (total)" log lines are
    evaluated before the line is logged. *)
Definition log_year_range (counts : gmap Z nat) : result unit :=
  let keys := elements (dom counts) in
  bind (py_min keys) (fun _ => bind (py_max keys) (fun _ => Returned tt)).

Definition OPENED_TITLE : string := "Number of issues opened per year (editorialbot)".
Definition CLOSED_TITLE : string := "Number of issues closed per year (editorialbot)".
Definition OPEN_PLOT : string := "open_issues_per_year.png".
Definition CLOSED_PLOT : string := "closed_issues_per_year.png".

(** [main] once the input file is known to exist: everything from
    [_load_submissions] on.  The result is the exit code or the exception
    that ends the process, with the charts saved on the way. *)
Definition main_loaded (decoded : option json) : result Z * list chart :=
  match _load_submissions decoded with
  | Raised e => (Raised e, [])
  | Returned submissions =>
    match _count_years submissions "Opened" false with
    | Raised e => (Raised e, [])
    | Returned opened_counts =>
      match _count_years submissions "Closed" true with
      | Raised e => (Raised e, [])
      | Returned closed_counts =>
        match log_year_range opened_counts with
        | Raised e => (Raised e, [])
        | Returned _ =>
          match (if decide (closed_counts = ∅) then Returned tt
                 else log_year_range closed_counts) with
          | Raised e => (Raised e, [])
          | Returned _ =>
            match _plot_counts opened_counts OPENED_TITLE OPEN_PLOT [] with
            | (Raised e, saved) => (Raised e, saved)
            | (Returned _, saved) =>
                if decide (closed_counts = ∅) then (Returned 0, saved)
                else
                  match _plot_counts closed_counts CLOSED_TITLE CLOSED_PLOT saved with
                  | (Raised e, saved') => (Raised e, saved')
                  | (Returned _, saved') => (Returned 0, saved')
                  end
            end
          end
        end
      end
    end
  end.

(** [main]: [in_file] is [None] when the input path does not exist. *)
Definition main (in_file_name : string) (in_file : option (option json))
    : result Z * list chart :=
  match in_file with
  | None =>
      (Raised (RuntimeError
         ("Input file not found: " +:+ in_file_name +:+ NEWLINE +:+
          "Run the normalization step first to generate " +:+
          "data/derived/joss_submissions.json")), [])
  | Some decoded => main_loaded decoded
  end.

End IssuesPerYear.

(** ** [src/ingest/github_issues.py] *)
Module GithubIssues.
Import Py.

Definition HTTP_OK : Z := 200.
Definition HTTP_FORBIDDEN : Z := 403.
Definition PER_PAGE_REQUIRED : Z := 100.

Record RepoTarget : Type := { owner : string; repo : string }.

Definition full_name (t : RepoTarget) : string := owner t +:+ "/" +:+ repo t.

Record Config : Type := {
  token : string;
  target : RepoTarget;
  bot : string;
  state : string;
  per_page : Z;
  overwrite : bool;
  max_pages : option Z
}.

(** What the script reads of a [requests.Response]: the status, the three
    rate-limit headers, the body as text (its code points, since the
    script slices it), the final URL, and the body as [resp.json()]
    decodes it ([None] when decoding raises). *)
Record response : Type := {
  status_code : Z;
  ratelimit_remaining : option string;
  ratelimit_limit : option string;
  ratelimit_reset : option string;
  text : list N;
  url : string;
  json_data : option json
}.

(** The varying query parameters of a page request ([sort] and
    [direction] are constants). *)
Record query : Type := { q_state : string; q_per_page : Z; q_page : Z }.

Inductive event : Type :=
  | Get (q : query)
  | Sleep (secs : Z).

(** The outside world of one run: the remote service, answering the
    [i]-th request of the run for query [q] with [server q i]; the clock
    in whole seconds; the longest sleep, in seconds, that the operating
    system accepts at this point (on Linux about [SLEEP_MAX] less the
    reading of the monotonic clock); the number of requests sent; and
    the requests and sleeps so far, oldest first. *)
Record world : Type := {
  server : query -> nat -> response;
  now : Z;
  sleep_limit : Z;
  requests : nat;
  trace : list event
}.

(** [session.get(url, params=params, timeout=30)]. *)
Definition session_get (q : query) (w : world) : response * world :=
  (server w q (requests w),
   {| server := server w; now := now w; sleep_limit := sleep_limit w;
      requests := S (requests w); trace := trace w ++ [Get q] |}).

(** [time.sleep(secs)] on an [int].  The duration is first converted to
    nanoseconds on 64 bits, which raises [OverflowError] beyond
    [SLEEP_MAX] seconds; a negative duration is a [ValueError]; and the
    operating system refuses, with [OSError], a sleep that ends past
    what its clock can represent, that is one longer than
    [sleep_limit w].  A sleep that raises takes no time. *)
Definition SLEEP_MAX : Z := 9223372036.

Definition time_sleep (secs : Z) (w : world) : result unit * world :=
  if (secs <? - SLEEP_MAX) || (SLEEP_MAX <? secs) then (Raised OverflowError, w)
  else if secs <? 0 then (Raised ValueError, w)
  else if sleep_limit w <? secs then (Raised OSError, w)
  else
    (Returned tt,
     {| server := server w; now := now w + secs;
        sleep_limit := sleep_limit w - secs;
        requests := requests w; trace := trace w ++ [Sleep secs] |}).

(** The output directory: whether it exists, and the decoded content of
    each file by name ([None] for a file that is not valid JSON). *)
Record store : Type := {
  dir_exists : bool;
  files : gmap string (option json)
}.

Definition empty_store : store := {| dir_exists := false; files := ∅ |}.

(** [out_dir.mkdir(parents=True, exist_ok=True)]. *)
Definition mkdir (st : store) : store :=
  {| dir_exists := true; files := files st |}.

Section Collector.

(** [int(s)] on a string ([None] when it raises [ValueError]) and
    [datetime.isoformat] of the UTC instant of a timestamp. *)
Variable int_of_str : string -> option Z.
Variable isoformat : Z -> string.

Definition utc_now_iso (w : world) : string := isoformat (now w).

Definition rate_limit_status (resp : response) : result string :=
  match ratelimit_remaining resp, ratelimit_limit resp with
  | Some remaining, Some limit =>
      match ratelimit_reset resp with
      | None => Returned ("rate-limit: " +:+ remaining +:+ "/" +:+ limit)
      | Some reset =>
          let parse_error :=
            "rate-limit: " +:+ remaining +:+ "/" +:+ limit +:+ " (reset parse error)" in
          match int_of_str reset with
          | None => Returned parse_error
          | Some reset_ts =>
              match fromtimestamp_utc_year reset_ts with
              | Raised ValueError => Returned parse_error
              | Raised e => Raised e
              | Returned _ =>
                  Returned ("rate-limit: " +:+ remaining +:+ "/" +:+ limit +:+
                            " (resets " +:+ isoformat reset_ts +:+ ")")
              end
          end
      end
  | _, _ => Returned "rate-limit: unknown"
  end.

(** The guard of [sleep_until_reset]: a 403 whose remaining quota is
    the string ["0"] and that carries a reset header. *)
Definition rate_limited (resp : response) : bool :=
  (status_code resp =? HTTP_FORBIDDEN) &&
  bool_decide (ratelimit_remaining resp = Some "0") &&
  bool_decide (is_Some (ratelimit_reset resp)).

Definition sleep_until_reset (resp : response) (w : world) : result unit * world :=
  if negb (rate_limited resp) then (Returned tt, w)
  else
    match int_of_str (default "" (ratelimit_reset resp)) with
    | None => (Raised ValueError, w)
    | Some reset_ts =>
        let now_ts := now w in
        let sleep_for := Z.max 0 (reset_ts - now_ts) + 5 in
        match fromtimestamp_utc_year reset_ts with
        | Raised e => (Raised e, w)
        | Returned _ => time_sleep sleep_for w
        end
    end.

Definition api_error_message (resp : response) : string :=
  "GitHub API error " +:+ pretty (status_code resp) +:+ " for " +:+ url resp
  +:+ NEWLINE +:+ "Response (first 500 chars): " +:+ utf8 (take 500 (text resp)).

Definition fetch_issues_page (page per_page : Z) (state : string) (w : world)
    : result (list json) * world :=
  let params := {| q_state := state; q_per_page := per_page; q_page := page |} in
  let '(resp, w) := session_get params w in
  let '(got, w) :=
    if status_code resp =? HTTP_FORBIDDEN then
      match sleep_until_reset resp w with
      | (Raised e, w) => (Raised e, w)
      | (Returned _, w) =>
          let '(resp, w) := session_get params w in (Returned resp, w)
      end
    else (Returned resp, w) in
  match got with
  | Raised e => (Raised e, w)
  | Returned resp =>
      if negb (status_code resp =? HTTP_OK) then
        (Raised (RuntimeError (api_error_message resp)), w)
      else
        match rate_limit_status resp with
        | Raised e => (Raised e, w)
        | Returned _ =>
            match json_data resp with
            | None => (Raised JSONDecodeError, w)
            | Some (JList data) => (Returned data, w)
            | Some _ =>
                (Raised (RuntimeError "Unexpected response type: expected list"), w)
            end
        end
  end.

(** [opened_by_login]; an item that is not a [dict] has no [get]. *)
Definition opened_by_login (issue : json) (login : string) : result bool :=
  match issue with
  | JObj d =>
      match get "user" d with
      | JObj user_obj =>
          match get "login" user_obj with
          | JStr user_login => Returned (String.eqb user_login login)
          | _ => Returned false
          end
      | _ => Returned false
      end
  | _ => Raised AttributeError
  end.

(** [[issue for issue in issues if opened_by_login(issue, login)]]. *)
Fixpoint bot_issues_of (issues : list json) (login : string)
    : result (list JsonObject) :=
  match issues with
  | [] => Returned []
  | issue :: rest =>
      bind (opened_by_login issue login) (fun keep =>
        bind (bot_issues_of rest login) (fun kept =>
          Returned (match issue with
                    | JObj d => if keep then d :: kept else kept
                    | _ => kept
                    end)))
  end.

(** [issue_number]: the number as Python holds it. *)
Definition issue_number (issue : JsonObject) : option json :=
  let number := get "number" issue in
  if isinstance_int number then Some number else None.

Definition issue_path (number : json) : string :=
  "issue_" +:+ str_int number +:+ ".json".

Definition raw_item (issue : JsonObject) (repo_full_name fetched_at : string) : json :=
  JObj [("source", JStr "github");
        ("repo", JStr repo_full_name);
        ("fetched_at", JStr fetched_at);
        ("issue", JObj issue)].

Definition write_issue_file (issue : JsonObject) (repo_full_name : string)
    (overwrite : bool) (w : world) (st : store) : bool * store :=
  match issue_number issue with
  | None => (false, st)
  | Some number =>
      let st := mkdir st in
      let out_path := issue_path number in
      if bool_decide (is_Some (files st !! out_path)) && negb overwrite then
        (false, st)
      else
        let payload := raw_item issue repo_full_name (utc_now_iso w) in
        (true, {| dir_exists := dir_exists st;
                  files := <[out_path := Some payload]> (files st) |})
  end.

(** The [for issue in bot_issues] loop: the number of files it wrote. *)
Fixpoint write_bot_issues (bot_issues : list JsonObject) (config : Config)
    (w : world) (st : store) : nat * store :=
  match bot_issues with
  | [] => (0%nat, st)
  | issue :: rest =>
      let '(wrote, st) :=
        write_issue_file issue (full_name (target config)) (overwrite config) w st in
      let '(written, st) := write_bot_issues rest config w st in
      ((if wrote then S written else written), st)
  end.

Record totals : Type := {
  total_fetched : nat;
  total_bot : nat;
  total_written : nat
}.

(** How a run ends: with the totals it logs before returning 0, or with
    an exception; what it leaves on disk; and the world after it. *)
Record run : Type := {
  outcome : result totals;
  disk : store;
  final : world
}.

(** The [while True] loop of [main] from page [page] on.  [fuel] bounds
    the number of iterations; [None] means the bound was reached. *)
Fixpoint collect_from (fuel : nat) (config : Config) (page : Z) (t : totals)
    (st : store) (w : world) : option run :=
  match fuel with
  | O => None
  | S fuel =>
      match fetch_issues_page page (per_page config) (state config) w with
      | (Raised e, w) => Some {| outcome := Raised e; disk := st; final := w |}
      | (Returned [], w) => Some {| outcome := Returned t; disk := st; final := w |}
      | (Returned issues, w) =>
          match bot_issues_of issues (bot config) with
          | Raised e => Some {| outcome := Raised e; disk := st; final := w |}
          | Returned bot_issues =>
              let '(written, st) := write_bot_issues bot_issues config w st in
              let t := {| total_fetched := total_fetched t + length issues;
                          total_bot := total_bot t + length bot_issues;
                          total_written := total_written t + written |}%nat in
              if Z.of_nat (length issues) <? per_page config then
                Some {| outcome := Returned t; disk := st; final := w |}
              else if match max_pages config with
                      | Some m => m <=? page
                      | None => false
                      end
              then Some {| outcome := Returned t; disk := st; final := w |}
              else collect_from fuel config (page + 1) t st w
          end
      end
  end.

Definition no_totals : totals :=
  {| total_fetched := 0; total_bot := 0; total_written := 0 |}.

(** [main] after the configuration is built. *)
Definition main (fuel : nat) (config : Config) (st : store) (w : world)
    : option run :=
  collect_from fuel config 1 no_totals st w.

End Collector.

(** Stand-ins for [int] and [isoformat], used to run the collector on
    examples: [int] on plain digit strings, and the seconds written out
    in decimal. *)
Fixpoint digits_value (acc : Z) (s : string) : option Z :=
  match s with
  | EmptyString => Some acc
  | String c rest =>
      let d := Z.of_nat (Ascii.nat_of_ascii c) - 48 in
      if (0 <=? d) && (d <=? 9) then digits_value (10 * acc + d) rest else None
  end.

Definition sample_int_of_str (s : string) : option Z :=
  match s with
  | EmptyString => None
  | _ => digits_value 0 s
  end.

Definition sample_isoformat (ts : Z) : string := pretty ts.

(** A simulated paginated source: a fixed list of issues served in pages
    of the requested size, always with status 200. *)
Definition page_slice (items : list JsonObject) (per_page page : Z) : list json :=
  JObj <$> take (Z.to_nat per_page) (drop (Z.to_nat ((page - 1) * per_page)) items).

Definition ok_response (data : list json) : response :=
  {| status_code := HTTP_OK;
     ratelimit_remaining := None; ratelimit_limit := None;
     ratelimit_reset := None;
     text := []; url := ""; json_data := Some (JList data) |}.

Definition paginated_source (items : list JsonObject) : query -> nat -> response :=
  fun q _ => ok_response (page_slice items (q_per_page q) (q_page q)).

Definition fresh_world (srv : query -> nat -> response) (clock : Z) : world :=
  {| server := srv; now := clock; sleep_limit := SLEEP_MAX;
     requests := 0; trace := [] |}.

(** Number of page requests sent during a run. *)
Definition pages_requested (w : world) : nat := requests w.

End GithubIssues.

(** ** [src/transform/normalize_joss_submissions.py] *)
Module Normalize.
Import Py.

Definition MARKER : string := "<!--author-handle-->".

(** A directory entry: the file name and its decoded content, [None]
    for a file on which [json.loads] raises. *)
Definition entry : Type := string * option json.

Definition ends_with (suffix s : string) : bool :=
  String.prefix (String.rev suffix) (String.rev s).

(** Whether a file name matches the pattern [issue_*.json]. *)
Definition glob_issue (name : string) : bool :=
  String.prefix "issue_" name && ends_with ".json" name
  && (11 <=? String.length name)%nat.

(** Paths of one directory compare by file name, code point by code
    point. *)
Definition path_le (a b : entry) : Prop := String.le (fst a) (fst b).

Global Instance path_le_dec : RelDecision path_le.
Proof. intros a b. unfold path_le. apply _. Defined.

(** [sorted(in_dir.glob("issue_*.json"))]. *)
Definition issue_files (in_dir : gmap string (option json)) : list entry :=
  merge_sort path_le
    (filter (fun e : entry => glob_issue (fst e) = true) (map_to_list in_dir)).

Definition _labels_from_issue (issue : JsonObject) : list string :=
  match assoc "labels" issue with
  | None => []
  | Some (JList labels_obj) =>
      omap (fun item =>
              match item with
              | JObj d => match get "name" d with JStr name => Some name | _ => None end
              | _ => None
              end) labels_obj
  | Some _ => []
  end.

Section Normalizer.

(** The normalized record, as [model_dump(by_alias=True)] returns it,
    and the body parser [from_github_issue_payload] of
    [src/transform/joss_submission.py], which is taken as given: it is
    handed the number, the body, [created_at], [closed_at] (when a
    string) and the label names, and either builds a record or raises
    ([None]). *)
Variable Submission : Type.
Variable from_github_issue_payload :
  json -> string -> string -> option string -> list string -> option Submission.

Record tally : Type := {
  submissions : list Submission;
  skipped : nat;
  failed : nat
}.

Definition skip (t : tally) : tally :=
  {| submissions := submissions t; skipped := S (skipped t); failed := failed t |}.

Definition fail (t : tally) : tally :=
  {| submissions := submissions t; skipped := skipped t; failed := S (failed t) |}.

Definition emit (s : Submission) (t : tally) : tally :=
  {| submissions := submissions t ++ [s]; skipped := skipped t; failed := failed t |}.

(** One iteration of the [for path in issue_files] loop. *)
Definition normalize_file (content : option json) (t : tally) : result tally :=
  match content with
  | None => Raised JSONDecodeError
  | Some (JObj raw) =>
      match get "issue" raw with
      | JObj issue =>
          let body := get "body" issue in
          if negb (isinstance_str body) || negb (contains MARKER (str_value body))
          then Returned (skip t)
          else
            let number := get "number" issue in
            let created_at := get "created_at" issue in
            let closed_at := get "closed_at" issue in
            if negb (isinstance_int number) || negb (isinstance_str created_at)
            then Returned (skip t)
            else
              let labels := _labels_from_issue issue in
              match from_github_issue_payload number (str_value body)
                      (str_value created_at)
                      (if isinstance_str closed_at then Some (str_value closed_at)
                       else None)
                      labels with
              | None => Returned (fail t)
              | Some submission => Returned (emit submission t)
              end
      | _ => Returned (skip t)
      end
  | Some _ => Raised AttributeError
  end.

Fixpoint normalize_files (paths : list entry) (t : tally) : result tally :=
  match paths with
  | [] => Returned t
  | path :: rest => bind (normalize_file (snd path) t) (normalize_files rest)
  end.

Definition no_tally : tally := {| submissions := []; skipped := 0; failed := 0 |}.

Definition _normalize_dir (in_dir : gmap string (option json)) : result tally :=
  normalize_files (issue_files in_dir) no_tally.

(** [main]: [in_dir] is [None] when the input directory does not exist.
    A run that returns leaves the exit code and the list written to the
    output file. *)
Definition main (in_dir_name : string) (in_dir : option (gmap string (option json)))
    : result (Z * list Submission) :=
  match in_dir with
  | None => Raised (RuntimeError ("Input dir does not exist: " +:+ in_dir_name))
  | Some dir =>
      bind (_normalize_dir dir) (fun t => Returned (0, submissions t))
  end.

End Normalizer.

Arguments submissions {Submission} t.
Arguments skipped {Submission} t.
Arguments failed {Submission} t.

(** A stand-in for the body parser, used to run the normalizer on
    examples: it accepts an item whose body closes the author handle
    with [<!--end-author-handle-->], and keeps the number and the labels
    it was handed. *)
Record sample_submission : Type := {
  sample_number : Z;
  sample_labels : list string
}.

Definition sample_parser (number : json) (body created_at : string)
    (closed_at : option string) (labels : list string) : option sample_submission :=
  if contains "<!--end-author-handle-->" body
  then Some {| sample_number := int_value number; sample_labels := labels |}
  else None.

End Normalize.

(** ** Vocabulary of the properties *)
Module Props.
Import Py.

(** The instant [ts] lies in calendar year [y] of the UTC Gregorian
    calendar. *)
Definition in_year (y ts : Z) : bool :=
  (year_start y <=? ts) && (ts <? year_start (y + 1)).

(** The record carries under [key] a timestamp that [_count_years] is
    asked to count: an [int], and not the sentinel 0 when zeros are
    skipped. *)
Definition counted (key : string) (skip_zero : bool) (sub : JsonObject) : bool :=
  isinstance_int (get key sub)
  && negb (skip_zero && (int_value (get key sub) =? 0)).

(** The record counts for year [y]. *)
Definition bucketed (key : string) (skip_zero : bool) (y : Z) (sub : JsonObject) : bool :=
  counted key skip_zero sub && in_year y (int_value (get key sub)).

(** Number of records of a list that count for year [y]. *)
Definition records_in_year (key : string) (skip_zero : bool) (y : Z)
    (subs : list JsonObject) : nat :=
  length (List.filter (bucketed key skip_zero y) subs).

(** Every counted timestamp is an instant [datetime] can represent. *)
Definition timestamps_in_range (key : string) (skip_zero : bool)
    (subs : list JsonObject) : Prop :=
  Forall (fun sub => counted key skip_zero sub = true ->
                     MIN_TIMESTAMP <= int_value (get key sub) <= MAX_TIMESTAMP) subs.

(** What [fetch_issues_page] makes of the response it ends up with. *)
Definition page_result (int_of_str : string -> option Z) (isoformat : Z -> string)
    (resp : GithubIssues.response) : result (list json) :=
  if negb (GithubIssues.status_code resp =? GithubIssues.HTTP_OK) then
    Raised (RuntimeError (GithubIssues.api_error_message resp))
  else
    match GithubIssues.rate_limit_status int_of_str isoformat resp with
    | Raised e => Raised e
    | Returned _ =>
        match GithubIssues.json_data resp with
        | None => Raised JSONDecodeError
        | Some (JList data) => Returned data
        | Some _ => Raised (RuntimeError "Unexpected response type: expected list")
        end
    end.

(** An unchanged remote state: the answer to a query does not depend
    on when it is asked. *)
Definition stationary (srv : GithubIssues.query -> nat -> GithubIssues.response) : Prop :=
  forall q i j, srv q i = srv q j.

(** Two worlds face the same remote service. *)
Definition same_remote (w w' : GithubIssues.world) : Prop :=
  forall q i, GithubIssues.server w' q i = GithubIssues.server w q i.

(** Everything that exists in [st] exists in [st']. *)
Definition store_le (st st' : GithubIssues.store) : Prop :=
  (GithubIssues.dir_exists st = true -> GithubIssues.dir_exists st' = true)
  /\ forall name, is_Some (GithubIssues.files st !! name) ->
                  is_Some (GithubIssues.files st' !! name).

(** The file of the issue, if it is numbered, is on disk. *)
Definition present (st : GithubIssues.store) (issue : JsonObject) : Prop :=
  forall number, GithubIssues.issue_number issue = Some number ->
    GithubIssues.dir_exists st = true
    /\ is_Some (GithubIssues.files st !! GithubIssues.issue_path number).

(** The issue number held by a raw item file. *)
Definition raw_number (content : option json) : option json :=
  match content with
  | Some (JObj raw) =>
      match get "issue" raw with
      | JObj issue => GithubIssues.issue_number issue
      | _ => None
      end
  | _ => None
  end.

(** Every file of the store is a raw item named after its issue
    number. *)
Definition keyed (files : gmap string (option json)) : Prop :=
  forall name content, files !! name = Some content ->
    exists number, raw_number content = Some number
                   /\ name = GithubIssues.issue_path number.

(** Two worlds whose clocks read the same: the time, and how long a
    sleep can be. *)
Definition same_clock (w w' : GithubIssues.world) : Prop :=
  GithubIssues.now w' = GithubIssues.now w
  /\ GithubIssues.sleep_limit w' = GithubIssues.sleep_limit w.

(** How the totals of a second pass relate to those of the first: the
    same pages and the same matches, and nothing written; a pass that
    failed fails again, with the same exception when the clocks read
    the same ([same]). *)
Definition repeats (same : Prop) (t : GithubIssues.totals)
    (first : result GithubIssues.totals) (t2 : GithubIssues.totals)
    (second : result GithubIssues.totals) : Prop :=
  match first with
  | Raised e => exists e2, second = Raised e2 /\ (same -> e2 = e)
  | Returned t1 =>
      exists t2', second = Returned t2'
        /\ GithubIssues.total_written t2' = GithubIssues.total_written t2
        /\ (GithubIssues.total_fetched t2' + GithubIssues.total_fetched t
            = GithubIssues.total_fetched t1 + GithubIssues.total_fetched t2)%nat
        /\ (GithubIssues.total_bot t2' + GithubIssues.total_bot t = GithubIssues.total_bot t1 + GithubIssues.total_bot t2)%nat
  end.

(** With [total] items served [per_page] at a time, the first page that
    comes back short. *)
Definition last_page (total per_page : Z) : Z := total / per_page + 1.

(** [ceil(total / per_page)]. *)
Definition ceil_div (total per_page : Z) : Z := (total + per_page - 1) / per_page.

(** The page where the loop stops: the first short page, or the ceiling
    when it comes first (a ceiling below 1 still lets page 1 through). *)
Definition stop_page (config : GithubIssues.Config) (total : Z) : Z :=
  match GithubIssues.max_pages config with
  | None => last_page total (GithubIssues.per_page config)
  | Some m => Z.min (last_page total (GithubIssues.per_page config)) (Z.max 1 m)
  end.

(** The record a directory entry contributes to the output, if any. *)
Definition emitted {Submission : Type}
    (parser : json -> string -> string -> option string -> list string
              -> option Submission)
    (e : Normalize.entry) : option Submission :=
  match Normalize.normalize_file Submission parser (snd e)
          (Normalize.no_tally Submission) with
  | Returned t => head (Normalize.submissions t)
  | Raised _ => None
  end.

(** A raw item file that decodes to a JSON object. *)
Definition well_formed (e : Normalize.entry) : Prop :=
  exists raw, snd e = Some (JObj raw).

(** The issue number of a raw item file, as an integer. *)
Definition file_number (e : Normalize.entry) : option Z :=
  int_value <$> raw_number (snd e).

(** The body parser stores the number it is handed as the record's
    [issueNumber]. *)
Definition keeps_number {Submission : Type}
    (parser : json -> string -> string -> option string -> list string
              -> option Submission)
    (issueNumber : Submission -> Z) : Prop :=
  forall number body created_at closed_at labels s,
    parser number body created_at closed_at labels = Some s ->
    issueNumber s = int_value number.

(** A file [issue_<N>.json] holding issue [N], a natural number written
    with [width] digits. *)
Definition numbered_file (width : nat) (e : Normalize.entry) : Prop :=
  exists n, 0 <= n
            /\ raw_number (snd e) = Some (JInt n)
            /\ fst e = GithubIssues.issue_path (JInt n)
            /\ String.length (pretty n) = width.

(** The chart [_plot_counts] draws from a counter. *)
Definition chart_of (counts : gmap Z nat) (title out_path : string)
    : IssuesPerYear.chart :=
  let years := merge_sort Z.le (elements (dom counts)) in
  IssuesPerYear.Chart out_path title years (map (IssuesPerYear.counter_get counts) years).

(** *** Vocabulary of the further properties *)

(** [sum(counts.values())]. *)
Definition counter_total (counts : gmap Z nat) : nat :=
  map_fold (fun _ n acc => (n + acc)%nat) 0%nat counts.

(** Number of records of a list that [_count_years] counts. *)
Definition records_counted (key : string) (skip_zero : bool)
    (subs : list JsonObject) : nat :=
  length (List.filter (counted key skip_zero) subs).

(** Every bucket of a counter is a year of [datetime] and holds at
    least one record. *)
Definition buckets_sound (counts : gmap Z nat) : Prop :=
  forall y n, counts !! y = Some n -> 1 <= y <= 9999 /\ (1 <= n)%nat.

(** The issue names [login] as the account that opened it. *)
Definition opened_by (login : string) (issue : JsonObject) : Prop :=
  exists user_obj, get "user" issue = JObj user_obj
                   /\ get "login" user_obj = JStr login.

(** The test of [opened_by_login] on an object, as a boolean. *)
Definition by_login (login : string) (issue : JsonObject) : bool :=
  match GithubIssues.opened_by_login (JObj issue) login with
  | Returned keep => keep
  | Raised _ => false
  end.

(** A raw item written for [config]: an issue opened by the bot, wrapped
    with the repository name, in the file named after its number. *)
Definition bot_item (config : GithubIssues.Config) (name : string)
    (content : option json) : Prop :=
  exists issue number fetched_at,
    content = Some (GithubIssues.raw_item issue
                      (GithubIssues.full_name (GithubIssues.target config))
                      fetched_at)
    /\ opened_by (GithubIssues.bot config) issue
    /\ GithubIssues.issue_number issue = Some number
    /\ name = GithubIssues.issue_path number.

(** The totals of a run are consistent: nothing was written that was
    not matched, nothing matched that was not fetched. *)
Definition totals_ordered (t : GithubIssues.totals) : Prop :=
  (GithubIssues.total_written t <= GithubIssues.total_bot t
   <= GithubIssues.total_fetched t)%nat.

(** The file names the issues of a page are written to. *)
Definition page_paths (bot_issues : list JsonObject) : list string :=
  omap (fun issue => GithubIssues.issue_path <$> GithubIssues.issue_number issue)
       bot_issues.

(** A label object named [name]. *)
Definition label_named (item : json) (name : string) : Prop :=
  exists d, item = JObj d /\ get "name" d = JStr name.

End Props.

(** ** Inputs of the examples *)
Module Samples.
Import Py.

(** *** Aggregation *)

(** Three records: one still open, one closed, one without timestamps. *)
Definition sample_records : list JsonObject :=
  [ [("Opened", JInt 1640995199); ("Closed", JInt 0)];
    [("Opened", JInt 0); ("Closed", JInt 1640995200)];
    [("Title", JStr "untimed")] ].


(** One record, opened at 2021-12-31T23:59:59Z and not closed. *)
Definition open_only : json :=
  JList [JObj [("Opened", JInt 1640995199); ("Closed", JInt 0)]].

(** *** Collection *)
Import GithubIssues.

Definition by_bot (number : Z) : JsonObject :=
  [("number", JInt number); ("user", JObj [("login", JStr "editorialbot")])].

Definition by_other (number : Z) : JsonObject :=
  [("number", JInt number); ("user", JObj [("login", JStr "someone")])].

Definition numberless : JsonObject :=
  [("title", JStr "no number"); ("user", JObj [("login", JStr "editorialbot")])].

Definition five_issues : list JsonObject :=
  [by_bot 12; by_other 11; by_bot 10; numberless; by_bot 5].

Definition two_per_page : Config :=
  {| token := "secret";
     target := {| owner := "openjournals"; repo := "joss-reviews" |};
     bot := "editorialbot"; state := "all"; per_page := 2;
     overwrite := false; max_pages := None |}.

Definition first_page : query :=
  {| q_state := "all"; q_per_page := 100; q_page := 1 |}.

Definition forbidden (remaining reset : option string) : response :=
  {| status_code := HTTP_FORBIDDEN;
     ratelimit_remaining := remaining; ratelimit_limit := Some "5000";
     ratelimit_reset := reset;
     text := code_points "forbidden"; url := "https://api.github.com/repos/o/r/issues";
     json_data := None |}.

(** A service that answers the first request with [resp] and every later
    one with an empty page. *)
Definition once_then_empty (resp : response) : query -> nat -> response :=
  fun _ i => match i with O => resp | S _ => ok_response [] end.

(** *** Normalization *)

Definition GOOD_BODY : string :=
  "**Submitting author:** <!--author-handle-->@someone<!--end-author-handle-->".
Definition HOUSEKEEPING_BODY : string := "Monthly housekeeping".
Definition BAD_BODY : string := "<!--author-handle-->@someone".

(** The raw item file the collector writes for issue [number]. *)
Definition issue_fields (number : Z) (body : string) : JsonObject :=
  [("number", JInt number);
   ("body", JStr body);
   ("created_at", JStr "2021-01-01T00:00:00Z");
   ("closed_at", JNull);
   ("labels", JList [JObj [("name", JStr "review")]])].

Definition raw_fields (number : Z) (body : string) : JsonObject :=
  [("source", JStr "github");
   ("repo", JStr "openjournals/joss-reviews");
   ("fetched_at", JStr "2026-01-01T00:00:00+00:00");
   ("issue", JObj (issue_fields number body))].

Definition item (number : Z) (body : string) : option json :=
  Some (JObj (raw_fields number body)).

Definition sample_of (number : Z) : Normalize.sample_submission :=
  {| Normalize.sample_number := number; Normalize.sample_labels := ["review"] |}.

(** Issues 10 and 5, as the collector names them. *)
Definition dir_10_5 : gmap string (option json) :=
  {[ "issue_10.json" := item 10 GOOD_BODY; "issue_5.json" := item 5 GOOD_BODY ]}.

(** Issues 5 and 7. *)
Definition dir_5_7 : gmap string (option json) :=
  {[ "issue_7.json" := item 7 GOOD_BODY; "issue_5.json" := item 5 GOOD_BODY ]}.

(** Issue 7 and a copy of its file. *)
Definition dir_copy : gmap string (option json) :=
  {[ "issue_7.json" := item 7 GOOD_BODY;
     "issue_7_copy.json" := item 7 GOOD_BODY ]}.

(** Issue 1 next to an issue whose number is the boolean [True]. *)
Definition dir_true_1 : gmap string (option json) :=
  {[ "issue_True.json" :=
       Some (JObj [("source", JStr "github");
                   ("repo", JStr "openjournals/joss-reviews");
                   ("fetched_at", JStr "2026-01-01T00:00:00+00:00");
                   ("issue", JObj [("number", JBool true);
                                   ("body", JStr GOOD_BODY);
                                   ("created_at", JStr "2021-01-01T00:00:00Z")])]);
     "issue_1.json" := item 1 GOOD_BODY ]}.

(** A file cut short, next to a good one. *)
Definition dir_broken : gmap string (option json) :=
  {[ "issue_1.json" := None; "issue_2.json" := item 2 GOOD_BODY ]}.

(** A good file, a housekeeping issue and a body the parser rejects. *)
Definition mixed_batch : list Normalize.entry :=
  [ ("issue_10.json", item 10 GOOD_BODY);
    ("issue_5.json", item 5 HOUSEKEEPING_BODY);
    ("issue_7.json", item 7 BAD_BODY);
    ("issue_8.json", item 8 GOOD_BODY) ].

(** *** Inputs of further examples *)
Definition store_with_notes : GithubIssues.store :=
  {| GithubIssues.dir_exists := true;
     GithubIssues.files := {[ "notes.txt" := None ]} |}.

(** A service whose every page is full. *)
Definition full_pages_forever : GithubIssues.query -> nat -> GithubIssues.response :=
  fun _ _ => GithubIssues.ok_response [JObj (by_bot 1); JObj (by_bot 2)].

Definition two_pages_at_most : GithubIssues.Config :=
  {| GithubIssues.token := "secret";
     GithubIssues.target := {| GithubIssues.owner := "openjournals";
                               GithubIssues.repo := "joss-reviews" |};
     GithubIssues.bot := "editorialbot"; GithubIssues.state := "all";
     GithubIssues.per_page := 2;
     GithubIssues.overwrite := true; GithubIssues.max_pages := Some 2 |}.

Definition one_page : list JsonObject := [by_bot 12; numberless; by_bot 5].

End Samples.

(** * Properties *)

Import Py Props Samples.

(** ** The calendar *)
Section Calendar.


Lemma days_before_year_mono y y' :
  y <= y' -> days_before_year y + 365 * (y' - y) <= days_before_year y'.
Proof.
  intros H. unfold days_before_year. cbv zeta.
  Z.div_mod_to_equations. lia.
Qed.

(** Days before a year written with its 400-, 100-, 4- and 1-year
    digits. *)
Lemma days_before_year_digits a b c d :
  0 <= b < 4 -> 0 <= c < 25 -> 0 <= d < 4 ->
  days_before_year (400 * a + 100 * b + 4 * c + d + 1) =
  146097 * a + 36524 * b + 1461 * c + 365 * d.
Proof.
  intros Hb Hc Hd. unfold days_before_year. cbv zeta.
  replace (400 * a + 100 * b + 4 * c + d + 1 - 1)
    with (400 * a + 100 * b + 4 * c + d) by lia.
  assert (H4 : (400 * a + 100 * b + 4 * c + d) / 4 = 100 * a + 25 * b + c)
    by (symmetry; apply (Z.div_unique _ _ _ d); lia).
  assert (H100 : (400 * a + 100 * b + 4 * c + d) / 100 = 4 * a + b)
    by (symmetry; apply (Z.div_unique _ _ _ (4 * c + d)); lia).
  assert (H400 : (400 * a + 100 * b + 4 * c + d) / 400 = a)
    by (symmetry; apply (Z.div_unique _ _ _ (100 * b + 4 * c + d)); lia).
  rewrite H4, H100, H400. lia.
Qed.

Local Ltac year_digits :=
  rewrite ?days_before_year_digits by lia; lia.

(** [ord2year] returns the year whose days hold the ordinal. *)
Lemma ord2year_spec n :
  days_before_year (ord2year n) < n <= days_before_year (ord2year n + 1).
Proof.
  unfold ord2year. cbv zeta.
  pose proof (Z.div_mod (n - 1) 146097 ltac:(lia)) as E1.
  pose proof (Z.mod_pos_bound (n - 1) 146097 ltac:(lia)) as B1.
  set (a := (n - 1) / 146097) in *. set (r1 := (n - 1) mod 146097) in *.
  pose proof (Z.div_mod r1 36524 ltac:(lia)) as E2.
  pose proof (Z.mod_pos_bound r1 36524 ltac:(lia)) as B2.
  set (b := r1 / 36524) in *. set (r2 := r1 mod 36524) in *.
  pose proof (Z.div_mod r2 1461 ltac:(lia)) as E3.
  pose proof (Z.mod_pos_bound r2 1461 ltac:(lia)) as B3.
  set (c := r2 / 1461) in *. set (r3 := r2 mod 1461) in *.
  pose proof (Z.div_mod r3 365 ltac:(lia)) as E4.
  pose proof (Z.mod_pos_bound r3 365 ltac:(lia)) as B4.
  set (d := r3 / 365) in *. set (r4 := r3 mod 365) in *.
  clearbody a r1 b r2 c r3 d r4.
  assert (0 <= b <= 4) by lia. assert (0 <= c <= 24) by lia.
  assert (0 <= d <= 4) by lia.
  destruct (Z.eqb_spec d 4) as [Hd|Hd]; cbn [orb].
  - (* last day of a leap year *)
    assert (b < 4) by lia.
    replace (a * 400 + 1 + b * 100 + c * 4 + d - 1)
      with (400 * a + 100 * b + 4 * c + 3 + 1) by lia.
    destruct (Z.eq_dec c 24) as [->|Hc]; [destruct (Z.eq_dec b 3) as [->|Hb]|].
    + replace (400 * a + 100 * 3 + 4 * 24 + 3 + 1 + 1)
        with (400 * (a + 1) + 100 * 0 + 4 * 0 + 0 + 1) by lia. year_digits.
    + replace (400 * a + 100 * b + 4 * 24 + 3 + 1 + 1)
        with (400 * a + 100 * (b + 1) + 4 * 0 + 0 + 1) by lia. year_digits.
    + replace (400 * a + 100 * b + 4 * c + 3 + 1 + 1)
        with (400 * a + 100 * b + 4 * (c + 1) + 0 + 1) by lia. year_digits.
  - destruct (Z.eqb_spec b 4) as [Hb|Hb].
    + (* last day of a 400-year cycle *)
      replace (a * 400 + 1 + b * 100 + c * 4 + d - 1)
        with (400 * a + 100 * 3 + 4 * 24 + 3 + 1) by lia.
      replace (400 * a + 100 * 3 + 4 * 24 + 3 + 1 + 1)
        with (400 * (a + 1) + 100 * 0 + 4 * 0 + 0 + 1) by lia. year_digits.
    + replace (a * 400 + 1 + b * 100 + c * 4 + d)
        with (400 * a + 100 * b + 4 * c + d + 1) by lia.
      destruct (Z.eq_dec d 3) as [->|Hd3];
        [destruct (Z.eq_dec c 24) as [->|Hc]; [destruct (Z.eq_dec b 3) as [->|Hb3]|]|].
      * replace (400 * a + 100 * 3 + 4 * 24 + 3 + 1 + 1)
          with (400 * (a + 1) + 100 * 0 + 4 * 0 + 0 + 1) by lia. year_digits.
      * replace (400 * a + 100 * b + 4 * 24 + 3 + 1 + 1)
          with (400 * a + 100 * (b + 1) + 4 * 0 + 0 + 1) by lia. year_digits.
      * replace (400 * a + 100 * b + 4 * c + 3 + 1 + 1)
          with (400 * a + 100 * b + 4 * (c + 1) + 0 + 1) by lia. year_digits.
      * replace (400 * a + 100 * b + 4 * c + d + 1 + 1)
          with (400 * a + 100 * b + 4 * c + (d + 1) + 1) by lia. year_digits.
Qed.

(** Calendar years do not overlap. *)
Lemma in_year_unique y y' ts :
  in_year y ts = true -> in_year y' ts = true -> y = y'.
Proof.
  unfold in_year, year_start, SECONDS_PER_DAY, EPOCH_ORDINAL.
  rewrite !andb_true_iff, !Z.leb_le, !Z.ltb_lt. intros [L1 U1] [L2 U2].
  destruct (Z.lt_trichotomy y y') as [Hlt|[->|Hgt]]; [exfalso|done|exfalso].
  - pose proof (days_before_year_mono (y + 1) y' ltac:(lia)). lia.
  - pose proof (days_before_year_mono (y' + 1) y ltac:(lia)). lia.
Qed.

(** Inside the range of [datetime], the conversion returns the calendar
    year of the instant. *)
Lemma fromtimestamp_utc_year_spec ts :
  MIN_TIMESTAMP <= ts <= MAX_TIMESTAMP ->
  exists y, fromtimestamp_utc_year ts = Returned y /\ 1 <= y <= 9999
            /\ in_year y ts = true.
Proof.
  intros Hts. unfold fromtimestamp_utc_year.
  unfold MIN_TIMESTAMP, MAX_TIMESTAMP in Hts.
  assert (Hc1 : (ts <? TIME_T_MIN) || (TIME_T_MAX <? ts) = false).
  { apply orb_false_iff; split; [apply Z.ltb_ge|apply Z.ltb_ge];
      unfold TIME_T_MIN, TIME_T_MAX; lia. }
  assert (Hc2 : (ts <? GMTIME_MIN) || (GMTIME_MAX <? ts) = false).
  { apply orb_false_iff; split; [apply Z.ltb_ge|apply Z.ltb_ge];
      unfold GMTIME_MIN, GMTIME_MAX; lia. }
  assert (Hc3 : (ts <? MIN_TIMESTAMP) || (MAX_TIMESTAMP <? ts) = false).
  { apply orb_false_iff; split; [apply Z.ltb_ge|apply Z.ltb_ge];
      unfold MIN_TIMESTAMP, MAX_TIMESTAMP; lia. }
  rewrite Hc1, Hc2, Hc3.
  set (n := ts / SECONDS_PER_DAY + EPOCH_ORDINAL).
  exists (ord2year n). split; [done|].
  pose proof (ord2year_spec n) as [Hlo Hhi].
  assert (Hn : 1 <= n <= 3652059).
  { unfold n, SECONDS_PER_DAY, EPOCH_ORDINAL. Z.div_mod_to_equations. lia. }
  assert (Hday : SECONDS_PER_DAY * (n - EPOCH_ORDINAL) <= ts
                 < SECONDS_PER_DAY * (n - EPOCH_ORDINAL) + SECONDS_PER_DAY).
  { unfold n, SECONDS_PER_DAY, EPOCH_ORDINAL. Z.div_mod_to_equations. lia. }
  assert (Hy : 1 <= ord2year n <= 9999).
  { split.
    - destruct (Z.le_gt_cases 1 (ord2year n)) as [|Hneg]; [done|exfalso].
      pose proof (days_before_year_mono (ord2year n + 1) 1 ltac:(lia)) as Hm.
      change (days_before_year 1) with 0 in Hm. lia.
    - destruct (Z.le_gt_cases (ord2year n) 9999) as [|Hbig]; [done|exfalso].
      pose proof (days_before_year_mono 10000 (ord2year n) ltac:(lia)) as Hm.
      change (days_before_year 10000) with 3652059 in Hm. lia. }
  split; [done|].
  unfold in_year, year_start. apply andb_true_iff.
  rewrite Z.leb_le, Z.ltb_lt. unfold SECONDS_PER_DAY in *. lia.
Qed.

(** The bounds of [gmtime] are the ends of the years 1900 - 2^31 and
    1900 + 2^31 - 1. *)
Example gmtime_bounds :
  GMTIME_MIN = year_start (1900 - 2 ^ 31)
  /\ GMTIME_MAX = year_start (1900 + 2 ^ 31) - 1.
Proof. split; reflexivity. Qed.

End Calendar.

(** ** Per-year aggregation *)
Section Aggregation.
Import IssuesPerYear.

Lemma counter_get_incr y y' (counts : gmap Z nat) :
  counter_get (counter_incr y counts) y' =
  if decide (y = y') then S (counter_get counts y') else counter_get counts y'.
Proof.
  unfold counter_get, counter_incr. rewrite lookup_insert.
  case_decide; by subst.
Qed.

Lemma records_in_year_cons key skip_zero y sub subs :
  records_in_year key skip_zero y (sub :: subs) =
  ((if bucketed key skip_zero y sub then 1 else 0)
   + records_in_year key skip_zero y subs)%nat.
Proof.
  unfold records_in_year. cbn [List.filter].
  by destruct (bucketed key skip_zero y sub).
Qed.

(** The loop of [_count_years] returns as long as every counted
    timestamp is representable, and adds to each year the number of
    records whose timestamp lies in it. *)
Lemma count_years_from_spec key skip_zero subs :
  timestamps_in_range key skip_zero subs ->
  forall counts, exists counts',
    count_years_from counts subs key skip_zero = Returned counts'
    /\ forall y, counter_get counts' y =
                 (counter_get counts y + records_in_year key skip_zero y subs)%nat.
Proof.
  induction 1 as [|sub subs Hsub _ IH]; intros counts.
  - exists counts. split; [done|]. intros y. unfold records_in_year. simpl. lia.
  - cbn [count_years_from]. unfold counted in Hsub.
    destruct (isinstance_int (get key sub)) eqn:Hint; cbn [negb].
    + destruct (skip_zero && (int_value (get key sub) =? 0)) eqn:Hzero.
      * destruct (IH counts) as (c & Hc & Hget). exists c. split; [done|].
        intros y. rewrite Hget, records_in_year_cons.
        unfold bucketed, counted. by rewrite Hint, Hzero.
      * destruct (fromtimestamp_utc_year_spec _ (Hsub eq_refl))
          as (y0 & Hy0 & _ & Hin).
        unfold _unix_to_year. rewrite Hy0. cbn [bind].
        destruct (IH (counter_incr y0 counts)) as (c & Hc & Hget).
        exists c. split; [done|]. intros y.
        rewrite Hget, counter_get_incr, records_in_year_cons.
        unfold bucketed, counted. rewrite Hint, Hzero. cbn [negb andb].
        case_decide as Hy.
        -- subst y0. rewrite Hin. lia.
        -- destruct (in_year y (int_value (get key sub))) eqn:Hin'; [|lia].
           by destruct Hy; apply (in_year_unique _ _ _ Hin Hin').
    + destruct (IH counts) as (c & Hc & Hget). exists c. split; [done|].
      intros y. rewrite Hget, records_in_year_cons.
      unfold bucketed, counted. by rewrite Hint.
Qed.

Lemma elements_dom_nonempty (counts : gmap Z nat) :
  counts <> ∅ -> elements (dom counts) <> [].
Proof.
  intros Hne Hnil. apply Hne. apply dom_empty_iff_L.
  by apply elements_empty_iff in Hnil; apply leibniz_equiv.
Qed.

Lemma log_year_range_nonempty (counts : gmap Z nat) :
  counts <> ∅ -> log_year_range counts = Returned tt.
Proof.
  intros Hne%elements_dom_nonempty. unfold log_year_range.
  by destruct (elements (dom counts)).
Qed.




Example sample_records_counts :
  exists opened closed,
    _count_years sample_records "Opened" false = Returned opened
    /\ _count_years sample_records "Closed" true = Returned closed
    /\ opened = {[ 1970 := 1%nat; 2021 := 1%nat ]}
    /\ closed = {[ 2022 := 1%nat ]}.
Proof. eexists _, _. repeat split; vm_compute; reflexivity. Qed.

(** [C9], as the code has it.  [_plot_counts] refuses an empty bucket
    set: it raises "No data to plot" and saves nothing.  [main] never
    hands it the empty closed-counts: when no record is closed the run
    saves the opened chart alone and exits with code 0. *)
Theorem empty_bucket_set :
  (forall title out_path saved,
      _plot_counts ∅ title out_path saved =
      (Raised (RuntimeError ("No data to plot for: " +:+ title)), saved))
  /\ (forall name decoded subs opened,
        _load_submissions decoded = Returned subs ->
        _count_years subs "Opened" false = Returned opened ->
        opened <> ∅ ->
        _count_years subs "Closed" true = Returned ∅ ->
        main name (Some decoded) =
        (Returned 0, [chart_of opened OPENED_TITLE OPEN_PLOT])).
Proof.
  split.
  - intros title out_path saved. unfold _plot_counts. by rewrite decide_True.
  - intros name decoded subs opened Hload Hopened Hne Hclosed.
    unfold main, main_loaded. rewrite Hload, Hopened, Hclosed.
    rewrite (log_year_range_nonempty _ Hne).
    rewrite (decide_True (P := (∅ : gmap Z nat) = ∅)) by done.
    unfold _plot_counts. rewrite decide_False by done.
    by rewrite (decide_True (P := (∅ : gmap Z nat) = ∅)) by done.
Qed.

Lemma empty_bucket_set_witness :
  main "joss_submissions.json" (Some (Some open_only)) =
  (Returned 0, [Chart OPEN_PLOT OPENED_TITLE [2021] [1%nat]]).
Proof.
  rewrite (proj2 empty_bucket_set "joss_submissions.json" (Some open_only)
             [[("Opened", JInt 1640995199); ("Closed", JInt 0)]]
             {[ 2021 := 1%nat ]});
    [reflexivity | reflexivity | reflexivity | | reflexivity].
  intros Hempty.
  apply (f_equal (fun m : gmap Z nat => m !! 2021)) in Hempty.
  by rewrite lookup_singleton_eq in Hempty.
Defined.

(** [C9], as stated, fails on the closed counts: with no closed record
    the closed bucket set is empty, yet the run does not fail. *)
Lemma empty_closed_set_is_not_fatal :
  (exists subs,
      _load_submissions (Some open_only) = Returned subs
      /\ _count_years subs "Closed" true = Returned ∅)
  /\ fst (main "joss_submissions.json" (Some (Some open_only))) = Returned 0.
Proof.
  split; [|reflexivity].
  eexists. split; reflexivity.
Qed.

(** With no [Opened] timestamp at all, the log line before the charts
    raises, closed data or not. *)
Example empty_opened_set_stops_main :
  main "joss_submissions.json"
    (Some (Some (JList [JObj [("Closed", JInt 1640995200)]])))
  = (Raised ValueError, []).
Proof. reflexivity. Qed.

End Aggregation.

(** ** Collection *)
Section CollectorFacts.
Import GithubIssues.

Variable int_of_str : string -> option Z.
Variable isoformat : Z -> string.

Local Abbreviation fetch_issues_page := (fetch_issues_page int_of_str isoformat).
Local Abbreviation sleep_until_reset := (sleep_until_reset int_of_str).
Local Abbreviation write_issue_file := (write_issue_file isoformat).
Local Abbreviation write_bot_issues := (write_bot_issues isoformat).
Local Abbreviation collect_from := (collect_from int_of_str isoformat).
Local Abbreviation page_result := (page_result int_of_str isoformat).

(** *** Writing one issue *)

Lemma issue_number_None issue :
  isinstance_int (get "number" issue) = false -> issue_number issue = None.
Proof. unfold issue_number. by intros ->. Qed.

(** [C10] An issue object without an [int] under ["number"] is never
    persisted: [write_issue_file] returns [False] and leaves the output
    directory exactly as it was, and the page loop goes on as if the
    issue had not been there, so that it is not counted as written. *)
Theorem numberless_issue_not_written
    (issue : JsonObject) (repo_full_name : string) (overwrite : bool)
    (w : world) (st : store) :
  isinstance_int (get "number" issue) = false ->
  write_issue_file issue repo_full_name overwrite w st = (false, st)
  /\ forall rest config,
       write_bot_issues (issue :: rest) config w st =
       write_bot_issues rest config w st.
Proof.
  intros Hnum%issue_number_None. split.
  - unfold GithubIssues.write_issue_file. by rewrite Hnum.
  - intros rest config. cbn [GithubIssues.write_bot_issues].
    unfold GithubIssues.write_issue_file. rewrite Hnum.
    by destruct (write_bot_issues rest config w st).
Qed.

(** *** Fetching one page *)

Lemma time_sleep_accepted secs w :
  0 <= secs <= SLEEP_MAX -> secs <= sleep_limit w ->
  time_sleep secs w =
  (Returned tt,
   {| server := server w; now := now w + secs;
      sleep_limit := sleep_limit w - secs;
      requests := requests w; trace := trace w ++ [Sleep secs] |}).
Proof.
  intros Hsecs Hlimit. unfold time_sleep.
  assert (Hmax : SLEEP_MAX = 9223372036) by reflexivity.
  destruct (Z.ltb_spec secs (- SLEEP_MAX)); [lia|].
  destruct (Z.ltb_spec SLEEP_MAX secs); [lia|]. cbn [orb].
  destruct (Z.ltb_spec secs 0); [lia|].
  destruct (Z.ltb_spec (sleep_limit w) secs); [lia|done].
Qed.

Lemma time_sleep_overflow secs w :
  SLEEP_MAX < secs -> time_sleep secs w = (Raised OverflowError, w).
Proof.
  intros Hsecs. unfold time_sleep.
  destruct (Z.ltb_spec SLEEP_MAX secs); [|lia]. by rewrite orb_true_r.
Qed.

Lemma time_sleep_refused secs w :
  0 <= secs <= SLEEP_MAX -> sleep_limit w < secs ->
  time_sleep secs w = (Raised OSError, w).
Proof.
  intros Hsecs Hlimit. unfold time_sleep.
  assert (Hmax : SLEEP_MAX = 9223372036) by reflexivity.
  destruct (Z.ltb_spec secs (- SLEEP_MAX)); [lia|].
  destruct (Z.ltb_spec SLEEP_MAX secs); [lia|]. cbn [orb].
  destruct (Z.ltb_spec secs 0); [lia|].
  destruct (Z.ltb_spec (sleep_limit w) secs); [done|lia].
Qed.

(** A sleep leaves the service alone, and what it does depends on the
    clock only. *)
Lemma time_sleep_server secs w :
  server (snd (time_sleep secs w)) = server w
  /\ requests (snd (time_sleep secs w)) = requests w.
Proof.
  unfold time_sleep. destruct (_ || _); [done|].
  destruct (secs <? 0); [done|]. by destruct (sleep_limit w <? secs).
Qed.

Lemma time_sleep_same_clock secs w w' :
  same_clock w w' -> fst (time_sleep secs w') = fst (time_sleep secs w).
Proof.
  intros [_ Hlimit]. unfold time_sleep. rewrite Hlimit.
  destruct (_ || _); [done|]. destruct (secs <? 0); [done|].
  by destruct (sleep_limit w <? secs).
Qed.

(** Outside the years 1 to 9999 [datetime.fromtimestamp] raises. *)
Lemma fromtimestamp_out_of_range ts :
  ~ (MIN_TIMESTAMP <= ts <= MAX_TIMESTAMP) ->
  exists e, fromtimestamp_utc_year ts = Raised e
            /\ (e = ValueError \/ e = OverflowError \/ e = OSError).
Proof.
  intros Hout. unfold fromtimestamp_utc_year.
  destruct (_ || _); [by eexists; split; [|right; left]|].
  destruct (_ || _); [by eexists; split; [|right; right]|].
  destruct (Z.ltb_spec ts MIN_TIMESTAMP); [by eexists; split; [|left]|].
  destruct (Z.ltb_spec MAX_TIMESTAMP ts); [by eexists; split; [|left]|].
  lia.
Qed.

Lemma sleep_until_reset_not_limited resp w :
  rate_limited resp = false -> sleep_until_reset resp w = (Returned tt, w).
Proof. unfold GithubIssues.sleep_until_reset. by intros ->. Qed.

(** A rate-limit answer with a reset time [datetime] can represent
    comes to one sleep, until five seconds past that time. *)
Lemma sleep_until_reset_limited resp w reset_ts :
  rate_limited resp = true ->
  int_of_str (default "" (ratelimit_reset resp)) = Some reset_ts ->
  MIN_TIMESTAMP <= reset_ts <= MAX_TIMESTAMP ->
  sleep_until_reset resp w = time_sleep (Z.max 0 (reset_ts - now w) + 5) w.
Proof.
  intros Hlim Hint Hts. unfold GithubIssues.sleep_until_reset.
  rewrite Hlim, Hint. cbn [negb].
  by destruct (fromtimestamp_utc_year_spec _ Hts) as (y & -> & _).
Qed.

Lemma sleep_until_reset_unparsed resp w :
  rate_limited resp = true ->
  int_of_str (default "" (ratelimit_reset resp)) = None ->
  sleep_until_reset resp w = (Raised ValueError, w).
Proof.
  intros Hlim Hint. unfold GithubIssues.sleep_until_reset.
  by rewrite Hlim, Hint.
Qed.

Lemma sleep_until_reset_out_of_range resp w reset_ts e :
  rate_limited resp = true ->
  int_of_str (default "" (ratelimit_reset resp)) = Some reset_ts ->
  fromtimestamp_utc_year reset_ts = Raised e ->
  sleep_until_reset resp w = (Raised e, w).
Proof.
  intros Hlim Hint Hraise. unfold GithubIssues.sleep_until_reset.
  by rewrite Hlim, Hint, Hraise.
Qed.

Lemma rate_limited_forbidden resp :
  rate_limited resp = true -> status_code resp = HTTP_FORBIDDEN.
Proof.
  unfold rate_limited. intros Hlim.
  apply andb_true_iff in Hlim as [Hlim _].
  apply andb_true_iff in Hlim as [Hlim _]. by apply Z.eqb_eq.
Qed.

Lemma page_result_error resp :
  status_code resp <> HTTP_OK ->
  page_result resp = Raised (RuntimeError (api_error_message resp)).
Proof.
  intros Hne. unfold Props.page_result.
  by destruct (Z.eqb_spec (status_code resp) HTTP_OK).
Qed.

(** The fetch as one retry decision followed by [page_result]. *)
Lemma fetch_issues_page_eq w page per_page state :
  fetch_issues_page page per_page state w =
  let q := {| q_state := state; q_per_page := per_page; q_page := page |} in
  let resp := fst (session_get q w) in
  let w1 := snd (session_get q w) in
  if status_code resp =? HTTP_FORBIDDEN then
    match sleep_until_reset resp w1 with
    | (Raised e, w2) => (Raised e, w2)
    | (Returned _, w2) =>
        (page_result (fst (session_get q w2)), snd (session_get q w2))
    end
  else (page_result resp, w1).
Proof.
  unfold GithubIssues.fetch_issues_page, Props.page_result. cbv zeta.
  cbn [session_get fst snd].
  set (q := {| q_state := state; q_per_page := per_page; q_page := page |}).
  destruct (status_code (server w q (requests w)) =? HTTP_FORBIDDEN).
  - destruct (sleep_until_reset _ _) as [[[]|e] w2]; [|done].
    cbn [session_get fst snd].
    destruct (negb (status_code (server w2 q (requests w2)) =? HTTP_OK)); [done|].
    destruct (rate_limit_status _ _ _); [|done].
    by destruct (json_data _) as [[]|].
  - destruct (negb (status_code (server w q (requests w)) =? HTTP_OK)); [done|].
    destruct (rate_limit_status _ _ _); [|done].
    by destruct (json_data _) as [[]|].
Qed.

(** [C3], as the code has it.  A first answer other than 403 is final.
    A 403 is followed by a second request for the same page, sent at
    once when the answer is not a rate-limit answer, and after a sleep
    until five seconds past the reset time when it is and the sleep is
    one [time.sleep] accepts.  A rate-limit answer ends the fetch after
    this one request, without a retry, when its reset time is not read
    by [int], lies outside the years of [datetime], or asks for a sleep
    that [time.sleep] refuses.  The answer that ends the fetch is fatal
    unless its status is 200, and the error then carries the status and
    the first 500 characters of the body. *)
Theorem page_fetch_retry (w : world) (page per_page : Z) (state : string) :
  let q := {| q_state := state; q_per_page := per_page; q_page := page |} in
  let first := server w q (requests w) in
  let second := server w q (S (requests w)) in
  let fetched := fetch_issues_page page per_page state w in
  (status_code first <> HTTP_FORBIDDEN ->
     fst fetched = page_result first
     /\ trace (snd fetched) = trace w ++ [Get q])
  /\ (status_code first = HTTP_FORBIDDEN -> rate_limited first = false ->
        fst fetched = page_result second
        /\ trace (snd fetched) = trace w ++ [Get q; Get q])
  /\ (forall reset_ts,
        rate_limited first = true ->
        int_of_str (default "" (ratelimit_reset first)) = Some reset_ts ->
        MIN_TIMESTAMP <= reset_ts <= MAX_TIMESTAMP ->
        let wait := Z.max 0 (reset_ts - now w) + 5 in
        (wait <= SLEEP_MAX -> wait <= sleep_limit w ->
           fst fetched = page_result second
           /\ trace (snd fetched) = trace w ++ [Get q; Sleep wait; Get q]
           /\ reset_ts + 5 <= now (snd fetched))
        /\ (SLEEP_MAX < wait ->
              fst fetched = Raised OverflowError
              /\ trace (snd fetched) = trace w ++ [Get q])
        /\ (wait <= SLEEP_MAX -> sleep_limit w < wait ->
              fst fetched = Raised OSError
              /\ trace (snd fetched) = trace w ++ [Get q]))
  /\ (rate_limited first = true ->
      int_of_str (default "" (ratelimit_reset first)) = None ->
      fst fetched = Raised ValueError
      /\ trace (snd fetched) = trace w ++ [Get q])
  /\ (forall reset_ts,
        rate_limited first = true ->
        int_of_str (default "" (ratelimit_reset first)) = Some reset_ts ->
        ~ (MIN_TIMESTAMP <= reset_ts <= MAX_TIMESTAMP) ->
        exists e,
          (e = ValueError \/ e = OverflowError \/ e = OSError)
          /\ fst fetched = Raised e
          /\ trace (snd fetched) = trace w ++ [Get q])
  /\ (forall resp,
        status_code resp <> HTTP_OK ->
        page_result resp =
        Raised (RuntimeError
          ("GitHub API error " +:+ pretty (status_code resp) +:+ " for " +:+
           url resp +:+ NEWLINE +:+ "Response (first 500 chars): " +:+
           utf8 (take 500 (text resp))))
        /\ (length (take 500 (text resp)) <= 500)%nat
        /\ take 500 (text resp) `prefix_of` text resp).
Proof.
  intros q first second fetched.
  assert (Hfetched : fetched =
    if status_code first =? HTTP_FORBIDDEN then
      match sleep_until_reset first (snd (session_get q w)) with
      | (Raised e, w2) => (Raised e, w2)
      | (Returned _, w2) =>
          (page_result (fst (session_get q w2)), snd (session_get q w2))
      end
    else (page_result first, snd (session_get q w))).
  { unfold fetched. rewrite fetch_issues_page_eq. fold q. cbn [fst].
    by fold first. }
  assert (Hlimited : rate_limited first = true ->
    fetched =
    match sleep_until_reset first (snd (session_get q w)) with
    | (Raised e, w2) => (Raised e, w2)
    | (Returned _, w2) =>
        (page_result (fst (session_get q w2)), snd (session_get q w2))
    end).
  { intros Hst%rate_limited_forbidden. rewrite Hfetched.
    by destruct (Z.eqb_spec (status_code first) HTTP_FORBIDDEN). }
  split; [|split; [|split; [|split; [|split]]]].
  - intros Hne. rewrite Hfetched.
    by destruct (Z.eqb_spec (status_code first) HTTP_FORBIDDEN).
  - intros Hst Hlim. rewrite Hfetched.
    destruct (Z.eqb_spec (status_code first) HTTP_FORBIDDEN); [|done].
    rewrite sleep_until_reset_not_limited by done.
    cbn. by rewrite <- app_assoc.
  - intros reset_ts Hlim Hint Hts wait. rewrite (Hlimited Hlim).
    rewrite (sleep_until_reset_limited _ _ reset_ts) by done.
    cbn [session_get snd now]. fold wait.
    assert (Hwait : 0 <= wait) by (unfold wait; lia).
    split; [|split].
    + intros Hmax Hlimit. rewrite time_sleep_accepted by (cbn; lia).
      cbn. rewrite <- !app_assoc. split; [done|]. split; [done|].
      unfold wait. lia.
    + intros Hmax. by rewrite time_sleep_overflow.
    + intros Hmax Hlimit. by rewrite time_sleep_refused by (cbn; lia).
  - intros Hlim Hint. rewrite (Hlimited Hlim).
    by rewrite sleep_until_reset_unparsed.
  - intros reset_ts Hlim Hint Hts.
    destruct (fromtimestamp_out_of_range _ Hts) as (e & Hraise & He).
    exists e. split; [done|]. rewrite (Hlimited Hlim).
    by rewrite (sleep_until_reset_out_of_range _ _ reset_ts e).
  - intros resp Hne. split; [by apply page_result_error|].
    split; [apply firstn_le_length|apply prefix_take].
Qed.

(** *** The remote service seen from two worlds *)

Lemma sleep_until_reset_server resp w :
  server (snd (sleep_until_reset resp w)) = server w
  /\ requests (snd (sleep_until_reset resp w)) = requests w.
Proof.
  unfold GithubIssues.sleep_until_reset.
  destruct (negb (rate_limited resp)); [done|].
  destruct (int_of_str _); [|done].
  destruct (fromtimestamp_utc_year _); [|done]. apply time_sleep_server.
Qed.

Lemma sleep_until_reset_same_clock resp w w' :
  same_clock w w' ->
  fst (sleep_until_reset resp w') = fst (sleep_until_reset resp w).
Proof.
  intros Hclock. unfold GithubIssues.sleep_until_reset.
  destruct (negb (rate_limited resp)); [done|].
  destruct (int_of_str _); [|done].
  destruct (fromtimestamp_utc_year _); [|done].
  destruct Hclock as [Hnow Hlimit]. rewrite Hnow.
  by apply time_sleep_same_clock.
Qed.

Lemma fetch_issues_page_server page per_page state w :
  server (snd (fetch_issues_page page per_page state w)) = server w.
Proof.
  rewrite fetch_issues_page_eq. cbv zeta.
  destruct (status_code _ =? HTTP_FORBIDDEN); [|done].
  pose proof (sleep_until_reset_server
                (fst (session_get {| q_state := state; q_per_page := per_page;
                                     q_page := page |} w))
                (snd (session_get {| q_state := state; q_per_page := per_page;
                                     q_page := page |} w))) as [Hs _].
  destruct (sleep_until_reset _ _) as [[[]|e] w2];
    cbn [snd session_get server] in *; by rewrite Hs.
Qed.

(** Against an unchanged remote state a 403 is never got over: the
    retry is answered as the first request was. *)
Lemma fetch_issues_page_forbidden page per_page state w :
  stationary (server w) ->
  let q := {| q_state := state; q_per_page := per_page; q_page := page |} in
  status_code (server w q 0) = HTTP_FORBIDDEN ->
  fst (fetch_issues_page page per_page state w) =
  match fst (sleep_until_reset (server w q 0) (snd (session_get q w))) with
  | Raised e => Raised e
  | Returned _ => Raised (RuntimeError (api_error_message (server w q 0)))
  end.
Proof.
  intros Hstat q Hst. rewrite fetch_issues_page_eq. cbv zeta. fold q.
  cbn [session_get fst snd]. rewrite (Hstat q (requests w) 0%nat).
  destruct (Z.eqb_spec (status_code (server w q 0)) HTTP_FORBIDDEN)
    as [_|]; [|done].
  pose proof (sleep_until_reset_server (server w q 0)
    {| server := server w; now := now w; sleep_limit := sleep_limit w;
       requests := S (requests w); trace := trace w ++ [Get q] |}) as [Hs _].
  destruct (sleep_until_reset _ _) as [[[]|e] w2]; [|done].
  cbn [fst snd server] in *. rewrite Hs, (Hstat q (requests w2) 0%nat).
  apply page_result_error. rewrite Hst. done.
Qed.

(** Against an unchanged remote state, a fetch that returns took no
    time and returns the same page from any other world; a fetch that
    fails fails from any other world, and with the same exception when
    the clocks read the same. *)
Lemma fetch_issues_page_same_remote page per_page state w w' :
  stationary (server w) -> same_remote w w' ->
  match fst (fetch_issues_page page per_page state w) with
  | Returned data =>
      fst (fetch_issues_page page per_page state w') = Returned data
      /\ same_clock w (snd (fetch_issues_page page per_page state w))
      /\ same_clock w' (snd (fetch_issues_page page per_page state w'))
  | Raised e =>
      exists e2,
        fst (fetch_issues_page page per_page state w') = Raised e2
        /\ (same_clock w w' -> e2 = e)
  end.
Proof.
  intros Hstat Hsame.
  set (q := {| q_state := state; q_per_page := per_page; q_page := page |}).
  assert (Hstat' : stationary (server w')).
  { intros q0 i j. by rewrite !Hsame. }
  destruct (Z.eq_dec (status_code (server w q 0)) HTTP_FORBIDDEN) as [Hst|Hst].
  - rewrite (fetch_issues_page_forbidden _ _ _ w Hstat Hst).
    assert (Hst' : status_code (server w' q 0) = HTTP_FORBIDDEN)
      by (by rewrite Hsame).
    rewrite (fetch_issues_page_forbidden _ _ _ w' Hstat' Hst').
    fold q. rewrite (Hsame q).
    assert (Hclock : same_clock w w' ->
      fst (sleep_until_reset (server w q 0) (snd (session_get q w'))) =
      fst (sleep_until_reset (server w q 0) (snd (session_get q w)))).
    { intros Hclock. by apply sleep_until_reset_same_clock. }
    destruct (fst (sleep_until_reset (server w q 0) (snd (session_get q w))))
      as [[]|e1];
      destruct (fst (sleep_until_reset (server w q 0) (snd (session_get q w'))))
      as [[]|e2]; eexists; (split; [done|]); intros Hc;
      specialize (Hclock Hc); congruence.
  - rewrite !fetch_issues_page_eq. cbv zeta. fold q.
    cbn [session_get fst snd].
    rewrite (Hsame q), (Hstat q (requests w') 0%nat), (Hstat q (requests w) 0%nat).
    destruct (Z.eqb_spec (status_code (server w q 0)) HTTP_FORBIDDEN); [done|].
    cbn [fst snd]. destruct (page_result (server w q 0)) as [data|e].
    + by repeat split.
    + by exists e.
Qed.

(** *** What a run leaves on disk *)

Lemma store_le_refl st : store_le st st.
Proof. by split. Qed.

Lemma store_le_trans st1 st2 st3 :
  store_le st1 st2 -> store_le st2 st3 -> store_le st1 st3.
Proof. intros [D1 F1] [D2 F2]. split; auto. Qed.

Lemma present_mono st st' issue :
  store_le st st' -> present st issue -> present st' issue.
Proof.
  intros [Hd Hf] Hp number Hnum. destruct (Hp number Hnum). auto.
Qed.

Lemma mkdir_id st : dir_exists st = true -> mkdir st = st.
Proof. destruct st as [d f]. cbn. by intros ->. Qed.

Lemma write_issue_file_le issue repo_full_name overwrite w st :
  store_le st (snd (write_issue_file issue repo_full_name overwrite w st)).
Proof.
  unfold GithubIssues.write_issue_file.
  destruct (issue_number issue) as [number|]; [|apply store_le_refl].
  destruct (_ && _); cbn [snd]; split; cbn [mkdir dir_exists files]; try done.
  intros name Hname. rewrite lookup_insert. by case_decide.
Qed.

Lemma write_issue_file_present issue repo_full_name overwrite w st :
  present (snd (write_issue_file issue repo_full_name overwrite w st)) issue.
Proof.
  intros number Hnum. unfold GithubIssues.write_issue_file. rewrite Hnum.
  destruct (bool_decide (is_Some (files (mkdir st) !! issue_path number)))
    eqn:Hex; cbn [andb].
  - apply bool_decide_eq_true in Hex.
    destruct (negb overwrite); cbn; split; try done.
    rewrite lookup_insert_eq. by eexists.
  - cbn. split; [done|]. rewrite lookup_insert_eq. by eexists.
Qed.

(** With [overwrite] off, an issue whose file exists is not written. *)
Lemma write_issue_file_existing issue number repo_full_name w st :
  issue_number issue = Some number ->
  is_Some (files st !! issue_path number) ->
  write_issue_file issue repo_full_name false w st = (false, mkdir st).
Proof.
  intros Hnum Hex. unfold GithubIssues.write_issue_file. rewrite Hnum.
  cbn [mkdir files]. by rewrite bool_decide_eq_true_2.
Qed.

Lemma write_issue_file_again issue repo_full_name w st :
  present st issue ->
  write_issue_file issue repo_full_name false w st = (false, st).
Proof.
  intros Hp. destruct (issue_number issue) as [number|] eqn:Hnum.
  - destruct (Hp number Hnum) as [Hd Hf].
    rewrite (write_issue_file_existing _ number) by done.
    by rewrite mkdir_id.
  - unfold GithubIssues.write_issue_file. by rewrite Hnum.
Qed.

Lemma write_bot_issues_le bot_issues config w st :
  store_le st (snd (write_bot_issues bot_issues config w st)).
Proof.
  revert st. induction bot_issues as [|issue rest IH]; intros st;
    cbn [GithubIssues.write_bot_issues]; [apply store_le_refl|].
  pose proof (write_issue_file_le issue (full_name (target config))
                (overwrite config) w st) as Hle.
  destruct (write_issue_file _ _ _ _ _) as [wrote st1]. cbn [snd] in Hle.
  specialize (IH st1).
  destruct (write_bot_issues rest config w st1) as [written st2].
  cbn [snd] in *. by eapply store_le_trans.
Qed.

Lemma write_bot_issues_present bot_issues config w st :
  Forall (present (snd (write_bot_issues bot_issues config w st))) bot_issues.
Proof.
  revert st. induction bot_issues as [|issue rest IH]; intros st;
    [constructor|]. cbn [GithubIssues.write_bot_issues].
  pose proof (write_issue_file_present issue (full_name (target config))
                (overwrite config) w st) as Hp.
  destruct (write_issue_file _ _ _ _ _) as [wrote st1]. cbn [snd] in Hp.
  specialize (IH st1).
  pose proof (write_bot_issues_le rest config w st1) as Hle.
  destruct (write_bot_issues rest config w st1) as [written st2].
  cbn [snd] in *. constructor; [|done]. by eapply present_mono.
Qed.

Lemma write_bot_issues_again bot_issues config w st :
  overwrite config = false ->
  Forall (present st) bot_issues ->
  write_bot_issues bot_issues config w st = (0%nat, st).
Proof.
  intros Hov. induction 1 as [|issue rest Hp _ IH]; [done|].
  cbn [GithubIssues.write_bot_issues].
  by rewrite Hov, write_issue_file_again, IH.
Qed.

(** A property of the store kept by every write is kept by the loop. *)
Lemma collect_from_preserves (P : store -> Prop) :
  (forall issue repo_full_name overwrite w st,
      P st -> P (snd (write_issue_file issue repo_full_name overwrite w st))) ->
  forall fuel config page t st w r,
    P st -> collect_from fuel config page t st w = Some r -> P (disk r).
Proof.
  intros Hwrite.
  assert (Hloop : forall bot_issues config w st,
             P st -> P (snd (write_bot_issues bot_issues config w st))).
  { induction bot_issues as [|issue rest IH]; intros config w st HP; [done|].
    cbn [GithubIssues.write_bot_issues].
    pose proof (Hwrite issue (full_name (target config)) (overwrite config)
                  w st HP) as HP1.
    destruct (write_issue_file _ _ _ _ _) as [wrote st1]. cbn [snd] in HP1.
    specialize (IH config w st1 HP1).
    by destruct (write_bot_issues rest config w st1). }
  induction fuel as [|fuel IH]; intros config page t st w r HP Hrun; [done|].
  cbn [GithubIssues.collect_from] in Hrun.
  destruct (fetch_issues_page _ _ _ _) as [[issues|e] w1];
    [|by inversion Hrun].
  destruct issues as [|issue issues]; [by inversion Hrun|].
  destruct (bot_issues_of _ _) as [bot_issues|e]; [|by inversion Hrun].
  pose proof (Hloop bot_issues config w1 st HP) as HP1.
  destruct (write_bot_issues bot_issues config w1 st) as [written st1].
  cbn [snd] in HP1.
  destruct (_ <? _); [by inversion Hrun|].
  destruct (match max_pages config with Some _ => _ | None => _ end);
    [by inversion Hrun|].
  by eapply IH.
Qed.

Lemma collect_from_le fuel config page t st w r :
  collect_from fuel config page t st w = Some r -> store_le st (disk r).
Proof.
  apply (collect_from_preserves (store_le st)); [|apply store_le_refl].
  intros. eapply store_le_trans; [done|apply write_issue_file_le].
Qed.

(** *** A second run *)

Lemma same_clock_trans (w w1 w2 w2' : world) :
  same_clock w w1 -> same_clock w2 w2' -> same_clock w w2 -> same_clock w1 w2'.
Proof. unfold same_clock. intros [] [] []. split; congruence. Qed.

Lemma collect_from_again fuel :
  forall config page t st w r1,
    overwrite config = false ->
    stationary (server w) ->
    collect_from fuel config page t st w = Some r1 ->
    forall st2 w2 t2,
      same_remote w w2 ->
      store_le (disk r1) st2 ->
      exists r2, collect_from fuel config page t2 st2 w2 = Some r2
                 /\ disk r2 = st2
                 /\ repeats (same_clock w w2) t (outcome r1) t2 (outcome r2).
Proof.
  induction fuel as [|fuel IH];
    intros config page t st w r1 Hov Hstat Hrun st2 w2 t2 Hsame Hle; [done|].
  cbn [GithubIssues.collect_from] in Hrun |- *.
  pose proof (fetch_issues_page_same_remote page (per_page config)
                (state config) w w2 Hstat Hsame) as Hfetch.
  pose proof (fetch_issues_page_server page (per_page config) (state config) w)
    as Hsw.
  pose proof (fetch_issues_page_server page (per_page config) (state config) w2)
    as Hsw2.
  destruct (fetch_issues_page _ _ _ w) as [res w1].
  destruct (fetch_issues_page _ _ _ w2) as [res2 w2'].
  cbn [fst snd] in *.
  destruct res as [issues|e].
  2:{ destruct Hfetch as (e2 & -> & He2). inversion Hrun; subst r1.
      eexists. split; [done|]. split; [done|]. by exists e2. }
  destruct Hfetch as (-> & Hclock1 & Hclock2).
  destruct issues as [|issue issues].
  { inversion Hrun; subst r1. eexists. split; [done|]. split; [done|].
    exists t2. split; [done|]. cbn. lia. }
  destruct (bot_issues_of _ _) as [bot_issues|e].
  2:{ inversion Hrun; subst r1. eexists. split; [done|]. split; [done|].
      by exists e. }
  pose proof (write_bot_issues_present bot_issues config w1 st) as Hpresent.
  destruct (write_bot_issues bot_issues config w1 st) as [written st1] eqn:Hw.
  cbn [snd] in Hpresent.
  assert (Hle1 : store_le st1 st2).
  { destruct (_ <? _); [by inversion Hrun; subst r1|].
    destruct (match max_pages config with Some _ => _ | None => _ end);
      [by inversion Hrun; subst r1|].
    eapply store_le_trans; [|exact Hle]. by eapply collect_from_le. }
  rewrite write_bot_issues_again;
    [|done|by eapply Forall_impl; [exact Hpresent|]; intros; eapply present_mono].
  destruct (_ <? _).
  { inversion Hrun; subst r1. eexists. split; [done|]. split; [done|].
    eexists. split; [done|]. cbn. lia. }
  destruct (match max_pages config with Some _ => _ | None => _ end).
  { inversion Hrun; subst r1. eexists. split; [done|]. split; [done|].
    eexists. split; [done|]. cbn. lia. }
  assert (Hstat1 : stationary (server w1)) by (by rewrite Hsw).
  assert (Hsame1 : same_remote w1 w2') by (intros q i; by rewrite Hsw, Hsw2).
  destruct (IH config (page + 1) _ st1 w1 r1 Hov Hstat1 Hrun st2 w2'
              {| total_fetched := total_fetched t2 + length (issue :: issues);
                 total_bot := total_bot t2 + length bot_issues;
                 total_written := total_written t2 + 0 |}%nat Hsame1 Hle)
    as (r2 & Hr2 & Hd2 & Hrep).
  exists r2. split; [done|]. split; [done|].
  unfold repeats in *. destruct (outcome r1) as [t1|e].
  - destruct Hrep as (t2' & Ht2' & Hwr & Hfe & Hbo). exists t2'.
    cbn in *. repeat split; try done; lia.
  - destruct Hrep as (e2 & He2 & Heq). exists e2. split; [done|].
    intros Hclock. apply Heq. by eapply same_clock_trans.
Qed.

(** [C4] Idempotency of collection.  Against an unchanged remote state
    and with [overwrite] off, a second run started from what the first
    run left on disk ends the way the first did, having fetched and
    matched the same issues, written nothing, and left the disk as it
    found it; when the first run failed the second fails too, with the
    same exception when it starts at the same clock reading (whether a
    rate-limit wait is one [time.sleep] accepts depends on the clock).
    More generally no call of [write_issue_file] for a path that exists
    writes anything. *)
Theorem collection_idempotent (fuel : nat) (config : Config) (st : store)
    (w : world) (r1 : run) :
  overwrite config = false ->
  stationary (server w) ->
  main int_of_str isoformat fuel config st w = Some r1 ->
  (forall w2, same_remote w w2 ->
     exists r2,
       main int_of_str isoformat fuel config (disk r1) w2 = Some r2
       /\ disk r2 = disk r1
       /\ match outcome r1 with
          | Raised e =>
              exists e2, outcome r2 = Raised e2 /\ (same_clock w w2 -> e2 = e)
          | Returned t1 =>
              outcome r2 = Returned {| total_fetched := total_fetched t1;
                                       total_bot := total_bot t1;
                                       total_written := 0 |}
          end)
  /\ (forall issue number repo_full_name w' st',
        issue_number issue = Some number ->
        is_Some (files st' !! issue_path number) ->
        fst (write_issue_file issue repo_full_name false w' st') = false
        /\ files (snd (write_issue_file issue repo_full_name false w' st'))
           = files st').
Proof.
  intros Hov Hstat Hrun. split.
  - intros w2 Hsame.
    destruct (collect_from_again fuel config 1 no_totals st w r1 Hov Hstat Hrun
                (disk r1) w2 no_totals Hsame (store_le_refl _))
      as (r2 & Hr2 & Hd2 & Hrep).
    exists r2. split; [done|]. split; [done|].
    unfold repeats in Hrep. destruct (outcome r1) as [t1|e]; [|done].
    destruct Hrep as (t2' & -> & Hwr & Hfe & Hbo).
    destruct t2' as [f b wr]. cbn in *. f_equal. f_equal; lia.
  - intros issue number repo_full_name w' st' Hnum Hex.
    by rewrite (write_issue_file_existing _ number).
Qed.

(** *** Paging through a simulated source *)

Lemma page_slice_length items per_page page :
  0 < per_page -> 1 <= page ->
  Z.of_nat (length (page_slice items per_page page)) =
  Z.max 0 (Z.min per_page (Z.of_nat (length items) - (page - 1) * per_page)).
Proof.
  intros Hpp Hpage. unfold page_slice.
  rewrite length_fmap, length_take, length_drop.
  assert (Hoff : 0 <= (page - 1) * per_page) by nia.
  revert Hoff. generalize ((page - 1) * per_page). intros offset Hoff. lia.
Qed.

Lemma page_slice_full items per_page page :
  0 < per_page -> 1 <= page ->
  page < last_page (Z.of_nat (length items)) per_page ->
  Z.of_nat (length (page_slice items per_page page)) = per_page.
Proof.
  intros Hpp Hpage Hlast. rewrite page_slice_length by done.
  unfold last_page in Hlast.
  pose proof (Z.mul_div_le (Z.of_nat (length items)) per_page Hpp).
  assert (page * per_page <= per_page * (Z.of_nat (length items) / per_page))
    by nia.
  nia.
Qed.

Lemma page_slice_short items per_page :
  0 < per_page ->
  Z.of_nat (length (page_slice items per_page
                      (last_page (Z.of_nat (length items)) per_page))) < per_page.
Proof.
  intros Hpp.
  assert (0 <= Z.of_nat (length items) / per_page)
    by (apply Z.div_pos; lia).
  rewrite page_slice_length by (unfold last_page; lia).
  unfold last_page.
  pose proof (Z.mod_pos_bound (Z.of_nat (length items)) per_page Hpp).
  pose proof (Z.div_mod (Z.of_nat (length items)) per_page ltac:(lia)).
  nia.
Qed.

Lemma bot_issues_of_objects (issues : list JsonObject) login :
  exists bot_issues,
    bot_issues_of (JObj <$> issues) login = Returned bot_issues.
Proof.
  induction issues as [|issue issues [bots IH]]; [by eexists|].
  cbn [fmap list_fmap bot_issues_of]. change (list_fmap _ _ JObj issues)
    with (JObj <$> issues). rewrite IH. unfold opened_by_login.
  destruct (get "user" issue); try (by eexists).
  destruct (get "login" kv); by eexists.
Qed.

Lemma fetch_issues_page_source items page per_page state w :
  server w = paginated_source items ->
  fetch_issues_page page per_page state w =
  (Returned (page_slice items per_page page),
   snd (session_get {| q_state := state; q_per_page := per_page;
                       q_page := page |} w)).
Proof.
  intros Hsrv. rewrite fetch_issues_page_eq. cbv zeta.
  cbn [session_get fst snd]. by rewrite Hsrv.
Qed.

Lemma collect_from_source items config fuel :
  0 < per_page config ->
  forall page t st w,
    server w = paginated_source items ->
    1 <= page <= stop_page config (Z.of_nat (length items)) ->
    (Z.to_nat (stop_page config (Z.of_nat (length items)) - page) < fuel)%nat ->
    exists r,
      collect_from fuel config page t st w = Some r
      /\ is_returned (outcome r) = true
      /\ Z.of_nat (requests (final r)) =
         Z.of_nat (requests w)
         + (stop_page config (Z.of_nat (length items)) - page + 1).
Proof.
  intros Hpp. set (total := Z.of_nat (length items)).
  induction fuel as [|fuel IH]; intros page t st w Hsrv Hpage Hfuel; [lia|].
  cbn [GithubIssues.collect_from].
  rewrite (fetch_issues_page_source items) by done.
  cbn [session_get snd].
  set (w1 := {| server := server w; now := now w; sleep_limit := sleep_limit w;
                requests := S (requests w); trace := _ |}).
  assert (Hlast : 1 <= last_page total (per_page config)).
  { unfold last_page.
    assert (0 <= total / per_page config) by (apply Z.div_pos; lia). lia. }
  destruct (Z.eq_dec page (stop_page config total)) as [Hstop|Hgo].
  - (* the stopping page *)
    destruct (page_slice items (per_page config) page) as [|issue issues] eqn:Hslice.
    { eexists. split; [done|]. split; [done|]. cbn. lia. }
    destruct (bot_issues_of_objects
                (take (Z.to_nat (per_page config))
                   (drop (Z.to_nat ((page - 1) * per_page config)) items))
                (bot config)) as [bots Hbots].
    fold (page_slice items (per_page config) page) in Hbots.
    rewrite Hslice in Hbots. rewrite Hbots.
    destruct (write_bot_issues bots config w1 st) as [written st1].
    destruct (Z.ltb_spec (Z.of_nat (length (issue :: issues))) (per_page config))
      as [Hshort|Hfull].
    { eexists. split; [done|]. split; [done|]. cbn. lia. }
    assert (Hm : match max_pages config with
                 | Some m => m <=? page | None => false end = true).
    { pose proof (page_slice_short items (per_page config) Hpp) as Hs.
      fold total in Hs. unfold stop_page in Hstop.
      destruct (max_pages config) as [m|].
      - apply Z.leb_le.
        destruct (Z.eq_dec page (last_page total (per_page config))) as [E|E].
        + rewrite <- E, Hslice in Hs. lia.
        + lia.
      - rewrite <- Hstop, Hslice in Hs. lia. }
    rewrite Hm. eexists. split; [done|]. split; [done|]. cbn. lia.
  - (* a full page before it *)
    assert (Hbefore : page < last_page total (per_page config)).
    { unfold stop_page in *. destruct (max_pages config); lia. }
    pose proof (page_slice_full items (per_page config) page Hpp
                  ltac:(lia) Hbefore) as Hfull.
    destruct (page_slice items (per_page config) page) as [|issue issues] eqn:Hslice.
    { cbn in Hfull. lia. }
    destruct (bot_issues_of_objects
                (take (Z.to_nat (per_page config))
                   (drop (Z.to_nat ((page - 1) * per_page config)) items))
                (bot config)) as [bots Hbots].
    fold (page_slice items (per_page config) page) in Hbots.
    rewrite Hslice in Hbots. rewrite Hbots.
    destruct (write_bot_issues bots config w1 st) as [written st1].
    destruct (Z.ltb_spec (Z.of_nat (length (issue :: issues))) (per_page config))
      as [Hshort|_]; [lia|].
    assert (Hm : match max_pages config with
                 | Some m => m <=? page | None => false end = false).
    { unfold stop_page in *. destruct (max_pages config) as [m|]; [|done].
      apply Z.leb_gt. lia. }
    rewrite Hm.
    destruct (IH (page + 1) {| total_fetched := total_fetched t + length (issue :: issues);
                               total_bot := total_bot t + length bots;
                               total_written := total_written t + written |}%nat
                st1 w1) as (r & Hr & Hret & Hreq); [done|lia|lia|].
    exists r. split; [done|]. split; [done|]. rewrite Hreq. cbn. lia.
Qed.

Lemma ceil_div_short total per_page :
  0 < per_page -> total mod per_page <> 0 ->
  ceil_div total per_page = last_page total per_page.
Proof.
  intros Hpp Hmod. unfold ceil_div, last_page.
  pose proof (Z.mod_pos_bound total per_page Hpp).
  pose proof (Z.div_mod total per_page ltac:(lia)).
  symmetry. apply (Z.div_unique _ _ _ (total mod per_page - 1)); lia.
Qed.

(** [C6] Pagination termination.  Over a simulated source of [total]
    items served [per_page] at a time, every page before page
    [total / per_page + 1] is full and that page is short.  The run
    returns, having requested exactly the pages up to that first short
    page, or up to the ceiling when [max_pages] comes first -- whoever
    the authors of the items are.  Without a ceiling and with [total] not
    a multiple of [per_page], that is [ceil(total / per_page)] pages. *)
Theorem pagination_termination (items : list JsonObject) (config : Config)
    (st : store) (clock : Z) (fuel : nat) :
  0 < per_page config ->
  (Z.to_nat (stop_page config (Z.of_nat (length items))) <= fuel)%nat ->
  let total := Z.of_nat (length items) in
  let last := last_page total (per_page config) in
  (forall page, 1 <= page < last ->
     Z.of_nat (length (page_slice items (per_page config) page)) = per_page config)
  /\ Z.of_nat (length (page_slice items (per_page config) last)) < per_page config
  /\ exists r,
       main int_of_str isoformat fuel config st
         (fresh_world (paginated_source items) clock) = Some r
       /\ is_returned (outcome r) = true
       /\ (max_pages config = None -> Z.of_nat (pages_requested (final r)) = last)
       /\ (forall m, max_pages config = Some m ->
             Z.of_nat (pages_requested (final r)) = Z.min last (Z.max 1 m))
       /\ (max_pages config = None -> total mod per_page config <> 0 ->
             Z.of_nat (pages_requested (final r)) = ceil_div total (per_page config)).
Proof.
  intros Hpp Hfuel total last.
  assert (Hlast : 1 <= last).
  { unfold last, last_page.
    assert (0 <= total / per_page config) by (apply Z.div_pos; lia). lia. }
  split; [|split].
  - intros page [Hp1 Hp2]. by apply page_slice_full.
  - by apply page_slice_short.
  - assert (Hstop : 1 <= stop_page config total).
    { unfold stop_page. fold last. destruct (max_pages config); lia. }
    destruct (collect_from_source items config fuel Hpp 1 no_totals st
                (fresh_world (paginated_source items) clock) eq_refl)
      as (r & Hr & Hret & Hreq); [unfold total in *; lia..|].
    exists r. split; [done|]. split; [done|].
    fold total in Hreq. cbn [fresh_world requests] in Hreq.
    unfold pages_requested. unfold stop_page in Hreq. fold last in Hreq.
    repeat split.
    + intros Hnone. rewrite Hnone in Hreq. lia.
    + intros m Hm. rewrite Hm in Hreq. lia.
    + intros Hnone Hmod. rewrite Hnone in Hreq.
      rewrite ceil_div_short by done. fold last. lia.
Qed.

(** *** Files named after their issue *)

Lemma write_issue_file_keyed issue repo_full_name overwrite w st :
  keyed (files st) ->
  keyed (files (snd (write_issue_file issue repo_full_name overwrite w st))).
Proof.
  intros Hk. unfold GithubIssues.write_issue_file.
  destruct (issue_number issue) as [number|] eqn:Hnum; [|done].
  destruct (_ && _); cbn [snd mkdir files]; [done|].
  intros name content. rewrite lookup_insert. case_decide as Hname.
  - intros [= <-]. exists number. split; [|done].
    unfold raw_number, raw_item. by cbn.
  - apply Hk.
Qed.

Lemma collect_from_keyed fuel config page t st w r :
  keyed (files st) ->
  collect_from fuel config page t st w = Some r ->
  keyed (files (disk r)).
Proof.
  apply (collect_from_preserves (fun st => keyed (files st))).
  intros. by apply write_issue_file_keyed.
Qed.

End CollectorFacts.

(** A raw item file holds a number only if it is an [int] instance. *)
Lemma raw_number_int (content : option json) (number : json) :
  raw_number content = Some number -> isinstance_int number = true.
Proof.
  unfold raw_number. destruct content as [[| | | | | |raw]|]; try done.
  destruct (get "issue" raw) as [| | | | | |issue]; try done.
  unfold GithubIssues.issue_number.
  destruct (isinstance_int (get "number" issue)) eqn:Hint; [|done].
  by intros [= <-].
Qed.

(** Two files of a directory whose files are named after their issue
    numbers hold numbers that are written differently; these are
    different integers unless one of them is a boolean, which Python
    counts as the integer 0 or 1. *)
Lemma keyed_distinct (fs : gmap string (option json)) name1 name2 content1 content2 :
  keyed fs ->
  fs !! name1 = Some content1 -> fs !! name2 = Some content2 ->
  name1 <> name2 ->
  exists n1 n2,
    raw_number content1 = Some n1 /\ raw_number content2 = Some n2
    /\ str_int n1 <> str_int n2
    /\ ((forall b, n1 <> JBool b) -> (forall b, n2 <> JBool b) ->
        int_value n1 <> int_value n2).
Proof.
  intros Hk H1 H2 Hne.
  destruct (Hk _ _ H1) as (n1 & Hn1 & ->).
  destruct (Hk _ _ H2) as (n2 & Hn2 & ->).
  exists n1, n2. split; [done|]. split; [done|]. split.
  - intros Heq. apply Hne. unfold GithubIssues.issue_path. by rewrite Heq.
  - intros Hb1 Hb2 Heq. apply Hne.
    pose proof (raw_number_int _ _ Hn1) as Hi1.
    pose proof (raw_number_int _ _ Hn2) as Hi2.
    destruct n1 as [|b1| | | | |]; try done; [by destruct (Hb1 b1)|].
    destruct n2 as [|b2| | | | |]; try done; [by destruct (Hb2 b2)|].
    cbn in Heq. by subst.
Qed.

(** *** The collector on examples *)
Section CollectorExamples.
Import GithubIssues.

Lemma numberless_issue_not_written_witness :
  isinstance_int (get "number" numberless) = false
  /\ write_issue_file sample_isoformat numberless "openjournals/joss-reviews"
       true (fresh_world (paginated_source five_issues) 0) empty_store
     = (false, empty_store).
Proof.
  split; [reflexivity|].
  apply (numberless_issue_not_written sample_isoformat numberless
           "openjournals/joss-reviews" true
           (fresh_world (paginated_source five_issues) 0) empty_store).
  reflexivity.
Defined.

Lemma page_fetch_retry_witness :
  let w := fresh_world (once_then_empty (forbidden (Some "0") (Some "1000"))) 990 in
  rate_limited (server w first_page 0) = true
  /\ trace (snd (fetch_issues_page sample_int_of_str sample_isoformat 1 100 "all" w))
     = [Get first_page; Sleep 15; Get first_page].
Proof.
  intros w. split; [reflexivity|].
  refine (proj1 (proj2 (proj1 (proj1 (proj2 (proj2
    (page_fetch_retry sample_int_of_str sample_isoformat w 1 100 "all")))
    1000 _ _ _) _ _))).
  - reflexivity.
  - reflexivity.
  - unfold MIN_TIMESTAMP, MAX_TIMESTAMP. lia.
  - vm_compute. discriminate.
  - vm_compute. discriminate.
Defined.

(** A rate-limit answer whose reset time is not a number, or is so far
    ahead that [time.sleep] refuses the wait, ends the fetch after one
    request. *)
Example unreadable_reset_is_fatal :
  let w := fresh_world (once_then_empty (forbidden (Some "0") (Some "soon"))) 990 in
  fetch_issues_page sample_int_of_str sample_isoformat 1 100 "all" w
  = (Raised ValueError, snd (session_get first_page w)).
Proof. reflexivity. Qed.

Example far_reset_is_fatal :
  let w := fresh_world
             (once_then_empty (forbidden (Some "0") (Some "253402300799")))
             1700000000 in
  fetch_issues_page sample_int_of_str sample_isoformat 1 100 "all" w
  = (Raised OverflowError, snd (session_get first_page w)).
Proof. reflexivity. Qed.

(** [C3], as stated, fails on a 403 that is not a rate-limit answer: it
    is not fatal, the page is requested again at once, and the second
    answer decides. *)
Lemma plain_forbidden_is_retried :
  let w := fresh_world (once_then_empty (forbidden None None)) 990 in
  status_code (server w first_page 0) = HTTP_FORBIDDEN
  /\ rate_limited (server w first_page 0) = false
  /\ fst (fetch_issues_page sample_int_of_str sample_isoformat 1 100 "all" w)
     = Returned []
  /\ trace (snd (fetch_issues_page sample_int_of_str sample_isoformat 1 100 "all" w))
     = [Get first_page; Get first_page].
Proof. repeat split. Qed.

Lemma collection_idempotent_witness :
  let w := fresh_world (paginated_source five_issues) 1700000000 in
  let w2 := fresh_world (paginated_source five_issues) 1800000000 in
  exists r1 r2,
    main sample_int_of_str sample_isoformat 4 two_per_page empty_store w = Some r1
    /\ main sample_int_of_str sample_isoformat 4 two_per_page (disk r1) w2 = Some r2
    /\ disk r2 = disk r1
    /\ outcome r1 = Returned {| total_fetched := 5; total_bot := 4; total_written := 3 |}
    /\ outcome r2 = Returned {| total_fetched := 5; total_bot := 4; total_written := 0 |}.
Proof.
  intros w w2.
  destruct (main sample_int_of_str sample_isoformat 4 two_per_page empty_store w)
    as [r1|] eqn:Hrun; [|by vm_compute in Hrun].
  assert (Hout : outcome r1 =
            Returned {| total_fetched := 5; total_bot := 4; total_written := 3 |}).
  { vm_compute in Hrun. by injection Hrun as <-. }
  destruct (proj1 (collection_idempotent sample_int_of_str sample_isoformat
                     4 two_per_page empty_store w r1 eq_refl
                     (fun q i j => eq_refl) Hrun) w2 (fun q i => eq_refl))
    as (r2 & Hr2 & Hdisk & Hagain).
  exists r1, r2. rewrite Hout in Hagain. by repeat split.
Defined.

Lemma pagination_termination_witness :
  exists r,
    main sample_int_of_str sample_isoformat 3 two_per_page empty_store
      (fresh_world (paginated_source five_issues) 0) = Some r
    /\ pages_requested (final r) = 3%nat.
Proof.
  destruct (proj2 (proj2 (pagination_termination sample_int_of_str
              sample_isoformat five_issues two_per_page empty_store 0 3
              ltac:(reflexivity) ltac:(vm_compute; lia))))
    as (r & Hr & _ & Hpages & _).
  exists r. split; [exact Hr|].
  specialize (Hpages eq_refl). vm_compute in Hpages |- *.
  apply Nat2Z.inj. exact Hpages.
Defined.

(** Pages without a single match do not stop the run. *)
Example pages_without_matches :
  exists r,
    main sample_int_of_str sample_isoformat 3 two_per_page empty_store
      (fresh_world (paginated_source [by_other 9; by_other 8; by_other 7;
                                     by_other 6; by_bot 5]) 0) = Some r
    /\ outcome r = Returned {| total_fetched := 5; total_bot := 1; total_written := 1 |}
    /\ pages_requested (final r) = 3%nat.
Proof. eexists. repeat split. Qed.

End CollectorExamples.

(** ** Decimal file names *)
Section FileNames.

Lemma pretty_N_char_compare (a b : N) :
  (a < 10)%N -> (b < 10)%N ->
  Ascii.compare (pretty_N_char a) (pretty_N_char b) = (a ?= b)%N.
Proof.
  intros Ha Hb.
  assert (Hcases : forall x : N, (x < 10)%N ->
            x = 0%N \/ x = 1%N \/ x = 2%N \/ x = 3%N \/ x = 4%N \/ x = 5%N
            \/ x = 6%N \/ x = 7%N \/ x = 8%N \/ x = 9%N) by (intros; lia).
  destruct (Hcases a Ha) as [->|[->|[->|[->|[->|[->|[->|[->|[->| ->]]]]]]]]];
    destruct (Hcases b Hb) as [->|[->|[->|[->|[->|[->|[->|[->|[->| ->]]]]]]]]];
    reflexivity.
Qed.

Lemma pretty_N_go_length x s :
  (String.length s <= String.length (pretty_N_go x s))%nat
  /\ ((0 < x)%N -> (String.length s < String.length (pretty_N_go x s))%nat).
Proof.
  revert s. induction (N.lt_wf_0 x) as [x _ IH]; intros s.
  destruct (decide (0 < x)%N) as [Hx|Hx].
  - rewrite pretty_N_go_step by done.
    destruct (IH (x `div` 10)%N ltac:(by apply N.div_lt)
                (String (pretty_N_char (x `mod` 10)) s)) as [Hle _].
    cbn [String.length] in Hle. lia.
  - assert (x = 0%N) as -> by lia. rewrite pretty_N_go_0. lia.
Qed.

Lemma N_compare_digits (x y : N) :
  (x ?= y)%N =
  match (x `div` 10 ?= y `div` 10)%N with
  | Eq => (x `mod` 10 ?= y `mod` 10)%N
  | c => c
  end.
Proof.
  pose proof (N.div_mod x 10 ltac:(done)) as Hx.
  pose proof (N.div_mod y 10 ltac:(done)) as Hy.
  pose proof (N.mod_lt x 10 ltac:(done)) as Hrx.
  pose proof (N.mod_lt y 10 ltac:(done)) as Hry.
  revert Hx Hy Hrx Hry.
  generalize (x `div` 10)%N (x `mod` 10)%N (y `div` 10)%N (y `mod` 10)%N.
  intros a r b r' -> -> Hr Hr'.
  destruct (N.compare_spec a b) as [Hq|Hq|Hq].
  - subst b. destruct (N.compare_spec r r') as [Hc|Hc|Hc].
    + apply N.compare_eq_iff. lia.
    + apply N.compare_lt_iff. lia.
    + apply N.compare_gt_iff. lia.
  - apply N.compare_lt_iff. lia.
  - apply N.compare_gt_iff. lia.
Qed.

Lemma pretty_N_go_compare x :
  forall y s t,
    String.length s = String.length t ->
    String.length (pretty_N_go x s) = String.length (pretty_N_go y t) ->
    String.compare (pretty_N_go x s) (pretty_N_go y t) =
    match (x ?= y)%N with Eq => String.compare s t | c => c end.
Proof.
  induction (N.lt_wf_0 x) as [x _ IH]; intros y s t Hst Hlen.
  destruct (decide (0 < x)%N) as [Hx|Hx], (decide (0 < y)%N) as [Hy|Hy].
  - rewrite (pretty_N_go_step x), (pretty_N_go_step y) in * by done.
    rewrite IH; [|by apply N.div_lt|cbn [String.length]; lia|done].
    rewrite (N_compare_digits x y).
    destruct (x `div` 10 ?= y `div` 10)%N; try done.
    cbn [String.compare].
    rewrite pretty_N_char_compare by (by apply N.mod_lt).
    by destruct (x `mod` 10 ?= y `mod` 10)%N.
  - assert (y = 0%N) as -> by lia. rewrite pretty_N_go_0 in Hlen.
    destruct (pretty_N_go_length x s) as [_ Hlt]. specialize (Hlt Hx). lia.
  - assert (x = 0%N) as -> by lia. rewrite pretty_N_go_0 in Hlen.
    destruct (pretty_N_go_length y t) as [_ Hlt]. specialize (Hlt Hy). lia.
  - assert (x = 0%N) as -> by lia. assert (y = 0%N) as -> by lia.
    by rewrite !pretty_N_go_0.
Qed.

Lemma pretty_N_go_one_digit x :
  (0 < x)%N -> String.length (pretty_N_go x "") = 1%nat -> (x < 10)%N.
Proof.
  intros Hx Hlen. rewrite pretty_N_go_step in Hlen by done.
  destruct (decide (0 < x `div` 10)%N) as [Hq|Hq].
  - destruct (pretty_N_go_length (x `div` 10)
                (String (pretty_N_char (x `mod` 10)) "")) as [_ Hlt].
    specialize (Hlt Hq). cbn [String.length] in Hlt. lia.
  - apply N.div_small_iff; [done|].
    by destruct (N.eq_0_gt_0_cases (x `div` 10)).
Qed.

(** Written with the same number of digits, natural numbers compare as
    their decimal strings do. *)
Lemma pretty_Z_compare (n m : Z) :
  0 <= n -> 0 <= m ->
  String.length (pretty n) = String.length (pretty m) ->
  String.compare (pretty n) (pretty m) = (n ?= m).
Proof.
  intros Hn Hm Hlen. unfold pretty, pretty_Z in *.
  destruct n as [|p|p], m as [|q|q]; try lia; try done.
  - unfold pretty, pretty_positive, pretty, pretty_N in *.
    rewrite decide_False in * by done.
    pose proof (pretty_N_go_one_digit (N.pos q) ltac:(lia) (eq_sym Hlen)) as Hq.
    assert (Hcases : (q = 1 \/ q = 2 \/ q = 3 \/ q = 4 \/ q = 5 \/ q = 6
                      \/ q = 7 \/ q = 8 \/ q = 9)%positive) by lia.
    by destruct Hcases as [->|[->|[->|[->|[->|[->|[->|[->| ->]]]]]]]].
  - unfold pretty, pretty_positive, pretty, pretty_N in *.
    rewrite decide_False in * by done.
    pose proof (pretty_N_go_one_digit (N.pos p) ltac:(lia) Hlen) as Hp.
    assert (Hcases : (p = 1 \/ p = 2 \/ p = 3 \/ p = 4 \/ p = 5 \/ p = 6
                      \/ p = 7 \/ p = 8 \/ p = 9)%positive) by lia.
    by destruct Hcases as [->|[->|[->|[->|[->|[->|[->|[->| ->]]]]]]]].
  - unfold pretty, pretty_positive, pretty, pretty_N in *.
    rewrite !decide_False in * by done.
    rewrite pretty_N_go_compare by done. cbn.
    by destruct (p ?= q)%positive.
Qed.

Lemma compare_refl (s : string) : String.compare s s = Eq.
Proof.
  induction s as [|c s IH]; [done|]. cbn [String.compare].
  assert (Ascii.compare c c = Eq) as ->; [|done].
  unfold Ascii.compare. apply N.compare_refl.
Qed.

Lemma compare_app_same (a b s : string) :
  String.length a = String.length b ->
  String.compare (a +:+ s) (b +:+ s) = String.compare a b.
Proof.
  revert b. induction a as [|c a IH]; intros [|d b] Hlen; try done.
  - apply compare_refl.
  - change (String.compare (String c (a +:+ s)) (String d (b +:+ s))
            = String.compare (String c a) (String d b)).
    cbn [String.compare]. destruct (Ascii.compare c d); try done.
    apply IH. by injection Hlen.
Qed.

Lemma compare_app_prefix (p a b : string) :
  String.compare (p +:+ a) (p +:+ b) = String.compare a b.
Proof.
  induction p as [|c p IH]; [done|].
  change (String.compare (String c (p +:+ a)) (String c (p +:+ b))
          = String.compare a b).
  cbn [String.compare].
  assert (Ascii.compare c c = Eq) as ->; [|done].
  unfold Ascii.compare. apply N.compare_refl.
Qed.

(** Among files named after natural numbers of one width, the order of
    the names is the order of the numbers. *)
Lemma issue_path_le (n m : Z) :
  0 <= n -> 0 <= m ->
  String.length (pretty n) = String.length (pretty m) ->
  String.le (GithubIssues.issue_path (JInt n)) (GithubIssues.issue_path (JInt m)) ->
  n <= m.
Proof.
  intros Hn Hm Hlen. unfold String.le, String.leb, GithubIssues.issue_path, str_int.
  rewrite compare_app_prefix, compare_app_same, pretty_Z_compare by done.
  unfold Z.le. by destruct (n ?= m).
Qed.

End FileNames.

(** ** Normalization *)
Section NormalizerFacts.
Import Normalize.

Variable Submission : Type.
Variable from_github_issue_payload :
  json -> string -> string -> option string -> list string -> option Submission.

Local Abbreviation normalize_file :=
  (normalize_file Submission from_github_issue_payload).
Local Abbreviation normalize_files :=
  (normalize_files Submission from_github_issue_payload).
Local Abbreviation _normalize_dir :=
  (_normalize_dir Submission from_github_issue_payload).
Local Abbreviation emitted := (emitted from_github_issue_payload).
Local Abbreviation tally := (tally Submission).

(** The loop goes through a list of files part by part. *)
Lemma normalize_files_app (before after : list entry) (t : tally) :
  normalize_files (before ++ after) t =
  bind (normalize_files before t) (normalize_files after).
Proof.
  revert t. induction before as [|path before IH]; intros t; [done|].
  cbn [app Normalize.normalize_files].
  destruct (normalize_file (snd path) t) as [t1|e]; [apply IH|done].
Qed.

(** What one file adds to the tally. *)
Lemma normalize_file_step (path : entry) (t t' : tally) :
  normalize_file (snd path) t = Returned t' ->
  submissions t' = submissions t ++ option_list (emitted path)
  /\ (length (submissions t') + skipped t' + failed t'
      = S (length (submissions t) + skipped t + failed t))%nat.
Proof.
  unfold Props.emitted, Normalize.normalize_file.
  destruct (snd path) as [[| | | | | |raw]|]; try done.
  destruct (get "issue" raw) as [| | | | | |issue];
    try (intros [= <-]; cbn; rewrite app_nil_r; split; [done|lia]).
  destruct (negb (isinstance_str (get "body" issue)) || _);
    [intros [= <-]; cbn; rewrite app_nil_r; split; [done|lia]|].
  destruct (negb (isinstance_int (get "number" issue)) || _);
    [intros [= <-]; cbn; rewrite app_nil_r; split; [done|lia]|].
  destruct (from_github_issue_payload _ _ _ _ _) as [s|]; intros [= <-]; cbn.
  - split; [done|]. rewrite length_app. cbn. lia.
  - rewrite app_nil_r. split; [done|lia].
Qed.

Lemma normalize_files_submissions (paths : list entry) (t t' : tally) :
  normalize_files paths t = Returned t' ->
  submissions t' = submissions t ++ omap emitted paths.
Proof.
  revert t. induction paths as [|path paths IH]; intros t.
  - intros [= <-]. cbn. by rewrite app_nil_r.
  - cbn [Normalize.normalize_files omap list_omap].
    destruct (normalize_file (snd path) t) as [t1|e] eqn:Hstep; [|done].
    cbn [bind]. intros Hrest. rewrite (IH _ Hrest).
    destruct (normalize_file_step _ _ _ Hstep) as [-> _].
    change (list_omap _ _ emitted paths) with (omap emitted paths).
    rewrite <- app_assoc. by destruct (emitted path).
Qed.

(** A batch of files that all decode to JSON objects is normalized to
    the end, and every file is counted exactly once. *)
Lemma normalize_files_well_formed (paths : list entry) (t : tally) :
  Forall well_formed paths ->
  exists t', normalize_files paths t = Returned t'
    /\ (length (submissions t') + skipped t' + failed t'
        = length (submissions t) + skipped t + failed t + length paths)%nat.
Proof.
  intros Hwf. revert t. induction Hwf as [|path paths [raw Hraw] _ IH]; intros t.
  - exists t. split; [done|]. cbn. lia.
  - cbn [Normalize.normalize_files].
    assert (Hstep : exists t1, normalize_file (snd path) t = Returned t1).
    { rewrite Hraw. unfold Normalize.normalize_file.
      destruct (get "issue" raw); try by eexists.
      destruct (_ || _); [by eexists|].
      destruct (_ || _); [by eexists|].
      destruct (from_github_issue_payload _ _ _ _ _); by eexists. }
    destruct Hstep as [t1 Hstep]. rewrite Hstep. cbn [bind].
    destruct (normalize_file_step _ _ _ Hstep) as [_ Hcount].
    destruct (IH t1) as (t' & Ht' & Hcount'). exists t'. split; [done|].
    cbn [length]. lia.
Qed.

(** A file that is not valid JSON stops the batch. *)
Lemma normalize_files_invalid (before after : list entry) (name : string)
    (t : tally) :
  exists e, normalize_files (before ++ (name, None) :: after) t = Raised e.
Proof.
  rewrite normalize_files_app.
  destruct (normalize_files before t) as [t1|e]; by eexists.
Qed.

(** [C5] Gate robustness.  Once the batch has reached a well-formed file
    with tally [t1]: if the body is not a string holding the marker, the
    batch goes on with [skipped] one higher and [failed] unchanged; if
    the body holds the marker, the number and creation date are present,
    and the body parser rejects the item, the batch goes on with [failed]
    one higher and [skipped] unchanged.  A batch of well-formed files
    always returns its tally, with every file counted once as emitted,
    skipped or failed. *)
Theorem gate_robustness (before after : list entry) (name : string)
    (raw issue : JsonObject) (t0 t1 : tally) :
  normalize_files before t0 = Returned t1 ->
  get "issue" raw = JObj issue ->
  let body := get "body" issue in
  let number := get "number" issue in
  let created_at := get "created_at" issue in
  let closed_at := get "closed_at" issue in
  let batch := before ++ (name, Some (JObj raw)) :: after in
  (isinstance_str body = false \/ contains MARKER (str_value body) = false ->
     normalize_files batch t0 =
     normalize_files after {| submissions := submissions t1;
                              skipped := S (skipped t1);
                              failed := failed t1 |})
  /\ (isinstance_str body = true ->
      contains MARKER (str_value body) = true ->
      isinstance_int number = true ->
      isinstance_str created_at = true ->
      from_github_issue_payload number (str_value body) (str_value created_at)
        (if isinstance_str closed_at then Some (str_value closed_at) else None)
        (_labels_from_issue issue) = None ->
      normalize_files batch t0 =
      normalize_files after {| submissions := submissions t1;
                               skipped := skipped t1;
                               failed := S (failed t1) |})
  /\ (Forall well_formed after ->
      forall t, exists t',
        normalize_files after t = Returned t'
        /\ (length (submissions t') + skipped t' + failed t'
            = length (submissions t) + skipped t + failed t + length after)%nat).
Proof.
  intros Hbefore Hissue body number created_at closed_at batch.
  assert (Hbatch : normalize_files batch t0 =
             bind (normalize_file (Some (JObj raw)) t1) (normalize_files after)).
  { unfold batch. by rewrite normalize_files_app, Hbefore. }
  split; [|split].
  - intros Hmarker. rewrite Hbatch.
    unfold Normalize.normalize_file. rewrite Hissue. fold body.
    assert (Hgate : negb (isinstance_str body)
                    || negb (contains MARKER (str_value body)) = true).
    { destruct Hmarker as [-> | ->]; [done|]. by rewrite orb_true_r. }
    by rewrite Hgate.
  - intros Hstr Hmarker Hint Hcreated Hreject. rewrite Hbatch.
    unfold Normalize.normalize_file. rewrite Hissue. fold body.
    rewrite Hstr, Hmarker. cbn [negb orb]. fold number created_at closed_at.
    rewrite Hint, Hcreated. cbn [negb orb]. by rewrite Hreject.
  - intros Hwf t. by apply normalize_files_well_formed.
Qed.

(** *** The order of the output *)

Global Instance path_le_trans : Transitive path_le.
Proof. intros a b c. unfold path_le. apply transitivity. Qed.

Global Instance path_le_total : Total path_le.
Proof. intros a b. unfold path_le. apply total, _. Qed.

Lemma issue_files_sorted (in_dir : gmap string (option json)) :
  StronglySorted path_le (issue_files in_dir).
Proof. apply StronglySorted_merge_sort; apply _. Qed.

Lemma issue_files_Permutation (in_dir : gmap string (option json)) :
  issue_files in_dir ≡ₚ
  filter (fun e : entry => glob_issue (fst e) = true) (map_to_list in_dir).
Proof. apply merge_sort_Permutation. Qed.

(** A record in the output carries the number of the file it was made
    from. *)
Lemma emitted_number (issueNumber : Submission -> Z) (path : entry) (s : Submission) :
  keeps_number from_github_issue_payload issueNumber ->
  emitted path = Some s ->
  exists number, raw_number (snd path) = Some number
                 /\ issueNumber s = int_value number.
Proof.
  intros Hkeeps. unfold Props.emitted, Normalize.normalize_file, raw_number.
  destruct (snd path) as [[| | | | | |raw]|]; try done.
  destruct (get "issue" raw) as [| | | | | |issue]; try done.
  destruct (negb (isinstance_str (get "body" issue)) || _); [done|].
  unfold GithubIssues.issue_number.
  destruct (isinstance_int (get "number" issue)); cbn [negb orb]; [|done].
  destruct (negb (isinstance_str (get "created_at" issue))); [done|].
  destruct (from_github_issue_payload _ _ _ _ _) as [s'|] eqn:Hparse; [|done].
  cbn. intros [= <-]. eexists. split; [done|]. by eapply Hkeeps.
Qed.

Lemma emitted_file_number (issueNumber : Submission -> Z) (path : entry) (s : Submission) :
  keeps_number from_github_issue_payload issueNumber ->
  emitted path = Some s -> file_number path = Some (issueNumber s).
Proof.
  intros Hkeeps Hem.
  destruct (emitted_number issueNumber path s Hkeeps Hem) as (number & Hnum & ->).
  unfold file_number. by rewrite Hnum.
Qed.

Lemma emitted_sorted (issueNumber : Submission -> Z) (width : nat) (paths : list entry) :
  keeps_number from_github_issue_payload issueNumber ->
  StronglySorted path_le paths ->
  Forall (numbered_file width) paths ->
  StronglySorted Z.le (issueNumber <$> omap emitted paths).
Proof.
  intros Hkeeps. induction 1 as [|path paths _ IH Hle]; intros Hnum;
    [constructor|].
  apply Forall_cons in Hnum as [Hpath Hpaths].
  cbn [omap list_omap]. change (list_omap _ _ emitted paths) with (omap emitted paths).
  destruct (emitted path) as [s|] eqn:Hem; [|by apply IH].
  cbn [fmap list_fmap]. constructor; [by apply IH|].
  apply Forall_forall. intros x (s' & -> & Hs')%list_elem_of_fmap.
  apply list_elem_of_omap in Hs' as (path' & Hin & Hem').
  destruct Hpath as (n & Hn & Hrn & Hname & Hw).
  rewrite Forall_forall in Hpaths, Hle.
  destruct (Hpaths _ Hin) as (n' & Hn' & Hrn' & Hname' & Hw').
  destruct (emitted_number issueNumber path s Hkeeps Hem) as (? & Hr & ->).
  destruct (emitted_number issueNumber path' s' Hkeeps Hem') as (? & Hr' & ->).
  rewrite Hrn in Hr. rewrite Hrn' in Hr'. injection Hr as <-. injection Hr' as <-.
  cbn [int_value]. apply issue_path_le; try done; [congruence|].
  specialize (Hle _ Hin). unfold path_le in Hle. by rewrite Hname, Hname' in Hle.
Qed.

(** [C2], as the code has it.  The files are processed in the order of
    their names, compared as strings, each matching file once, and the
    output lists the records of the files that pass in that order.  When
    every file is named after the natural number it holds and all these
    numbers have as many digits, this is the ascending order of the
    issue numbers. *)
Theorem submissions_in_filename_order (in_dir : gmap string (option json))
    (t : tally) :
  _normalize_dir in_dir = Returned t ->
  StronglySorted path_le (issue_files in_dir)
  /\ issue_files in_dir ≡ₚ
     filter (fun e : entry => glob_issue (fst e) = true) (map_to_list in_dir)
  /\ submissions t = omap emitted (issue_files in_dir)
  /\ forall (issueNumber : Submission -> Z) (width : nat),
       keeps_number from_github_issue_payload issueNumber ->
       Forall (numbered_file width) (issue_files in_dir) ->
       StronglySorted Z.le (issueNumber <$> submissions t).
Proof.
  intros Hrun. split; [apply issue_files_sorted|].
  split; [apply issue_files_Permutation|].
  assert (Hsubs : submissions t = omap emitted (issue_files in_dir))
    by apply (normalize_files_submissions _ _ _ Hrun).
  split; [done|]. intros issueNumber width Hkeeps Hnum. rewrite Hsubs.
  eapply emitted_sorted; [done|apply issue_files_sorted|done].
Qed.

(** *** No number twice *)

Lemma emitted_NoDup (issueNumber : Submission -> Z) (paths : list entry) :
  keeps_number from_github_issue_payload issueNumber ->
  NoDup (omap file_number paths) ->
  NoDup (issueNumber <$> omap emitted paths).
Proof.
  intros Hkeeps. induction paths as [|path paths IH]; [constructor|].
  cbn [omap list_omap].
  change (list_omap _ _ emitted paths) with (omap emitted paths).
  change (list_omap _ _ file_number paths) with (omap file_number paths).
  destruct (emitted path) as [s|] eqn:Hem.
  - rewrite (emitted_file_number issueNumber path s Hkeeps Hem).
    intros [Hnotin Hnodup]%NoDup_cons. cbn [fmap list_fmap].
    apply NoDup_cons. split; [|by apply IH].
    intros (s' & Heq & Hs')%list_elem_of_fmap.
    apply list_elem_of_omap in Hs' as (path' & Hin & Hem').
    apply Hnotin, list_elem_of_omap. exists path'. split; [done|].
    rewrite Heq. by apply emitted_file_number.
  - destruct (file_number path); [intros [_ ?]%NoDup_cons|]; by apply IH.
Qed.

End NormalizerFacts.

(** A directory whose files are named after their issue numbers, none of
    them a boolean, holds every number once. *)
Lemma keyed_file_numbers (in_dir : gmap string (option json)) :
  keyed in_dir ->
  (forall name content b,
      in_dir !! name = Some content -> raw_number content <> Some (JBool b)) ->
  NoDup (omap file_number (Normalize.issue_files in_dir)).
Proof.
  intros Hkeyed Hint. rewrite issue_files_Permutation.
  assert (Hgen : forall l : list Normalize.entry,
             NoDup l ->
             (forall e, e ∈ l -> in_dir !! fst e = Some (snd e)) ->
             NoDup (omap file_number l)).
  { induction l as [|e l IH]; intros Hnd Hin; [constructor|].
    apply NoDup_cons in Hnd as [Hnotin Hnd]. cbn [omap list_omap].
    change (list_omap _ _ file_number l) with (omap file_number l).
    assert (Hl : NoDup (omap file_number l)).
    { apply IH; [done|]. intros e' He'. apply Hin. by right. }
    destruct (file_number e) as [z|] eqn:Hz; [|done].
    apply NoDup_cons. split; [|done].
    intros (e' & He' & Hz')%list_elem_of_omap. apply Hnotin.
    assert (Hname : forall e0 : Normalize.entry,
               in_dir !! fst e0 = Some (snd e0) -> file_number e0 = Some z ->
               fst e0 = GithubIssues.issue_path (JInt z)).
    { intros e0 Hlook Hnum. destruct (Hkeyed _ _ Hlook) as (number & Hrn & ->).
      unfold file_number in Hnum. rewrite Hrn in Hnum. cbn in Hnum.
      injection Hnum as <-.
      assert (isinstance_int number = true) as Hisint.
      { unfold raw_number in Hrn.
        destruct (snd e0) as [[| | | | | |raw]|]; try done.
        destruct (get "issue" raw); try done.
        unfold GithubIssues.issue_number in Hrn.
        destruct (isinstance_int (get "number" kv)) eqn:E; [|done].
        by injection Hrn as <-. }
      destruct number; try done.
      by destruct (Hint _ _ b Hlook). }
    pose proof (Hin e ltac:(by left)) as He.
    pose proof (Hin e' ltac:(by right)) as He''.
    pose proof (Hname e He Hz) as Hn1. pose proof (Hname e' He'' Hz') as Hn2.
    assert (e = e') as ->; [|done].
    destruct e as [n1 c1], e' as [n2 c2]. cbn [fst snd] in *. subst n1 n2.
    rewrite He in He''. by injection He'' as ->. }
  apply Hgen.
  - apply NoDup_filter, NoDup_map_to_list.
  - intros [name content] [_ Hin]%list_elem_of_filter.
    by apply elem_of_map_to_list in Hin.
Qed.

(** *** The normalizer on examples *)
Section NormalizerExamples.
Import Normalize.

Lemma sample_parser_keeps_number : keeps_number sample_parser sample_number.
Proof.
  intros number body created_at closed_at labels s. unfold sample_parser.
  destruct (contains _ body); [|done]. by intros [= <-].
Qed.

(** [C1] fails on the code: a file that is not valid JSON, in an input
    directory that exists, ends the run with the decoding error instead
    of being counted; the good file next to it is never reached. *)
Lemma invalid_json_aborts_batch :
  main _ sample_parser "data/raw/openjournals_joss-reviews/issues"
    (Some dir_broken) = Raised JSONDecodeError.
Proof. reflexivity. Qed.

Lemma gate_robustness_witness :
  normalize_files _ sample_parser
    [("issue_10.json", item 10 GOOD_BODY); ("issue_5.json", item 5 HOUSEKEEPING_BODY);
     ("issue_8.json", item 8 GOOD_BODY)] (no_tally _)
  = Returned {| submissions := [sample_of 10; sample_of 8];
                skipped := 1; failed := 0 |}
  /\ normalize_files _ sample_parser
       [("issue_10.json", item 10 GOOD_BODY); ("issue_7.json", item 7 BAD_BODY);
        ("issue_8.json", item 8 GOOD_BODY)] (no_tally _)
     = Returned {| submissions := [sample_of 10; sample_of 8];
                   skipped := 0; failed := 1 |}.
Proof.
  split.
  - refine (eq_trans (proj1 (gate_robustness _ sample_parser
               [("issue_10.json", item 10 GOOD_BODY)]
               [("issue_8.json", item 8 GOOD_BODY)] "issue_5.json"
               (raw_fields 5 HOUSEKEEPING_BODY) (issue_fields 5 HOUSEKEEPING_BODY)
               (no_tally _)
               {| submissions := [sample_of 10]; skipped := 0; failed := 0 |}
               eq_refl eq_refl) (or_intror eq_refl)) _).
    reflexivity.
  - refine (eq_trans (proj1 (proj2 (gate_robustness _ sample_parser
               [("issue_10.json", item 10 GOOD_BODY)]
               [("issue_8.json", item 8 GOOD_BODY)] "issue_7.json"
               (raw_fields 7 BAD_BODY) (issue_fields 7 BAD_BODY)
               (no_tally _)
               {| submissions := [sample_of 10]; skipped := 0; failed := 0 |}
               eq_refl eq_refl)) eq_refl eq_refl eq_refl eq_refl eq_refl) _).
    reflexivity.
Defined.

Example mixed_batch_tally :
  normalize_files _ sample_parser mixed_batch (no_tally _)
  = Returned {| submissions := [sample_of 10; sample_of 8];
                skipped := 1; failed := 1 |}.
Proof. reflexivity. Qed.

(** [C2], as stated, fails on issues 10 and 5: the file of issue 10
    sorts first, and the output lists 10 before 5. *)
Lemma filename_order_is_not_numeric :
  fst <$> issue_files dir_10_5 = ["issue_10.json"; "issue_5.json"]
  /\ exists t,
       _normalize_dir _ sample_parser dir_10_5 = Returned t
       /\ sample_number <$> submissions t = [10; 5]
       /\ ~ Sorted Z.le (sample_number <$> submissions t).
Proof.
  split; [reflexivity|]. eexists. split; [reflexivity|]. split; [reflexivity|].
  cbn. intros Hsorted. inversion Hsorted as [|? ? _ Hhd]; subst.
  inversion Hhd; subst. lia.
Qed.

Lemma submissions_in_filename_order_witness :
  exists t,
    _normalize_dir _ sample_parser dir_5_7 = Returned t
    /\ StronglySorted Z.le (sample_number <$> submissions t).
Proof.
  exists {| submissions := [sample_of 5; sample_of 7]; skipped := 0; failed := 0 |}.
  assert (Hrun : _normalize_dir _ sample_parser dir_5_7 =
            Returned {| submissions := [sample_of 5; sample_of 7];
                        skipped := 0; failed := 0 |}) by reflexivity.
  split; [exact Hrun|].
  apply (proj2 (proj2 (proj2
           (submissions_in_filename_order _ sample_parser dir_5_7 _ Hrun)))
           sample_number 1%nat sample_parser_keeps_number).
  assert (Hfiles : issue_files dir_5_7 =
            [("issue_5.json", item 5 GOOD_BODY); ("issue_7.json", item 7 GOOD_BODY)])
    by reflexivity.
  rewrite Hfiles.
  repeat constructor; [exists 5|exists 7]; (split; [lia|by repeat split]).
Defined.

(** [C7], as stated, fails on a directory that holds a second file for
    the same issue: the output lists the issue twice. *)
Lemma copied_file_is_listed_twice :
  fst <$> issue_files dir_copy = ["issue_7.json"; "issue_7_copy.json"]
  /\ exists t,
       _normalize_dir _ sample_parser dir_copy = Returned t
       /\ sample_number <$> submissions t = [7; 7]
       /\ ~ NoDup (sample_number <$> submissions t).
Proof.
  split; [reflexivity|]. eexists. split; [reflexivity|]. split; [reflexivity|].
  cbn. intros [Hnotin _]%NoDup_cons. apply Hnotin. by left.
Qed.

End NormalizerExamples.

(** ** Uniqueness across the pipeline *)
Section Uniqueness.

Variable int_of_str : string -> option Z.
Variable isoformat : Z -> string.
Variable Submission : Type.
Variable from_github_issue_payload :
  json -> string -> string -> option string -> list string -> option Submission.

(** [C7], as the code has it.  Started on a directory whose files are
    named after the numbers of the issues they hold, the collector
    leaves such a directory: no two of its files hold numbers that are
    written the same, nor, booleans apart, the same integer.  The
    normalizer lists no number twice when no two files of its input hold
    the same number; this is so in every directory whose files are named
    after their numbers, none of them a boolean, as the collector leaves
    it. *)
Theorem issue_numbers_unique :
  (forall fuel config st w r,
      keyed (GithubIssues.files st) ->
      GithubIssues.main int_of_str isoformat fuel config st w = Some r ->
      keyed (GithubIssues.files (GithubIssues.disk r))
      /\ forall name1 name2 content1 content2,
           GithubIssues.files (GithubIssues.disk r) !! name1 = Some content1 ->
           GithubIssues.files (GithubIssues.disk r) !! name2 = Some content2 ->
           name1 <> name2 ->
           exists n1 n2,
             raw_number content1 = Some n1 /\ raw_number content2 = Some n2
             /\ str_int n1 <> str_int n2
             /\ ((forall b, n1 <> JBool b) -> (forall b, n2 <> JBool b) ->
                 int_value n1 <> int_value n2))
  /\ (forall (issueNumber : Submission -> Z) in_dir t,
        keeps_number from_github_issue_payload issueNumber ->
        NoDup (omap file_number (Normalize.issue_files in_dir)) ->
        Normalize._normalize_dir Submission from_github_issue_payload in_dir
          = Returned t ->
        NoDup (issueNumber <$> Normalize.submissions t))
  /\ (forall in_dir,
        keyed in_dir ->
        (forall name content b,
            in_dir !! name = Some content -> raw_number content <> Some (JBool b)) ->
        NoDup (omap file_number (Normalize.issue_files in_dir))).
Proof.
  split; [|split].
  - intros fuel config st w r Hkeyed Hrun.
    pose proof (collect_from_keyed _ _ _ _ _ _ _ _ _ Hkeyed Hrun) as Hk.
    split; [done|]. intros name1 name2 content1 content2 H1 H2 Hne.
    by eapply keyed_distinct.
  - intros issueNumber in_dir t Hkeeps Hnodup Hrun.
    rewrite (normalize_files_submissions _ _ _ _ _ Hrun). cbn [app].
    by apply emitted_NoDup.
  - apply keyed_file_numbers.
Qed.

End Uniqueness.

Lemma issue_numbers_unique_witness :
  (exists r,
      GithubIssues.main GithubIssues.sample_int_of_str GithubIssues.sample_isoformat 4 two_per_page
        GithubIssues.empty_store
        (GithubIssues.fresh_world (GithubIssues.paginated_source five_issues) 0)
      = Some r
      /\ keyed (GithubIssues.files (GithubIssues.disk r)))
  /\ exists t,
       Normalize._normalize_dir _ Normalize.sample_parser dir_10_5 = Returned t
       /\ NoDup (Normalize.sample_number <$> Normalize.submissions t).
Proof.
  split.
  - destruct (GithubIssues.main GithubIssues.sample_int_of_str GithubIssues.sample_isoformat 4 two_per_page
                GithubIssues.empty_store
                (GithubIssues.fresh_world
                   (GithubIssues.paginated_source five_issues) 0))
      as [r|] eqn:Hrun; [|by vm_compute in Hrun].
    exists r. split; [done|].
    refine (proj1 (proj1 (issue_numbers_unique GithubIssues.sample_int_of_str GithubIssues.sample_isoformat
                            _ Normalize.sample_parser)
                     4%nat two_per_page GithubIssues.empty_store _ r _ Hrun)).
    intros name content Hlook. cbn [GithubIssues.empty_store GithubIssues.files] in Hlook.
    by rewrite lookup_empty in Hlook.
  - exists {| Normalize.submissions := [sample_of 10; sample_of 5];
              Normalize.skipped := 0; Normalize.failed := 0 |}.
    split; [reflexivity|].
    refine (proj1 (proj2 (issue_numbers_unique GithubIssues.sample_int_of_str GithubIssues.sample_isoformat
                            _ Normalize.sample_parser))
              Normalize.sample_number dir_10_5 _ sample_parser_keeps_number
              _ eq_refl).
    assert (Hnumbers : omap file_number (Normalize.issue_files dir_10_5) = [10; 5])
      by reflexivity.
    rewrite Hnumbers. apply NoDup_cons. split; [|apply NoDup_singleton].
    intros Hin. apply list_elem_of_singleton in Hin. lia.
Defined.

(** A number that is a boolean is the one case where files named after
    their numbers repeat an issue: [True] is written differently from 1
    and is the same integer. *)
Example boolean_number_repeats_an_issue :
  keyed dir_true_1
  /\ fst <$> Normalize.issue_files dir_true_1 = ["issue_1.json"; "issue_True.json"]
  /\ exists t,
       Normalize._normalize_dir _ Normalize.sample_parser dir_true_1 = Returned t
       /\ Normalize.sample_number <$> Normalize.submissions t = [1; 1].
Proof.
  split; [|split; [reflexivity|eexists; split; reflexivity]].
  intros name content. unfold dir_true_1.
  rewrite lookup_insert. case_decide as H1.
  - intros [= <-]. subst name. by exists (JBool true).
  - rewrite lookup_singleton. case_decide as H2; [|done].
    intros [= <-]. subst name. by exists (JInt 1).
Qed.
(** * Further properties of the code *)

Section MoreAggregation.
Import IssuesPerYear.

Lemma year_start_mono y y' : y <= y' -> year_start y <= year_start y'.
Proof.
  intros H. unfold year_start, SECONDS_PER_DAY.
  pose proof (days_before_year_mono y y' H). lia.
Qed.

Lemma year_start_succ_lt y : year_start y < year_start (y + 1).
Proof.
  unfold year_start, SECONDS_PER_DAY.
  pose proof (days_before_year_mono y (y + 1) ltac:(lia)). lia.
Qed.

Lemma year_start_in_range y :
  1 <= y <= 9999 ->
  MIN_TIMESTAMP <= year_start y /\ year_start (y + 1) - 1 <= MAX_TIMESTAMP.
Proof.
  intros Hy.
  pose proof (year_start_mono 1 y ltac:(lia)) as Hlo.
  pose proof (year_start_mono (y + 1) 10000 ltac:(lia)) as Hhi.
  change (year_start 1) with MIN_TIMESTAMP in Hlo.
  change (year_start 10000) with (MAX_TIMESTAMP + 1) in Hhi. lia.
Qed.

(** [X1] The first and the last second of every year of [datetime] are
    bucketed to that year. *)
Theorem year_boundaries (y : Z) :
  1 <= y <= 9999 ->
  _unix_to_year (year_start y) = Returned y
  /\ _unix_to_year (year_start (y + 1) - 1) = Returned y.
Proof.
  intros Hy. destruct (year_start_in_range y Hy) as [Hlo Hhi].
  pose proof (year_start_succ_lt y) as Hlt.
  assert (Hin : forall ts, year_start y <= ts < year_start (y + 1) ->
                           _unix_to_year ts = Returned y).
  { intros ts Hts.
    destruct (fromtimestamp_utc_year_spec ts ltac:(lia)) as (y0 & Hy0 & _ & Hin0).
    assert (Hiny : in_year y ts = true).
    { unfold in_year. apply andb_true_iff. rewrite Z.leb_le, Z.ltb_lt. lia. }
    unfold _unix_to_year. by rewrite Hy0, (in_year_unique _ _ _ Hin0 Hiny). }
  split; apply Hin; lia.
Qed.

Lemma year_boundaries_witness :
  _unix_to_year 1704067200 = Returned 2024
  /\ _unix_to_year 1735689599 = Returned 2024.
Proof. apply (year_boundaries 2024). lia. Defined.

(** [X2] Later instants never fall in earlier years. *)
Theorem unix_to_year_monotone (ts1 ts2 y1 y2 : Z) :
  ts1 <= ts2 ->
  _unix_to_year ts1 = Returned y1 ->
  _unix_to_year ts2 = Returned y2 ->
  y1 <= y2.
Proof.
  intros Hle H1 H2.
  assert (Hrange : forall ts y, _unix_to_year ts = Returned y ->
                     MIN_TIMESTAMP <= ts <= MAX_TIMESTAMP).
  { intros ts y. unfold _unix_to_year, fromtimestamp_utc_year.
    destruct (_ || _); [done|]. destruct (_ || _); [done|].
    destruct (orb _ _) eqn:Hc; [done|]. intros _.
    apply orb_false_iff in Hc as [Ha Hb].
    apply Z.ltb_ge in Ha, Hb. lia. }
  destruct (fromtimestamp_utc_year_spec ts1 (Hrange _ _ H1)) as (z1 & Hz1 & _ & Hin1).
  destruct (fromtimestamp_utc_year_spec ts2 (Hrange _ _ H2)) as (z2 & Hz2 & _ & Hin2).
  unfold _unix_to_year in H1, H2. rewrite Hz1 in H1. rewrite Hz2 in H2.
  injection H1 as ->. injection H2 as ->.
  unfold in_year in Hin1, Hin2.
  apply andb_true_iff in Hin1 as [L1 U1]. apply andb_true_iff in Hin2 as [L2 U2].
  apply Z.leb_le in L1, L2. apply Z.ltb_lt in U1, U2.
  destruct (Z.le_gt_cases y1 y2) as [|Hgt]; [done|exfalso].
  pose proof (year_start_mono (y2 + 1) y1 ltac:(lia)). lia.
Qed.

End MoreAggregation.

Section MoreCounters.
Import IssuesPerYear.

Lemma unix_to_year_range ts y :
  _unix_to_year ts = Returned y -> MIN_TIMESTAMP <= ts <= MAX_TIMESTAMP.
Proof.
  unfold _unix_to_year, fromtimestamp_utc_year.
  destruct (_ || _); [done|]. destruct (_ || _); [done|].
  destruct (orb _ _) eqn:Hc; [done|]. intros _.
  apply orb_false_iff in Hc as [Ha Hb]. apply Z.ltb_ge in Ha, Hb. lia.
Qed.

Lemma counter_total_incr y (counts : gmap Z nat) :
  counter_total (counter_incr y counts) = S (counter_total counts).
Proof.
  unfold counter_total, counter_incr, counter_get.
  assert (Hcomm : forall (m : gmap Z nat) (j1 j2 : Z) (z1 z2 acc : nat),
             j1 <> j2 -> m !! j1 = Some z1 -> m !! j2 = Some z2 ->
             (z1 + (z2 + acc) = z2 + (z1 + acc))%nat) by (intros; lia).
  destruct (counts !! y) as [n|] eqn:Hy; cbn [default].
  - rewrite <- (insert_delete_eq counts).
    rewrite map_fold_insert_L; [|by eauto|by rewrite lookup_delete_eq].
    rewrite (map_fold_delete_L _ _ y n counts) by eauto. unfold id. lia.
  - rewrite map_fold_insert_L by eauto. lia.
Qed.

Lemma records_counted_cons key skip_zero sub subs :
  records_counted key skip_zero (sub :: subs) =
  ((if counted key skip_zero sub then 1 else 0)
   + records_counted key skip_zero subs)%nat.
Proof.
  unfold records_counted. cbn [List.filter].
  by destruct (counted key skip_zero sub).
Qed.

Lemma count_years_from_invariants key skip_zero subs :
  forall counts counts',
    count_years_from counts subs key skip_zero = Returned counts' ->
    timestamps_in_range key skip_zero subs
    /\ (buckets_sound counts -> buckets_sound counts')
    /\ counter_total counts' =
       (counter_total counts + records_counted key skip_zero subs)%nat.
Proof.
  induction subs as [|sub subs IH]; intros counts counts'.
  - intros [= <-]. split; [constructor|]. split; [done|].
    unfold records_counted. cbn. lia.
  - cbn [count_years_from]. rewrite records_counted_cons. unfold counted.
    destruct (isinstance_int (get key sub)) eqn:Hint; cbn [negb andb].
    + destruct (skip_zero && (int_value (get key sub) =? 0)) eqn:Hzero;
        cbn [negb].
      * intros Hrun. destruct (IH _ _ Hrun) as (Hr & Hs & Ht).
        split; [|split; [done|lia]].
        constructor; [|done]. unfold counted. by rewrite Hint, Hzero.
      * destruct (_unix_to_year (int_value (get key sub))) as [y|e] eqn:Hy;
          [|done]. cbn [bind]. intros Hrun.
        destruct (IH _ _ Hrun) as (Hr & Hs & Ht).
        pose proof (unix_to_year_range _ _ Hy) as Hts.
        split; [by constructor|]. split.
        -- intros Hsound. apply Hs. intros y' n. unfold counter_incr.
           rewrite lookup_insert. case_decide as Hyy.
           ++ intros [= <-]. subst y'. split; [|lia].
              destruct (fromtimestamp_utc_year_spec _ Hts) as (y0 & Hy0 & Hb & _).
              unfold _unix_to_year in Hy. rewrite Hy0 in Hy. by injection Hy as <-.
           ++ apply Hsound.
        -- rewrite Ht, counter_total_incr. lia.
    + intros Hrun. destruct (IH _ _ Hrun) as (Hr & Hs & Ht).
      split; [|split; [done|lia]].
      constructor; [|done]. unfold counted. by rewrite Hint.
Qed.

(** [X3] [_count_years] returns exactly when every timestamp it has to count
    is an instant [datetime] can represent. *)
Theorem count_years_returns_iff (subs : list JsonObject) (key : string)
    (skip_zero : bool) :
  is_returned (_count_years subs key skip_zero) = true
  <-> timestamps_in_range key skip_zero subs.
Proof.
  split.
  - unfold _count_years.
    destruct (count_years_from ∅ subs key skip_zero) as [c|e] eqn:Hrun; [|done].
    intros _. by destruct (count_years_from_invariants _ _ _ _ _ Hrun).
  - intros Hrange.
    destruct (count_years_from_spec key skip_zero subs Hrange ∅) as (c & Hc & _).
    unfold _count_years. by rewrite Hc.
Qed.

(** [X4] A counter built by [_count_years] holds every counted record once:
    its buckets are years 1 to 9999, none of them empty, and their sum
    is the number of records counted. *)
Theorem count_years_buckets (subs : list JsonObject) (key : string)
    (skip_zero : bool) (counts : gmap Z nat) :
  _count_years subs key skip_zero = Returned counts ->
  (forall y n, counts !! y = Some n -> 1 <= y <= 9999 /\ (1 <= n)%nat)
  /\ counter_total counts = records_counted key skip_zero subs
  /\ (counts = ∅ <-> records_counted key skip_zero subs = 0%nat).
Proof.
  intros Hrun. unfold _count_years in Hrun.
  destruct (count_years_from_invariants _ _ _ _ _ Hrun) as (_ & Hs & Ht).
  assert (Hsound : buckets_sound counts).
  { apply Hs. intros y n. by rewrite lookup_empty. }
  assert (Htotal : counter_total counts = records_counted key skip_zero subs).
  { rewrite Ht. unfold counter_total. by rewrite map_fold_empty. }
  split; [done|]. split; [done|]. rewrite <- Htotal. split.
  - intros ->. unfold counter_total. by rewrite map_fold_empty.
  - intros Hzero. apply map_empty. intros y.
    destruct (counts !! y) as [n|] eqn:Hy; [exfalso|done].
    destruct (Hsound y n Hy) as [_ Hn].
    unfold counter_total in Hzero.
    rewrite (map_fold_delete_L _ _ y n counts) in Hzero; [lia| |done].
    intros; lia.
Qed.

Lemma count_years_buckets_witness :
  exists counts,
    _count_years sample_records "Closed" true = Returned counts
    /\ counter_total counts = 1%nat
    /\ records_counted "Closed" true sample_records = 1%nat.
Proof.
  exists {[ 2022 := 1%nat ]}.
  assert (Hrun : _count_years sample_records "Closed" true
                 = Returned {[ 2022 := 1%nat ]}) by reflexivity.
  split; [exact Hrun|].
  destruct (count_years_buckets _ _ _ _ Hrun) as (_ & Ht & _).
  split; [|reflexivity]. rewrite Ht. reflexivity.
Defined.

End MoreCounters.

Section MoreCharts.
Import IssuesPerYear.

Lemma StronglySorted_le_lt (l : list Z) :
  StronglySorted Z.le l -> NoDup l -> StronglySorted Z.lt l.
Proof.
  induction 1 as [|x l _ IH Hx]; intros Hnd; [constructor|].
  apply NoDup_cons in Hnd as [Hnotin Hnd]. constructor; [by apply IH|].
  rewrite Forall_forall in Hx |- *. intros y Hy.
  specialize (Hx y Hy). assert (x <> y) by (by intros ->). lia.
Qed.

(** [X5] Handed a counter that is not empty, [_plot_counts] saves one chart
    after those already saved: one bar per year of the counter, years in
    strictly ascending order, each bar as high as the count of its
    year. *)
Theorem plot_counts_chart (counts : gmap Z nat) (title out_path : string)
    (saved : list chart) :
  counts <> ∅ ->
  exists c,
    _plot_counts counts title out_path saved = (Returned tt, saved ++ [c])
    /\ chart_path c = out_path /\ chart_title c = title
    /\ StronglySorted Z.lt (chart_years c)
    /\ (forall y, y ∈ chart_years c <-> is_Some (counts !! y))
    /\ chart_values c = counter_get counts <$> chart_years c
    /\ chart_years c <> [].
Proof.
  intros Hne. unfold _plot_counts. rewrite decide_False by done.
  eexists. split; [reflexivity|]. cbn [chart_path chart_title chart_years chart_values].
  assert (Hperm : merge_sort Z.le (elements (dom counts)) ≡ₚ elements (dom counts))
    by apply merge_sort_Permutation.
  split; [done|]. split; [done|]. split; [|split; [|split; [done|]]].
  - apply StronglySorted_le_lt.
    + apply StronglySorted_merge_sort; apply _.
    + rewrite Hperm. apply NoDup_elements.
  - intros y. rewrite Hperm, elem_of_elements. apply elem_of_dom.
  - intros Hnil. rewrite Hnil in Hperm.
    apply Permutation_nil in Hperm. by apply elements_dom_nonempty in Hne.
Qed.

Lemma plot_counts_chart_witness :
  exists c,
    _plot_counts {[ 2021 := 2%nat; 2019 := 1%nat ]} "t" "p.png" [] = (Returned tt, [c])
    /\ chart_years c = [2019; 2021] /\ chart_values c = [1%nat; 2%nat].
Proof.
  assert (Hne : ({[ 2021 := 2%nat; 2019 := 1%nat ]} : gmap Z nat) <> ∅).
  { intros Hempty. apply (f_equal (fun m : gmap Z nat => m !! 2019)) in Hempty.
    by vm_compute in Hempty. }
  destruct (plot_counts_chart _ "t" "p.png" [] Hne) as (c & Hc & _).
  exists c. split; [exact Hc|].
  vm_compute in Hc. injection Hc as <-. by split.
Defined.

(** [X6] How [main] ends once the submissions are loaded and counted: with
    no opened timestamp at all it stops with [ValueError] before any
    chart; otherwise it returns 0, having saved the opened chart and,
    when some record is closed, the closed chart after it. *)
Theorem main_outcomes (name : string) (decoded : option json)
    (subs : list JsonObject) (opened closed : gmap Z nat) :
  _load_submissions decoded = Returned subs ->
  _count_years subs "Opened" false = Returned opened ->
  _count_years subs "Closed" true = Returned closed ->
  main name (Some decoded) =
  if decide (opened = ∅) then (Raised ValueError, [])
  else if decide (closed = ∅) then
    (Returned 0, [chart_of opened OPENED_TITLE OPEN_PLOT])
  else
    (Returned 0, [chart_of opened OPENED_TITLE OPEN_PLOT;
                  chart_of closed CLOSED_TITLE CLOSED_PLOT]).
Proof.
  intros Hload Hopened Hclosed. unfold main, main_loaded.
  rewrite Hload, Hopened, Hclosed.
  destruct (decide (opened = ∅)) as [->|Ho].
  - unfold log_year_range. by rewrite dom_empty_L, elements_empty.
  - rewrite (log_year_range_nonempty _ Ho).
    destruct (decide (closed = ∅)) as [->|Hc].
    + unfold _plot_counts. by rewrite decide_False.
    + rewrite (log_year_range_nonempty _ Hc).
      unfold _plot_counts. by rewrite !decide_False.
Qed.

Lemma main_outcomes_witness :
  main "joss_submissions.json" (Some (Some (JList (JObj <$> sample_records)))) =
  (Returned 0, [Chart OPEN_PLOT OPENED_TITLE [1970; 2021] [1%nat; 1%nat];
                Chart CLOSED_PLOT CLOSED_TITLE [2022] [1%nat]]).
Proof.
  assert (Hload : _load_submissions (Some (JList (JObj <$> sample_records)))
                  = Returned sample_records) by reflexivity.
  assert (Hopened : _count_years sample_records "Opened" false
                    = Returned ({[ 1970 := 1%nat; 2021 := 1%nat ]} : gmap Z nat))
    by reflexivity.
  assert (Hclosed : _count_years sample_records "Closed" true
                    = Returned ({[ 2022 := 1%nat ]} : gmap Z nat))
    by reflexivity.
  rewrite (main_outcomes "joss_submissions.json" _ _ _ _ Hload Hopened Hclosed).
  reflexivity.
Defined.

(** [X7] A run of [main] that fails has saved no chart; a run that returns
    exits with code 0 and has saved the opened chart first, followed by
    at most the closed chart. *)
Theorem main_all_or_nothing (name : string) (in_file : option (option json)) :
  match main name in_file with
  | (Raised _, saved) => saved = []
  | (Returned code, saved) =>
      code = 0
      /\ exists first rest,
           saved = first :: rest
           /\ chart_path first = OPEN_PLOT
           /\ (rest = [] \/ exists second,
                 rest = [second] /\ chart_path second = CLOSED_PLOT)
  end.
Proof.
  unfold main. destruct in_file as [decoded|]; [|done]. unfold main_loaded.
  destruct (_load_submissions decoded) as [subs|e]; [|done].
  destruct (_count_years subs "Opened" false) as [opened|e]; [|done].
  destruct (_count_years subs "Closed" true) as [closed|e]; [|done].
  destruct (log_year_range opened) as [[]|e] eqn:Hlog; [|done].
  assert (Ho : opened <> ∅).
  { intros ->. unfold log_year_range in Hlog.
    by rewrite dom_empty_L, elements_empty in Hlog. }
  destruct (decide (closed = ∅)) as [Hc|Hc].
  - unfold _plot_counts. rewrite decide_False by done.
    split; [done|]. eexists _, _. split; [done|]. split; [done|]. by left.
  - rewrite (log_year_range_nonempty _ Hc).
    unfold _plot_counts. rewrite !decide_False by done.
    split; [done|]. eexists _, _. split; [done|]. split; [done|].
    right. by eexists.
Qed.

(** [X8] [_load_submissions] gives back a list of objects as it was written,
    drops from any other list the items that are not objects, keeping
    the order, and refuses a document that is not a list. *)
Theorem load_submissions_round_trip :
  (forall subs : list JsonObject,
      _load_submissions (Some (JList (JObj <$> subs))) = Returned subs)
  /\ (forall items, exists subs,
        _load_submissions (Some (JList items)) = Returned subs
        /\ (JObj <$> subs) `sublist_of` items
        /\ forall d, JObj d ∈ items -> d ∈ subs)
  /\ (forall doc, isinstance_list doc = false ->
        _load_submissions (Some doc) =
        Raised (RuntimeError "Expected top-level JSON list of submissions")).
Proof.
  split; [|split].
  - intros subs. unfold _load_submissions. f_equal.
    induction subs as [|sub subs IH]; [done|]. cbn. by rewrite IH.
  - intros items. eexists. split; [reflexivity|].
    induction items as [|item items [IH1 IH2]]; [split; [constructor|]|].
    { intros d Hd. by apply elem_of_nil in Hd. }
    cbn [omap list_omap].
    destruct item; cbn [fmap list_fmap]; (split;
      [ first [by apply sublist_skip, IH1 | by apply sublist_cons, IH1; apply IH1]
      | intros d Hd; apply elem_of_cons in Hd as [Hd|Hd];
        [ try discriminate Hd | ] ]).
    all: try (by apply IH2).
    all: try (injection Hd as ->; by left).
    all: try (right; by apply IH2).
  - intros doc Hdoc. by destruct doc.
Qed.

End MoreCharts.

Section MoreCollector.
Import GithubIssues.

Variable int_of_str : string -> option Z.
Variable isoformat : Z -> string.

Local Abbreviation fetch_issues_page := (fetch_issues_page int_of_str isoformat).
Local Abbreviation write_issue_file := (write_issue_file isoformat).
Local Abbreviation write_bot_issues := (write_bot_issues isoformat).
Local Abbreviation collect_from := (collect_from int_of_str isoformat).

(** *** The author filter *)

Lemma by_login_spec login issue :
  by_login login issue = true <-> opened_by login issue.
Proof.
  unfold by_login, opened_by, opened_by_login. split.
  - destruct (get "user" issue) as [| | | | | |user_obj]; try done.
    destruct (get "login" user_obj) as [| | | |s| |] eqn:Hlogin; try done.
    intros ->%String.eqb_eq. by eexists.
  - intros (user_obj & -> & ->). apply String.eqb_refl.
Qed.

Lemma opened_by_login_object login d :
  opened_by_login (JObj d) login = Returned (by_login login d).
Proof.
  unfold by_login, opened_by_login. destruct (get "user" d); try done.
  by destruct (get "login" kv).
Qed.

(** [X9] The author filter keeps, in order, exactly the issues
    whose [user.login] is the wanted login, letter for letter; it fails
    on a page that holds something other than an object. *)
Theorem bot_filter_spec (login : string) :
  (forall issues : list JsonObject,
      bot_issues_of (JObj <$> issues) login =
      Returned (List.filter (by_login login) issues))
  /\ (forall issue, by_login login issue = true <-> opened_by login issue)
  /\ (forall issues,
        is_returned (bot_issues_of issues login) = true
        <-> Forall (fun item => isinstance_dict item = true) issues).
Proof.
  split; [|split].
  - induction issues as [|issue issues IH]; [done|].
    cbn [fmap list_fmap bot_issues_of List.filter].
    change (list_fmap _ _ JObj issues) with (JObj <$> issues).
    rewrite IH, opened_by_login_object. cbn [bind].
    by destruct (by_login login issue).
  - apply by_login_spec.
  - induction issues as [|item issues IH].
    + split; [constructor|done].
    + rewrite Forall_cons. destruct (isinstance_dict item) eqn:Hd.
      * destruct item as [| | | | | |d]; try done. cbn [bot_issues_of].
        rewrite opened_by_login_object. cbn [bind].
        destruct (bot_issues_of issues login) as [kept|e]; cbn [bind is_returned] in *.
        -- split; [intros _; split; [done|by apply IH]|done].
        -- split; [done|]. intros [_ H]. by apply IH in H.
      * assert (Hraise : bot_issues_of (item :: issues) login = Raised AttributeError)
          by (by destruct item).
        rewrite Hraise. split; [done|]. by intros [? _].
Qed.

Lemma bot_issues_of_returned issues login bot_issues :
  bot_issues_of issues login = Returned bot_issues ->
  exists ds, issues = JObj <$> ds
             /\ bot_issues = List.filter (by_login login) ds.
Proof.
  revert bot_issues. induction issues as [|item issues IH]; intros bot_issues.
  - intros [= <-]. by exists [].
  - cbn [bot_issues_of]. destruct item as [| | | | | |d]; try done.
    rewrite opened_by_login_object. cbn [bind].
    destruct (bot_issues_of issues login) as [kept|e]; [|done].
    cbn [bind]. intros [= <-]. destruct (IH kept eq_refl) as (ds & -> & ->).
    exists (d :: ds). split; [done|]. cbn [List.filter].
    by destruct (by_login login d).
Qed.

Lemma filter_by_login_Forall login ds :
  Forall (fun d => by_login login d = true) (List.filter (by_login login) ds).
Proof.
  apply Forall_forall. intros d Hd%list_elem_of_In.
  by apply List.filter_In in Hd as [_ Hd].
Qed.

(** *** Invariants of a run *)

(** A property of the store kept by every write of an issue of the bot
    is kept by the run. *)
Lemma collect_from_invariant (config : Config) (P : store -> Prop) :
  (forall issue w st,
      by_login (bot config) issue = true -> P st ->
      P (snd (write_issue_file issue (full_name (target config))
                (overwrite config) w st))) ->
  forall fuel page t st w r,
    P st -> collect_from fuel config page t st w = Some r -> P (disk r).
Proof.
  intros Hwrite.
  assert (Hloop : forall bot_issues w st,
             Forall (fun d => by_login (bot config) d = true) bot_issues ->
             P st -> P (snd (write_bot_issues bot_issues config w st))).
  { induction bot_issues as [|issue rest IH]; intros w st Hall HP; [done|].
    apply Forall_cons in Hall as [Hissue Hrest].
    cbn [GithubIssues.write_bot_issues].
    pose proof (Hwrite issue w st Hissue HP) as HP1.
    destruct (write_issue_file _ _ _ _ _) as [wrote st1]. cbn [snd] in HP1.
    specialize (IH w st1 Hrest HP1).
    by destruct (write_bot_issues rest config w st1). }
  induction fuel as [|fuel IH]; intros page t st w r HP Hrun; [done|].
  cbn [GithubIssues.collect_from] in Hrun.
  destruct (fetch_issues_page _ _ _ _) as [[issues|e] w1];
    [|by inversion Hrun].
  destruct issues as [|issue issues]; [by inversion Hrun|].
  destruct (bot_issues_of _ _) as [bot_issues|e] eqn:Hbots; [|by inversion Hrun].
  destruct (bot_issues_of_returned _ _ _ Hbots) as (ds & _ & ->).
  pose proof (Hloop _ w1 st (filter_by_login_Forall _ ds) HP) as HP1.
  destruct (write_bot_issues _ config w1 st) as [written st1].
  cbn [snd] in HP1.
  destruct (_ <? _); [by inversion Hrun|].
  destruct (match max_pages config with Some _ => _ | None => _ end);
    [by inversion Hrun|].
  by eapply IH.
Qed.

(** [X10] A run never removes a file, and without [overwrite] it leaves every
    file that was there as it was. *)
Theorem run_keeps_existing_files (fuel : nat) (config : Config) (st : store)
    (w : world) (r : run) :
  main int_of_str isoformat fuel config st w = Some r ->
  (forall name, is_Some (files st !! name) -> is_Some (files (disk r) !! name))
  /\ (overwrite config = false ->
      forall name content,
        files st !! name = Some content ->
        files (disk r) !! name = Some content).
Proof.
  intros Hrun. split.
  - by destruct (collect_from_le _ _ _ _ _ _ _ _ _ Hrun).
  - intros Hov.
    refine (collect_from_invariant config
              (fun st' => forall name content,
                   files st !! name = Some content ->
                   files st' !! name = Some content)
              _ fuel 1 no_totals st w r _ Hrun); [|done].
    intros issue w' st' _ Hkeep name content Hname.
    specialize (Hkeep name content Hname).
    unfold GithubIssues.write_issue_file. rewrite Hov.
    destruct (issue_number issue) as [number|]; [|done].
    cbn [mkdir files negb].
    destruct (bool_decide (is_Some (files st' !! issue_path number))) eqn:Hex;
      cbn [andb snd files]; [done|].
    apply bool_decide_eq_false in Hex.
    rewrite lookup_insert_ne; [done|]. intros <-. apply Hex. by eexists.
Qed.

(** [X11] Whatever a run adds to the directory or changes in it is a raw item
    of an issue opened by the bot, under the repository's name, in the
    file named after the issue number. *)
Theorem only_bot_issues_persisted (fuel : nat) (config : Config) (st : store)
    (w : world) (r : run) :
  main int_of_str isoformat fuel config st w = Some r ->
  forall name content,
    files (disk r) !! name = Some content ->
    files st !! name = Some content \/ bot_item config name content.
Proof.
  intros Hrun.
  refine (collect_from_invariant config
            (fun st' => forall name content,
                 files st' !! name = Some content ->
                 files st !! name = Some content \/ bot_item config name content)
            _ fuel 1 no_totals st w r _ Hrun); [|by left].
  intros issue w' st' Hbot Hinv name content.
  unfold GithubIssues.write_issue_file.
  destruct (issue_number issue) as [number|] eqn:Hnum; [|apply Hinv].
  destruct (_ && _); cbn [snd mkdir files]; [apply Hinv|].
  rewrite lookup_insert. case_decide as Hname; [|apply Hinv].
  intros [= <-]. right. exists issue, number, (utc_now_iso isoformat w').
  split; [done|]. split; [by apply by_login_spec|]. by split.
Qed.

(** *** Totals *)

Lemma write_issue_file_size issue repo_full_name w st :
  size (files (snd (write_issue_file issue repo_full_name false w st))) =
  (size (files st)
   + if fst (write_issue_file issue repo_full_name false w st) then 1 else 0)%nat.
Proof.
  unfold GithubIssues.write_issue_file.
  destruct (issue_number issue) as [number|]; [|cbn; lia].
  cbn [mkdir files negb].
  destruct (bool_decide (is_Some (files st !! issue_path number))) eqn:Hex;
    cbn [andb negb fst snd files mkdir]; [lia|].
  apply bool_decide_eq_false in Hex.
  rewrite map_size_insert_None; [lia|].
  destruct (files st !! issue_path number) eqn:Hl; [|done].
  destruct Hex. by eexists.
Qed.

Lemma write_bot_issues_le_length bot_issues config w st :
  (fst (write_bot_issues bot_issues config w st) <= length bot_issues)%nat.
Proof.
  revert st. induction bot_issues as [|issue rest IH]; intros st; [done|].
  cbn [GithubIssues.write_bot_issues].
  destruct (write_issue_file _ _ _ _ _) as [wrote st1]. specialize (IH st1).
  destruct (write_bot_issues rest config w st1) as [written st2].
  cbn [fst length] in *. destruct wrote; lia.
Qed.

Lemma write_bot_issues_size bot_issues config w st :
  overwrite config = false ->
  size (files (snd (write_bot_issues bot_issues config w st))) =
  (size (files st) + fst (write_bot_issues bot_issues config w st))%nat.
Proof.
  intros Hov. revert st. induction bot_issues as [|issue rest IH]; intros st.
  - cbn. lia.
  - cbn [GithubIssues.write_bot_issues]. rewrite Hov.
    pose proof (write_issue_file_size issue (full_name (target config)) w st)
      as Hsize.
    destruct (write_issue_file _ _ _ _ _) as [wrote st1]. specialize (IH st1).
    destruct (write_bot_issues rest config w st1) as [written st2].
    cbn [fst snd] in *. destruct wrote; lia.
Qed.

Lemma write_bot_issues_count bot_issues config w st :
  (fst (write_bot_issues bot_issues config w st) <= length bot_issues)%nat
  /\ (overwrite config = false ->
      size (files (snd (write_bot_issues bot_issues config w st))) =
      (size (files st) + fst (write_bot_issues bot_issues config w st))%nat).
Proof.
  split; [apply write_bot_issues_le_length|apply write_bot_issues_size].
Qed.

Lemma collect_from_totals fuel config :
  forall page t st w r t1,
    collect_from fuel config page t st w = Some r ->
    outcome r = Returned t1 ->
    exists fetched matched written,
      total_fetched t1 = (total_fetched t + fetched)%nat
      /\ total_bot t1 = (total_bot t + matched)%nat
      /\ total_written t1 = (total_written t + written)%nat
      /\ (written <= matched <= fetched)%nat
      /\ (overwrite config = false ->
          size (files (disk r)) = (size (files st) + written)%nat).
Proof.
  induction fuel as [|fuel IH]; intros page t st w r t1 Hrun Hout; [done|].
  cbn [GithubIssues.collect_from] in Hrun.
  destruct (fetch_issues_page _ _ _ _) as [[issues|e] w1];
    [|by inversion Hrun; subst r].
  destruct issues as [|issue issues].
  { inversion Hrun; subst r. cbn in Hout. injection Hout as <-.
    exists 0%nat, 0%nat, 0%nat. cbn [disk].
    split; [lia|]. split; [lia|]. split; [lia|]. split; [lia|]. intros _. lia. }
  destruct (bot_issues_of _ _) as [bot_issues|e] eqn:Hbots;
    [|by inversion Hrun; subst r].
  destruct (bot_issues_of_returned _ _ _ Hbots) as (ds & Hds & Hfilter).
  assert (Hlen : (length bot_issues <= length (issue :: issues))%nat).
  { rewrite Hds, Hfilter, length_fmap. apply List.filter_length_le. }
  destruct (write_bot_issues_count bot_issues config w1 st) as [Hle Hsz].
  destruct (write_bot_issues bot_issues config w1 st) as [written st1].
  cbn [fst snd] in Hle, Hsz.
  assert (Hstop : forall r',
             r' = {| outcome := Returned
                       {| total_fetched := total_fetched t + length (issue :: issues);
                          total_bot := total_bot t + length bot_issues;
                          total_written := total_written t + written |}%nat;
                     disk := st1; final := w1 |} ->
             Some r' = Some r ->
             exists fetched matched written0,
               total_fetched t1 = (total_fetched t + fetched)%nat
               /\ total_bot t1 = (total_bot t + matched)%nat
               /\ total_written t1 = (total_written t + written0)%nat
               /\ (written0 <= matched <= fetched)%nat
               /\ (overwrite config = false ->
                   size (files (disk r)) = (size (files st) + written0)%nat)).
  { intros r' -> [= <-]. cbn in Hout. injection Hout as <-.
    exists (length (issue :: issues)), (length bot_issues), written.
    cbn [total_fetched total_bot total_written disk].
    split; [done|]. split; [done|]. split; [done|]. split; [lia|done]. }
  destruct (_ <? _); [by eapply Hstop|].
  destruct (match max_pages config with Some _ => _ | None => _ end);
    [by eapply Hstop|].
  destruct (IH _ _ _ _ _ _ Hrun Hout) as (f & m & wr & Hf & Hm & Hw & Hord & Hs).
  cbn [total_fetched total_bot total_written] in Hf, Hm, Hw.
  exists (length (issue :: issues) + f)%nat, (length bot_issues + m)%nat,
    (written + wr)%nat.
  split; [lia|]. split; [lia|]. split; [lia|]. split; [lia|].
  intros Hov. rewrite (Hs Hov), (Hsz Hov). lia.
Qed.

(** [X12] The totals a run reports are consistent: it wrote no more files than
    it matched issues, and matched no more issues than it fetched. *)
Theorem totals_are_ordered (fuel : nat) (config : Config) (st : store)
    (w : world) (r : run) (t : totals) :
  main int_of_str isoformat fuel config st w = Some r ->
  outcome r = Returned t ->
  totals_ordered t.
Proof.
  intros Hrun Hout.
  destruct (collect_from_totals _ _ _ _ _ _ _ _ Hrun Hout)
    as (f & m & wr & Hf & Hm & Hw & Hord & _).
  unfold totals_ordered. cbn in Hf, Hm, Hw. lia.
Qed.

(** [X13] Without [overwrite], the number of files a run reports as written
    is the number of files it added to the directory. *)
Theorem written_counts_new_files (fuel : nat) (config : Config) (st : store)
    (w : world) (r : run) (t : totals) :
  overwrite config = false ->
  main int_of_str isoformat fuel config st w = Some r ->
  outcome r = Returned t ->
  size (files (disk r)) = (size (files st) + total_written t)%nat.
Proof.
  intros Hov Hrun Hout.
  destruct (collect_from_totals _ _ _ _ _ _ _ _ Hrun Hout)
    as (f & m & wr & Hf & Hm & Hw & Hord & Hsize).
  rewrite (Hsize Hov). cbn in Hw. lia.
Qed.

(** *** A bounded run *)

Lemma fetch_issues_page_requests page per_page state w :
  (requests w < requests (snd (fetch_issues_page page per_page state w))
   <= requests w + 2)%nat.
Proof.
  rewrite fetch_issues_page_eq. cbv zeta.
  destruct (status_code _ =? HTTP_FORBIDDEN); [|cbn; lia].
  pose proof (sleep_until_reset_server int_of_str
                (fst (session_get {| q_state := state; q_per_page := per_page;
                                     q_page := page |} w))
                (snd (session_get {| q_state := state; q_per_page := per_page;
                                     q_page := page |} w))) as [_ Hreq].
  destruct (GithubIssues.sleep_until_reset _ _ _) as [[[]|e] w2];
    cbn [snd session_get requests] in *; lia.
Qed.

Lemma collect_from_ceiling config m fuel :
  max_pages config = Some m ->
  forall page t st w,
    1 <= page <= Z.max 1 m ->
    (Z.to_nat (Z.max 1 m - page) < fuel)%nat ->
    exists r,
      collect_from fuel config page t st w = Some r
      /\ (requests w < requests (final r)
          <= requests w + 2 * Z.to_nat (Z.max 1 m - page + 1))%nat.
Proof.
  intros Hm. induction fuel as [|fuel IH]; intros page t st w Hpage Hfuel; [lia|].
  cbn [GithubIssues.collect_from].
  pose proof (fetch_issues_page_requests page (per_page config) (state config) w)
    as Hreq.
  destruct (fetch_issues_page _ _ _ _) as [[issues|e] w1]; cbn [snd] in Hreq;
    [|eexists; split; [done|cbn; lia]].
  destruct issues as [|issue issues]; [eexists; split; [done|cbn; lia]|].
  destruct (bot_issues_of _ _) as [bot_issues|e];
    [|eexists; split; [done|cbn; lia]].
  destruct (write_bot_issues bot_issues config w1 st) as [written st1].
  destruct (_ <? _); [eexists; split; [done|cbn; lia]|].
  rewrite Hm. destruct (Z.leb_spec m page) as [Hstop|Hgo];
    [eexists; split; [done|cbn; lia]|].
  destruct (IH (page + 1)
              {| total_fetched := total_fetched t + length (issue :: issues);
                 total_bot := total_bot t + length bot_issues;
                 total_written := total_written t + written |}%nat st1 w1)
    as (r & Hr & Hbound); [lia|lia|].
  exists r. split; [done|]. lia.
Qed.

(** [X14] With a ceiling on the number of pages a run ends, whatever the
    remote service answers: it takes at most [max(1, max_pages)] turns
    of the loop and sends at least one and at most twice as many
    requests. *)
Theorem ceiling_bounds_run (fuel : nat) (config : Config) (m : Z) (st : store)
    (w : world) :
  max_pages config = Some m ->
  (Z.to_nat (Z.max 1 m) <= fuel)%nat ->
  exists r,
    main int_of_str isoformat fuel config st w = Some r
    /\ (requests w < requests (final r)
        <= requests w + 2 * Z.to_nat (Z.max 1 m))%nat.
Proof.
  intros Hm Hfuel.
  destruct (collect_from_ceiling config m fuel Hm 1 no_totals st w)
    as (r & Hr & Hbound); [lia|lia|].
  exists r. split; [done|].
  replace (Z.max 1 m - 1 + 1) with (Z.max 1 m) in Hbound by lia. done.
Qed.

(** *** Overwriting *)

Lemma write_issue_file_frame issue repo_full_name overwrite w st name :
  (forall number, issue_number issue = Some number -> name <> issue_path number) ->
  files (snd (write_issue_file issue repo_full_name overwrite w st)) !! name
  = files st !! name.
Proof.
  intros Hname. unfold GithubIssues.write_issue_file.
  destruct (issue_number issue) as [number|]; [|done].
  destruct (_ && _); cbn [snd mkdir files]; [done|].
  rewrite lookup_insert_ne; [done|]. intros Heq. by apply (Hname number).
Qed.

Lemma write_bot_issues_frame bot_issues config w st name :
  name ∉ page_paths bot_issues ->
  files (snd (write_bot_issues bot_issues config w st)) !! name = files st !! name.
Proof.
  revert st. induction bot_issues as [|issue rest IH]; intros st Hname; [done|].
  cbn [GithubIssues.write_bot_issues].
  pose proof (write_issue_file_frame issue (full_name (target config))
                (overwrite config) w st name) as Hframe.
  destruct (write_issue_file _ _ _ _ _) as [wrote st1]. cbn [snd] in Hframe.
  assert (Hrest : name ∉ page_paths rest).
  { intros Hin. apply Hname. unfold page_paths in *. cbn [omap list_omap].
    destruct (issue_path <$> issue_number issue); [by right|done]. }
  specialize (IH st1 Hrest).
  destruct (write_bot_issues rest config w st1) as [written st2].
  cbn [snd] in *. rewrite IH. apply Hframe.
  intros number Hnum ->. apply Hname. unfold page_paths. cbn [omap list_omap].
  rewrite Hnum. by left.
Qed.

(** [X15] With [overwrite] on, writing a page whose issues go to pairwise
    different files writes every numbered issue: each file then holds
    its issue as just fetched, the count is the number of numbered
    issues, and no other file is touched. *)
Theorem overwrite_refreshes_files (bot_issues : list JsonObject)
    (config : Config) (w : world) (st : store) :
  overwrite config = true ->
  NoDup (page_paths bot_issues) ->
  fst (write_bot_issues bot_issues config w st) = length (page_paths bot_issues)
  /\ (forall issue number,
        issue ∈ bot_issues -> issue_number issue = Some number ->
        files (snd (write_bot_issues bot_issues config w st)) !! issue_path number
        = Some (Some (raw_item issue (full_name (target config))
                        (utc_now_iso isoformat w))))
  /\ (forall name,
        name ∉ page_paths bot_issues ->
        files (snd (write_bot_issues bot_issues config w st)) !! name
        = files st !! name).
Proof.
  intros Hov Hnd. split; [|split].
  - clear Hnd. revert st. induction bot_issues as [|issue rest IH]; intros st;
      [done|].
    cbn [GithubIssues.write_bot_issues]. unfold page_paths. cbn [omap list_omap].
    unfold GithubIssues.write_issue_file at 1. rewrite Hov.
    destruct (issue_number issue) as [number|]; cbn [fmap option_fmap option_map].
    + rewrite andb_false_r. specialize (IH
        {| dir_exists := dir_exists (mkdir st);
           files := <[issue_path number:=Some (raw_item issue
                       (full_name (target config)) (utc_now_iso isoformat w))]>
                      (files (mkdir st)) |}).
      destruct (write_bot_issues rest config w _) as [written st2].
      cbn [fst length] in *. by rewrite IH.
    + specialize (IH st).
      destruct (write_bot_issues rest config w st) as [written st2].
      cbn [fst] in *. by rewrite IH.
  - revert st Hnd. induction bot_issues as [|first rest IH]; intros st Hnd issue number Hin Hnum.
    { by apply elem_of_nil in Hin. }
    cbn [GithubIssues.write_bot_issues].
    destruct (write_issue_file first _ _ w st) as [wrote st1] eqn:Hw.
    pose proof (write_bot_issues_frame rest config w st1) as Hframe.
    assert (Hnd' : NoDup (page_paths rest)).
    { unfold page_paths in *. cbn [omap list_omap] in Hnd.
      destruct (issue_path <$> issue_number first); [|done].
      by apply NoDup_cons in Hnd as [_ ?]. }
    specialize (IH st1 Hnd' issue number).
    destruct (write_bot_issues rest config w st1) as [written st2].
    cbn [snd] in *.
    apply elem_of_cons in Hin as [->|Hin]; [|by apply IH].
    rewrite Hframe.
    + unfold GithubIssues.write_issue_file in Hw. rewrite Hnum, Hov in Hw.
      rewrite andb_false_r in Hw. injection Hw as _ <-. cbn [files].
      by rewrite lookup_insert_eq.
    + unfold page_paths in Hnd. cbn [omap list_omap] in Hnd.
      rewrite Hnum in Hnd. cbn in Hnd. by apply NoDup_cons in Hnd as [? _].
  - intros name Hname. by apply write_bot_issues_frame.
Qed.

End MoreCollector.

Section MoreFetch.
Import GithubIssues.

Variable int_of_str : string -> option Z.
Variable isoformat : Z -> string.

(** [X16] Whatever the service answers, fetching a page sends one or two
    requests, both for that page, sleeps at most once in between and
    then for at least five seconds, and never sets the clock back. *)
Theorem fetch_sends_same_page (w : world) (page per_page : Z) (state : string) :
  let q := {| q_state := state; q_per_page := per_page; q_page := page |} in
  let fetched := fetch_issues_page int_of_str isoformat page per_page state w in
  (trace (snd fetched) = trace w ++ [Get q]
   \/ trace (snd fetched) = trace w ++ [Get q; Get q]
   \/ exists secs, 5 <= secs
                   /\ trace (snd fetched) = trace w ++ [Get q; Sleep secs; Get q])
  /\ now w <= now (snd fetched).
Proof.
  intros q fetched. unfold fetched. rewrite fetch_issues_page_eq. cbv zeta.
  fold q. cbn [session_get fst snd].
  set (first := server w q (requests w)).
  destruct (Z.eqb_spec (status_code first) HTTP_FORBIDDEN) as [Hst|Hst].
  - unfold GithubIssues.sleep_until_reset.
    destruct (negb (rate_limited first)).
    + cbn [snd trace now]. rewrite <- app_assoc. split; [by right; left|lia].
    + destruct (int_of_str _) as [reset_ts|].
      * destruct (fromtimestamp_utc_year reset_ts).
        -- unfold time_sleep. destruct (_ || _); [split; [by left|cbn; lia]|].
           destruct (_ <? 0); [split; [by left|cbn; lia]|].
           destruct (_ <? _); [split; [by left|cbn; lia]|].
           cbn [snd trace now]. rewrite <- !app_assoc.
           split; [right; right; eexists; split; [|done]; lia|lia].
        -- cbn [fst snd trace now]. split; [by left|lia].
      * cbn [fst snd trace now]. split; [by left|lia].
  - cbn [snd trace now]. split; [by left|lia].
Qed.

End MoreFetch.

(** ** Strings *)
Section MoreStrings.

Lemma str_app_cons c (a b : string) : String c a +:+ b = String c (a +:+ b).
Proof. done. Qed.

Lemma str_app_assoc (a b c : string) : (a +:+ b) +:+ c = a +:+ (b +:+ c).
Proof.
  induction a as [|x a IH]; [done|]. rewrite !str_app_cons. by rewrite IH.
Qed.

Lemma str_app_nil_r (a : string) : a +:+ "" = a.
Proof. induction a as [|x a IH]; [done|]. rewrite str_app_cons. by rewrite IH. Qed.

Lemma str_length_app (a b : string) :
  String.length (a +:+ b) = (String.length a + String.length b)%nat.
Proof.
  induction a as [|x a IH]; [done|]. rewrite str_app_cons. cbn. by rewrite IH.
Qed.

Lemma prefix_iff (p s : string) :
  String.prefix p s = true <-> exists rest, s = p +:+ rest.
Proof.
  revert s. induction p as [|c p IH]; intros s.
  - split; [by exists s|intros _; by destruct s].
  - destruct s as [|d s]; cbn [String.prefix].
    + split; [done|]. by intros [rest ?].
    + destruct (Ascii.ascii_dec c d) as [->|Hne].
      * rewrite IH. split; intros [rest Hrest]; exists rest.
        -- by rewrite str_app_cons, Hrest.
        -- rewrite str_app_cons in Hrest. by injection Hrest.
      * split; [done|]. intros [rest Hrest]. rewrite str_app_cons in Hrest.
        by injection Hrest as -> _.
Qed.

Lemma rev_app_spec (a b : string) :
  String.rev_app a b = String.rev a +:+ b.
Proof.
  unfold String.rev. revert b. induction a as [|c a IH]; intros b; [done|].
  cbn [String.rev_app]. rewrite (IH (String c b)), (IH (String c "")).
  by rewrite str_app_assoc.
Qed.

Lemma rev_app_distr (a b : string) :
  String.rev (a +:+ b) = String.rev b +:+ String.rev a.
Proof.
  induction a as [|c a IH].
  - change ("" +:+ b) with b. change (String.rev "") with "".
    by rewrite str_app_nil_r.
  - rewrite str_app_cons. unfold String.rev at 1 3. cbn [String.rev_app].
    rewrite !rev_app_spec, IH. by rewrite str_app_assoc.
Qed.

Lemma rev_involutive (a : string) : String.rev (String.rev a) = a.
Proof.
  induction a as [|c a IH]; [done|].
  unfold String.rev at 2. cbn [String.rev_app].
  rewrite rev_app_spec, rev_app_distr, IH. done.
Qed.

Lemma ends_with_iff (suffix s : string) :
  Normalize.ends_with suffix s = true <-> exists front, s = front +:+ suffix.
Proof.
  unfold Normalize.ends_with. rewrite prefix_iff. split.
  - intros [rest Hrest]. exists (String.rev rest).
    rewrite <- (rev_involutive s), Hrest, rev_app_distr.
    by rewrite rev_involutive.
  - intros [front ->]. exists (String.rev front). apply rev_app_distr.
Qed.

(** Two ways of cutting one string: the shorter front is a front of the
    longer one. *)
Lemma str_app_split (a b c d : string) :
  a +:+ b = c +:+ d -> (String.length a <= String.length c)%nat ->
  exists m, c = a +:+ m /\ b = m +:+ d.
Proof.
  revert c. induction a as [|x a IH]; intros c Heq Hlen.
  - by exists c.
  - destruct c as [|y c]; [cbn in Hlen; lia|].
    rewrite !str_app_cons in Heq. injection Heq as -> Heq.
    destruct (IH c Heq) as (m & -> & ->); [cbn in Hlen; lia|].
    by exists m.
Qed.

(** [X17] [needle in haystack] holds exactly when the haystack can be cut
    around a copy of the needle. *)
Theorem contains_spec (needle haystack : string) :
  contains needle haystack = true
  <-> exists front back, haystack = front +:+ needle +:+ back.
Proof.
  induction haystack as [|c hay IH]; cbn [contains].
  - rewrite orb_false_r, prefix_iff. split.
    + intros [rest Hrest]. by exists "", rest.
    + intros (front & back & Heq). destruct front; [by exists back|done].
  - rewrite orb_true_iff, prefix_iff, IH. split.
    + intros [[rest Hrest]|(front & back & ->)].
      * by exists "", rest.
      * by exists (String c front), back.
    + intros (front & back & Heq). destruct front as [|x front].
      * left. by exists back.
      * right. rewrite str_app_cons in Heq. injection Heq as -> ->.
        by exists front, back.
Qed.

Lemma glob_issue_intro (middle : string) :
  Normalize.glob_issue ("issue_" +:+ middle +:+ ".json") = true.
Proof.
  unfold Normalize.glob_issue.
  rewrite !andb_true_iff, prefix_iff, ends_with_iff, Nat.leb_le.
  split; [split|].
  - by eexists.
  - exists ("issue_" +:+ middle). by rewrite str_app_assoc.
  - rewrite !str_length_app. cbn. lia.
Qed.

Lemma glob_issue_issue_path number :
  Normalize.glob_issue (GithubIssues.issue_path number) = true.
Proof. apply glob_issue_intro. Qed.

(** [X18] The pattern [issue_*.json] matches exactly the names made of
    ["issue_"], anything, and [".json"]; so it matches every file the
    collector writes, whatever the number. *)
Theorem glob_issue_spec (name : string) :
  (Normalize.glob_issue name = true
   <-> exists middle, name = "issue_" +:+ middle +:+ ".json")
  /\ forall number, Normalize.glob_issue (GithubIssues.issue_path number) = true.
Proof.
  split; [split|].
  - unfold Normalize.glob_issue.
    rewrite !andb_true_iff, prefix_iff, ends_with_iff, Nat.leb_le.
    intros [[[rest ->] [front Hfront]] Hlen].
    destruct (str_app_split "issue_" rest front ".json" Hfront)
      as (m & -> & ->); [|by exists m].
    assert (Hl := f_equal String.length Hfront).
    rewrite !str_length_app in Hl. rewrite str_length_app in Hlen.
    cbn in Hl, Hlen |- *. lia.
  - intros [middle ->]. apply glob_issue_intro.
  - intros number. apply (glob_issue_intro (str_int number)).
Qed.

End MoreStrings.

(** ** More on normalization *)

Section MoreNormalizer.
Import Normalize.

Variable Submission : Type.
Variable from_github_issue_payload :
  json -> string -> string -> option string -> list string -> option Submission.

Local Abbreviation normalize_file :=
  (normalize_file Submission from_github_issue_payload).
Local Abbreviation normalize_files :=
  (normalize_files Submission from_github_issue_payload).
Local Abbreviation _normalize_dir :=
  (_normalize_dir Submission from_github_issue_payload).

Lemma normalize_files_returned (paths : list entry) (t t' : tally Submission) :
  normalize_files paths t = Returned t' ->
  Forall well_formed paths
  /\ (length (submissions t') + skipped t' + failed t'
      = length (submissions t) + skipped t + failed t + length paths)%nat.
Proof.
  revert t. induction paths as [|path paths IH]; intros t.
  - intros [= <-]. split; [constructor|]. cbn. lia.
  - cbn [Normalize.normalize_files].
    destruct (normalize_file (snd path) t) as [t1|e] eqn:Hstep; [|done].
    cbn [bind]. intros Hrest. destruct (IH _ Hrest) as [Hwf Hcount].
    destruct (normalize_file_step _ _ _ _ _ Hstep) as [_ Hone].
    split; [|cbn [length]; lia]. constructor; [|done].
    unfold Normalize.normalize_file in Hstep.
    destruct (snd path) as [[| | | | | |raw]|] eqn:Hsnd; try done.
    by exists raw.
Qed.

(** [X19] [_normalize_dir] returns exactly when every file of the directory
    that matches [issue_*.json] decodes to a JSON object; it then counts
    each of these files once, as a submission, as skipped or as
    failed. *)
Theorem normalize_dir_returns_iff (in_dir : gmap string (option json)) :
  (is_returned (_normalize_dir in_dir) = true
   <-> forall name content,
         in_dir !! name = Some content -> glob_issue name = true ->
         exists raw, content = Some (JObj raw))
  /\ forall t,
       _normalize_dir in_dir = Returned t ->
       (length (submissions t) + skipped t + failed t
        = length (issue_files in_dir))%nat.
Proof.
  assert (Hfiles : Forall well_formed (issue_files in_dir)
                   <-> forall name content,
                         in_dir !! name = Some content -> glob_issue name = true ->
                         exists raw, content = Some (JObj raw)).
  { rewrite issue_files_Permutation, Forall_forall. split.
    - intros Hall name content Hlook Hglob.
      apply (Hall (name, content)), list_elem_of_filter. split; [done|].
      by apply elem_of_map_to_list.
    - intros Hall [name content] [Hglob Hin]%list_elem_of_filter.
      apply elem_of_map_to_list in Hin. by apply (Hall name content). }
  split.
  - rewrite <- Hfiles. unfold Normalize._normalize_dir. split.
    + destruct (normalize_files _ _) as [t|e] eqn:Hrun; [|done]. intros _.
      by destruct (normalize_files_returned _ _ _ Hrun).
    + intros Hwf.
      by destruct (normalize_files_well_formed Submission
                     from_github_issue_payload _ (no_tally _) Hwf)
        as (t & -> & _).
  - intros t Hrun. destruct (normalize_files_returned _ _ _ Hrun) as [_ Hcount].
    cbn in Hcount. lia.
Qed.

(** The files of two directories that match the pattern are the same
    lists when they are the same up to order. *)
Lemma issue_files_ext (dir1 dir2 : gmap string (option json)) :
  filter (fun e : entry => glob_issue (fst e) = true) (map_to_list dir1)
  ≡ₚ filter (fun e : entry => glob_issue (fst e) = true) (map_to_list dir2) ->
  issue_files dir1 = issue_files dir2.
Proof.
  intros Hperm.
  apply (StronglySorted_unique_strong path_le);
    [|apply issue_files_sorted..|by rewrite !issue_files_Permutation].
  intros [n1 c1] [n2 c2] H1 H2 Hle1 Hle2.
  rewrite issue_files_Permutation, Hperm in H1.
  rewrite issue_files_Permutation in H2.
  apply list_elem_of_filter in H1 as [_ H1], H2 as [_ H2].
  apply elem_of_map_to_list in H1, H2. unfold path_le in *. cbn [fst] in *.
  assert (n1 = n2) as -> by (by apply (anti_symm String.le)).
  rewrite H1 in H2. by injection H2 as ->.
Qed.

Lemma issue_files_delete (in_dir : gmap string (option json)) name :
  glob_issue name = false ->
  issue_files (delete name in_dir) = issue_files in_dir.
Proof.
  intros Hglob. apply issue_files_ext.
  destruct (in_dir !! name) as [content|] eqn:Hlook; [|by rewrite delete_id].
  rewrite <- (insert_delete_id in_dir name content Hlook) at 2.
  rewrite map_to_list_insert by apply lookup_delete_eq.
  rewrite filter_cons_False; [done|]. cbn [fst]. by rewrite Hglob.
Qed.

(** [X20] Files that do not match [issue_*.json] play no part: adding one,
    changing one or removing one leaves the result as it is. *)
Theorem unrelated_files_ignored (in_dir : gmap string (option json))
    (name : string) (content : option json) :
  glob_issue name = false ->
  _normalize_dir (<[name := content]> in_dir) = _normalize_dir in_dir
  /\ _normalize_dir (delete name in_dir) = _normalize_dir in_dir.
Proof.
  intros Hglob. unfold Normalize._normalize_dir. split.
  - rewrite <- (issue_files_delete (<[name := content]> in_dir) name Hglob).
    by rewrite delete_insert_eq, issue_files_delete.
  - by rewrite issue_files_delete.
Qed.

(** *** Labels *)

Lemma labels_from_list (issue : JsonObject) (items : list json) :
  get "labels" issue = JList items ->
  _labels_from_issue issue =
  omap (fun item =>
          match item with
          | JObj d => match get "name" d with JStr name => Some name | _ => None end
          | _ => None
          end) items.
Proof.
  unfold get, _labels_from_issue.
  destruct (assoc "labels" issue) as [[]|]; cbn [default]; try done.
  by intros [= ->].
Qed.

(** [X21] [_labels_from_issue] reads the names of the label objects in the
    order of the list: a list of named label objects gives back its
    names, anything that is not a label object with a string name is
    passed over, and an issue whose [labels] is not a list has no
    labels. *)
Theorem labels_from_issue_spec (issue : JsonObject) :
  (forall items names,
      get "labels" issue = JList items ->
      Forall2 label_named items names ->
      _labels_from_issue issue = names)
  /\ (forall items name,
        get "labels" issue = JList items ->
        name ∈ _labels_from_issue issue
        <-> exists item, item ∈ items /\ label_named item name)
  /\ (isinstance_list (get "labels" issue) = false ->
      _labels_from_issue issue = []).
Proof.
  split; [|split].
  - intros items names Hget Hall. rewrite (labels_from_list _ _ Hget).
    clear Hget. induction Hall as [|item name items names (d & -> & Hd) _ IH];
      [done|].
    cbn [omap list_omap]. rewrite Hd. by f_equal.
  - intros items name Hget. rewrite (labels_from_list _ _ Hget).
    rewrite list_elem_of_omap. split.
    + intros (item & Hin & Hname). exists item. split; [done|].
      destruct item as [| | | | | |d]; try done. exists d. split; [done|].
      destruct (get "name" d); try done. by injection Hname as ->.
    + intros (item & Hin & d & -> & Hd). exists (JObj d). split; [done|].
      by rewrite Hd.
  - unfold get, _labels_from_issue.
    by destruct (assoc "labels" issue) as [[]|].
Qed.

End MoreNormalizer.

(** ** The pipeline *)
Section Pipeline.

Variable int_of_str : string -> option Z.
Variable isoformat : Z -> string.
Variable Submission : Type.
Variable from_github_issue_payload :
  json -> string -> string -> option string -> list string -> option Submission.

Lemma keyed_issue_files (in_dir : gmap string (option json)) :
  keyed in_dir ->
  Forall well_formed (Normalize.issue_files in_dir)
  /\ length (Normalize.issue_files in_dir) = size in_dir.
Proof.
  intros Hkeyed.
  assert (Hall : Forall (fun e : Normalize.entry =>
                           Normalize.glob_issue (fst e) = true /\ well_formed e)
                        (map_to_list in_dir)).
  { apply Forall_forall. intros [name content] Hin%elem_of_map_to_list.
    destruct (Hkeyed _ _ Hin) as (number & Hnum & ->). cbn [fst].
    split; [apply glob_issue_issue_path|].
    unfold raw_number in Hnum. destruct content as [[| | | | | |raw]|]; try done.
    by exists raw. }
  assert (Hfilter : filter (fun e : Normalize.entry =>
                              Normalize.glob_issue (fst e) = true)
                      (map_to_list in_dir) = map_to_list in_dir).
  { revert Hall. generalize (map_to_list in_dir).
    induction l as [|e l IH]; [done|]. intros [[Hg _] Hall]%Forall_cons.
    rewrite filter_cons_True by done. f_equal. by apply IH. }
  split.
  - rewrite issue_files_Permutation, Hfilter.
    eapply Forall_impl; [exact Hall|]. by intros e [_ ?].
  - rewrite issue_files_Permutation, Hfilter. apply length_map_to_list.
Qed.

(** [X22] What the collector leaves on disk, the normalizer reads to the end:
    started on a directory whose files are named after their issues (an
    empty one, say), a run leaves a directory on which [_normalize_dir]
    returns, every file of it counted once. *)
Theorem collector_output_normalizes (fuel : nat) (config : GithubIssues.Config)
    (st : GithubIssues.store) (w : GithubIssues.world) (r : GithubIssues.run) :
  keyed (GithubIssues.files st) ->
  GithubIssues.main int_of_str isoformat fuel config st w = Some r ->
  exists t,
    Normalize._normalize_dir Submission from_github_issue_payload
      (GithubIssues.files (GithubIssues.disk r)) = Returned t
    /\ (length (Normalize.submissions t) + Normalize.skipped t + Normalize.failed t
        = size (GithubIssues.files (GithubIssues.disk r)))%nat.
Proof.
  intros Hkeyed Hrun.
  pose proof (collect_from_keyed _ _ _ _ _ _ _ _ _ Hkeyed Hrun) as Hk.
  destruct (keyed_issue_files _ Hk) as [Hwf Hlen].
  destruct (normalize_files_well_formed Submission from_github_issue_payload
              _ (Normalize.no_tally _) Hwf) as (t & Ht & Hcount).
  exists t. split; [done|]. rewrite <- Hlen. cbn in Hcount. lia.
Qed.

End Pipeline.

(** ** The further properties on examples *)
Section MoreExamples.
Import GithubIssues.

Lemma unix_to_year_monotone_witness :
  IssuesPerYear._unix_to_year 1640995199 = Returned 2021
  /\ IssuesPerYear._unix_to_year 1640995200 = Returned 2022
  /\ 2021 <= 2022.
Proof.
  split; [reflexivity|]. split; [reflexivity|].
  apply (unix_to_year_monotone 1640995199 1640995200 2021 2022);
    [lia|reflexivity|reflexivity].
Defined.

Lemma count_years_returns_iff_witness :
  timestamps_in_range "Opened" false sample_records
  /\ is_returned (IssuesPerYear._count_years sample_records "Opened" false) = true.
Proof.
  assert (Hrange : timestamps_in_range "Opened" false sample_records)
    by (repeat constructor; vm_compute;
        solve [intros _; split; discriminate | discriminate]).
  split; [exact Hrange|].
  exact (proj2 (count_years_returns_iff sample_records "Opened" false) Hrange).
Defined.

Lemma load_submissions_round_trip_witness :
  IssuesPerYear._load_submissions (Some (JObj [("Opened", JInt 0)])) =
  Raised (RuntimeError "Expected top-level JSON list of submissions").
Proof.
  exact (proj2 (proj2 load_submissions_round_trip)
           (JObj [("Opened", JInt 0)]) eq_refl).
Defined.

Lemma bot_filter_spec_witness :
  bot_issues_of (JObj <$> five_issues) "editorialbot"
  = Returned [by_bot 12; by_bot 10; numberless; by_bot 5]
  /\ opened_by "editorialbot" numberless.
Proof.
  split.
  - exact (proj1 (bot_filter_spec "editorialbot") five_issues).
  - exact (proj1 (proj1 (proj2 (bot_filter_spec "editorialbot")) numberless) eq_refl).
Defined.

Lemma run_keeps_existing_files_witness :
  exists r,
    main sample_int_of_str sample_isoformat 4 two_per_page store_with_notes
      (fresh_world (paginated_source five_issues) 0) = Some r
    /\ files (disk r) !! "notes.txt" = Some None.
Proof.
  destruct (main sample_int_of_str sample_isoformat 4 two_per_page
              store_with_notes (fresh_world (paginated_source five_issues) 0))
    as [r|] eqn:Hrun; [|by vm_compute in Hrun].
  exists r. split; [done|].
  exact (proj2 (run_keeps_existing_files sample_int_of_str sample_isoformat
                  4 two_per_page store_with_notes _ r Hrun)
           eq_refl "notes.txt" None eq_refl).
Defined.

Lemma only_bot_issues_persisted_witness :
  exists r,
    main sample_int_of_str sample_isoformat 4 two_per_page empty_store
      (fresh_world (paginated_source five_issues) 0) = Some r
    /\ forall name content,
         files (disk r) !! name = Some content ->
         bot_item two_per_page name content.
Proof.
  destruct (main sample_int_of_str sample_isoformat 4 two_per_page
              empty_store (fresh_world (paginated_source five_issues) 0))
    as [r|] eqn:Hrun; [|by vm_compute in Hrun].
  exists r. split; [done|]. intros name content Hlook.
  destruct (only_bot_issues_persisted sample_int_of_str sample_isoformat
              4 two_per_page empty_store _ r Hrun name content Hlook)
    as [Hold|Hnew]; [|exact Hnew].
  cbn [empty_store files] in Hold. by rewrite lookup_empty in Hold.
Defined.

Lemma totals_are_ordered_witness :
  exists r t,
    main sample_int_of_str sample_isoformat 4 two_per_page empty_store
      (fresh_world (paginated_source five_issues) 0) = Some r
    /\ outcome r = Returned t
    /\ totals_ordered t.
Proof.
  destruct (main sample_int_of_str sample_isoformat 4 two_per_page
              empty_store (fresh_world (paginated_source five_issues) 0))
    as [r|] eqn:Hrun; [|by vm_compute in Hrun].
  assert (Hout : outcome r =
            Returned {| total_fetched := 5; total_bot := 4; total_written := 3 |}).
  { vm_compute in Hrun. by injection Hrun as <-. }
  exists r, {| total_fetched := 5; total_bot := 4; total_written := 3 |}.
  split; [done|]. split; [done|].
  exact (totals_are_ordered sample_int_of_str sample_isoformat 4 two_per_page
           empty_store _ r _ Hrun Hout).
Defined.

Lemma written_counts_new_files_witness :
  exists r,
    main sample_int_of_str sample_isoformat 4 two_per_page store_with_notes
      (fresh_world (paginated_source five_issues) 0) = Some r
    /\ size (files (disk r)) = 4%nat.
Proof.
  destruct (main sample_int_of_str sample_isoformat 4 two_per_page
              store_with_notes (fresh_world (paginated_source five_issues) 0))
    as [r|] eqn:Hrun; [|by vm_compute in Hrun].
  assert (Hout : outcome r =
            Returned {| total_fetched := 5; total_bot := 4; total_written := 3 |}).
  { vm_compute in Hrun. by injection Hrun as <-. }
  exists r. split; [done|].
  rewrite (written_counts_new_files sample_int_of_str sample_isoformat 4
             two_per_page store_with_notes _ r _ eq_refl Hrun Hout).
  reflexivity.
Defined.

Lemma ceiling_bounds_run_witness :
  exists r,
    main sample_int_of_str sample_isoformat 2 two_pages_at_most empty_store
      (fresh_world full_pages_forever 0) = Some r
    /\ (0 < requests (final r) <= 4)%nat.
Proof.
  exact (ceiling_bounds_run sample_int_of_str sample_isoformat 2
           two_pages_at_most 2 empty_store (fresh_world full_pages_forever 0)
           eq_refl (le_n 2)).
Defined.

Lemma overwrite_refreshes_files_witness :
  page_paths one_page = ["issue_12.json"; "issue_5.json"]
  /\ fst (write_bot_issues sample_isoformat one_page two_pages_at_most
            (fresh_world full_pages_forever 0) store_with_notes) = 2%nat.
Proof.
  split; [reflexivity|].
  refine (proj1 (overwrite_refreshes_files sample_isoformat one_page
                   two_pages_at_most (fresh_world full_pages_forever 0)
                   store_with_notes eq_refl _)).
  apply (bool_decide_unpack _). vm_compute. exact I.
Defined.

Lemma contains_spec_witness :
  contains Normalize.MARKER GOOD_BODY = true.
Proof.
  apply (proj2 (contains_spec Normalize.MARKER GOOD_BODY)).
  by exists "**Submitting author:** ", "@someone<!--end-author-handle-->".
Defined.

Lemma glob_issue_spec_witness :
  Normalize.glob_issue "issue_7_copy.json" = true.
Proof.
  apply (proj2 (proj1 (glob_issue_spec "issue_7_copy.json"))).
  by exists "7_copy".
Defined.

Lemma normalize_dir_returns_iff_witness :
  exists t,
    Normalize._normalize_dir _ Normalize.sample_parser dir_10_5 = Returned t
    /\ (length (Normalize.submissions t) + Normalize.skipped t + Normalize.failed t
        = length (Normalize.issue_files dir_10_5))%nat.
Proof.
  exists {| Normalize.submissions := [sample_of 10; sample_of 5];
            Normalize.skipped := 0; Normalize.failed := 0 |}.
  assert (Hrun : Normalize._normalize_dir _ Normalize.sample_parser dir_10_5 =
            Returned {| Normalize.submissions := [sample_of 10; sample_of 5];
                        Normalize.skipped := 0; Normalize.failed := 0 |})
    by reflexivity.
  split; [exact Hrun|].
  exact (proj2 (normalize_dir_returns_iff _ Normalize.sample_parser dir_10_5) _ Hrun).
Defined.

Lemma unrelated_files_ignored_witness :
  Normalize._normalize_dir _ Normalize.sample_parser (<["README.md" := None]> dir_10_5)
  = Normalize._normalize_dir _ Normalize.sample_parser dir_10_5.
Proof.
  exact (proj1 (unrelated_files_ignored _ Normalize.sample_parser dir_10_5
                  "README.md" None eq_refl)).
Defined.

Lemma labels_from_issue_spec_witness :
  Normalize._labels_from_issue (issue_fields 5 GOOD_BODY) = ["review"].
Proof.
  apply (proj1 (labels_from_issue_spec (issue_fields 5 GOOD_BODY))
           [JObj [("name", JStr "review")]] ["review"] eq_refl).
  repeat constructor. by eexists.
Defined.

Lemma collector_output_normalizes_witness :
  exists r t,
    main sample_int_of_str sample_isoformat 4 two_per_page empty_store
      (fresh_world (paginated_source five_issues) 0) = Some r
    /\ Normalize._normalize_dir _ Normalize.sample_parser (files (disk r)) = Returned t
    /\ (length (Normalize.submissions t) + Normalize.skipped t + Normalize.failed t
        = size (files (disk r)))%nat.
Proof.
  destruct (main sample_int_of_str sample_isoformat 4 two_per_page
              empty_store (fresh_world (paginated_source five_issues) 0))
    as [r|] eqn:Hrun; [|by vm_compute in Hrun].
  assert (Hkeyed : keyed (files empty_store)).
  { intros name content Hlook. cbn [empty_store files] in Hlook.
    by rewrite lookup_empty in Hlook. }
  destruct (collector_output_normalizes sample_int_of_str sample_isoformat
              _ Normalize.sample_parser 4 two_per_page empty_store
              (fresh_world (paginated_source five_issues) 0) r Hkeyed Hrun)
    as (t & Ht & Hcount).
  by exists r, t.
Defined.

End MoreExamples.

